(** * Account lifecycle and authorization of the campus card application

    A shallow embedding of the service layer of the repository
    (UserService, AuthService, AdminService, StaffService, the AuthProvider
    context and the profile screen's loader) together with the properties
    of the account lifecycle that the design document states.

    The Firestore collection, the Firebase Auth account store and the React
    state of the screens are explicit components of a [World]; every
    asynchronous service method is a computation in a state-and-exception
    monad over that world.  A thrown JavaScript error keeps the side effects
    made before the throw, so the monad returns the world on both outcomes.
    The outcome of each call to an external collaborator (Firestore, Firebase
    Auth, Storage) is decided by an [Env] of injected faults. *)

From Stdlib Require Import Ascii String List Bool Arith Lia Permutation Sorted.
Import ListNotations.
Open Scope string_scope.

(** ** Data model (models/User.ts) *)

Inductive UserRole : Type := admin | staff | student.

Definition UserRole_eqb (a b : UserRole) : bool :=
  match a, b with
  | admin, admin | staff, staff | student, student => true
  | _, _ => false
  end.

Definition roleName (r : UserRole) : string :=
  match r with admin => "admin" | staff => "staff" | student => "student" end.

(** A [User] is both the value the services hand around and the stored
    document; for a stored document [uid] is the document id.  Optional
    properties of the interface are options: [None] is JavaScript's
    [undefined] (the property is absent). *)
Record User : Type := mkUser {
  uid : string;
  authUid : string;
  email : string;
  FirstName : string;
  LastName : string;
  cardNumber : string;
  nfcId : option string;
  imageUrl : option string;
  role : UserRole;
  department : string;
  isActive : bool;
  isApproved : bool;
  canApproveStudents : option bool;
  createdAt : nat;
  updatedAt : nat
}.

Record CreateUserData : Type := mkCreateUserData {
  cu_email : string;
  cu_password : string;
  cu_FirstName : string;
  cu_LastName : string;
  cu_cardNumber : string;
  cu_imageBase64 : option string;
  cu_role : UserRole;
  cu_department : string
}.

Record LoginCredentials : Type := mkLoginCredentials {
  lc_cardNumber : string;
  lc_password : string
}.

(** [Partial<User>] restricted to the properties the services update. *)
Record PartialUser : Type := mkPartial {
  p_isActive : option bool;
  p_isApproved : option bool;
  p_nfcId : option string;
  p_canApproveStudents : option bool;
  p_imageUrl : option string
}.

Definition orElse {A : Type} (o : option A) (d : A) : A :=
  match o with Some a => a | None => d end.

Definition orKeep {A : Type} (o : option A) (d : option A) : option A :=
  match o with Some a => Some a | None => d end.

(** The merge [updateDoc] performs: listed properties are overwritten, the
    others are kept; [updatedAt] is always part of the update. *)
Definition applyUpdates (updates : PartialUser) (now : nat) (u : User) : User :=
  mkUser (uid u) (authUid u) (email u) (FirstName u) (LastName u) (cardNumber u)
         (orKeep (p_nfcId updates) (nfcId u))
         (orKeep (p_imageUrl updates) (imageUrl u))
         (role u) (department u)
         (orElse (p_isActive updates) (isActive u))
         (orElse (p_isApproved updates) (isApproved u))
         (orKeep (p_canApproveStudents updates) (canApproveStudents u))
         (createdAt u) now.

(** ** JavaScript errors and truthiness *)

Record JsError : Type := mkError {
  message : string;
  code : option string
}.

(** [new Error(msg)] *)
Definition Error (msg : string) : JsError := mkError msg None.

(** [s || d] on strings: the empty string is falsy. *)
Definition strOr (s d : string) : string := if s =? "" then d else s.

(** Truthiness of a [string | undefined]. *)
Definition truthy (o : option string) : bool :=
  match o with Some s => negb (s =? "") | None => false end.

(** Truthiness of a [boolean | undefined]. *)
Definition truthyB (o : option bool) : bool :=
  match o with Some b => b | None => false end.

(** [error.code && error.code.startsWith('auth/')] *)
Definition isAuthCode (e : JsError) : bool :=
  match code e with
  | Some c => negb (c =? "") && String.prefix "auth/" c
  | None => false
  end.

(** ** The world: external stores, session and screen state *)

Record FirebaseUser : Type := mkFirebaseUser {
  fu_uid : string;
  fu_email : string
}.

(** An account of the credential service. *)
Record Account : Type := mkAccount {
  acc_uid : string;
  acc_email : string;
  acc_password : string;
  acc_displayName : string
}.

(** Calls issued to the external collaborators, in the order of issue. *)
Inductive Event : Type :=
| EvGetDocs (field value : string)
| EvGetDoc (id : string)
| EvSetDoc (id : string)
| EvUpdateDoc (id : string)
| EvUpload (id : string)
| EvCreateAccount (mail : string)
| EvUpdateProfile (id : string)
| EvSignIn (mail : string)
| EvSignOut
| EvDeleteAccount (id : string).

(** The [useState] cells of a screen or provider. *)
Record UiState : Type := mkUi {
  ui_user : option User;
  ui_firebaseUser : option FirebaseUser;
  ui_loading : bool;
  ui_error : option string
}.

Record World : Type := mkWorld {
  users : list User;            (* the 'users' collection, in query order *)
  accounts : list Account;      (* Firebase Auth accounts *)
  currentUser : option string;  (* auth.currentUser, by uid *)
  authCtx : UiState;            (* AuthProvider state *)
  profile : UiState;            (* UserProfileScreen state *)
  trace : list Event            (* external calls so far, oldest first *)
}.

(** Outcome of every external call of one run. *)
Record Env : Type := mkEnv {
  getDocsFault : string -> bool;        (* by queried field *)
  getDocFault : string -> bool;         (* by document id *)
  setDocFault : bool;
  updateDocFault : string -> bool;      (* by document id *)
  uploadResult : option string;         (* download URL, or the upload fails *)
  createAccountFault : option JsError;
  updateProfileFault : option JsError;
  signInFault : option JsError;
  signOutFault : option JsError;
  deleteAccountFault : option JsError;
  newDocId : string;                    (* id of doc(collection(...)) *)
  newAuthUid : string;                  (* uid the credential service issues *)
  now : nat                             (* Timestamp.now() *)
}.

(** ** State-and-exception monad *)

Inductive Result (A : Type) : Type :=
| Ok (a : A)
| Throw (e : JsError).
Arguments Ok {A} a.
Arguments Throw {A} e.

Definition M (A : Type) : Type := World -> Result A * World.

Definition ret {A : Type} (a : A) : M A := fun w => (Ok a, w).

Definition throw {A : Type} (e : JsError) : M A := fun w => (Throw e, w).

Definition bind {A B : Type} (m : M A) (k : A -> M B) : M B :=
  fun w => match m w with
           | (Ok a, w') => k a w'
           | (Throw e, w') => (Throw e, w')
           end.

(** [try { m } catch (e) { h e }] *)
Definition try_catch {A : Type} (m : M A) (h : JsError -> M A) : M A :=
  fun w => match m w with
           | (Ok a, w') => (Ok a, w')
           | (Throw e, w') => h e w'
           end.

(** [try { m } finally { f }] for a [finally] block that cannot throw. *)
Definition try_finally {A : Type} (m : M A) (f : World -> World) : M A :=
  fun w => let (r, w') := m w in (r, f w').

Definition modify (f : World -> World) : M unit := fun w => (Ok tt, f w).

Declare Scope m_scope.
Delimit Scope m_scope with M.
Notation "x <- m ;; k" := (bind m (fun x => k))
  (at level 61, m at next level, right associativity) : m_scope.
Notation "m ;; k" := (bind m (fun _ => k))
  (at level 61, right associativity) : m_scope.
Open Scope m_scope.

Definition log (ev : Event) (w : World) : World :=
  mkWorld (users w) (accounts w) (currentUser w) (authCtx w) (profile w)
          (trace w ++ [ev]).

Definition setUsers (l : list User) (w : World) : World :=
  mkWorld l (accounts w) (currentUser w) (authCtx w) (profile w) (trace w).

Definition setAccounts (l : list Account) (w : World) : World :=
  mkWorld (users w) l (currentUser w) (authCtx w) (profile w) (trace w).

Definition setCurrentUser (c : option string) (w : World) : World :=
  mkWorld (users w) (accounts w) c (authCtx w) (profile w) (trace w).

Definition setAuthCtx (s : UiState) (w : World) : World :=
  mkWorld (users w) (accounts w) (currentUser w) s (profile w) (trace w).

Definition setProfile (s : UiState) (w : World) : World :=
  mkWorld (users w) (accounts w) (currentUser w) (authCtx w) s (trace w).

Definition withUser (x : option User) (s : UiState) : UiState :=
  mkUi x (ui_firebaseUser s) (ui_loading s) (ui_error s).
Definition withFirebaseUser (x : option FirebaseUser) (s : UiState) : UiState :=
  mkUi (ui_user s) x (ui_loading s) (ui_error s).
Definition withLoading (x : bool) (s : UiState) : UiState :=
  mkUi (ui_user s) (ui_firebaseUser s) x (ui_error s).
Definition withError (x : option string) (s : UiState) : UiState :=
  mkUi (ui_user s) (ui_firebaseUser s) (ui_loading s) x.

(** ** The external collaborators

    What the code relies on from the Firebase SDK: [getDocs] returns the
    matching documents, [getDoc] one document by id, [setDoc] creates or
    replaces the document of an id, [updateDoc] merges into an existing
    document and rejects when there is none; [createUserWithEmailAndPassword]
    rejects a registered e-mail and signs the new account in,
    [signInWithEmailAndPassword] rejects an unknown e-mail and a wrong
    password with the codes listed in [handleAuthError], [user.delete()]
    removes the account and its session.  Each call is logged and fails
    first when the environment says so. *)
Module Firebase.
Section WithEnv.
Context (env : Env).

Definition unavailable : JsError :=
  mkError "The service is currently unavailable" (Some "unavailable").
Definition notFound : JsError :=
  mkError "No document to update" (Some "not-found").

Definition hasId (id : string) (u : User) : bool := uid u =? id.

Definition findDoc (id : string) (l : list User) : option User :=
  find (hasId id) l.

Fixpoint updateFirst (id : string) (f : User -> User) (l : list User)
  : list User :=
  match l with
  | [] => []
  | u :: rest => if hasId id u then f u :: rest
                 else u :: updateFirst id f rest
  end.

Definition getDocs (field value : string) (sel : User -> bool)
  : M (list User) :=
  fun w =>
    let w' := log (EvGetDocs field value) w in
    if getDocsFault env field then (Throw unavailable, w')
    else (Ok (filter sel (users w)), w').

Definition getDoc (id : string) : M (option User) :=
  fun w =>
    let w' := log (EvGetDoc id) w in
    if getDocFault env id then (Throw unavailable, w')
    else (Ok (findDoc id (users w)), w').

Definition setDoc (id : string) (data : User) : M unit :=
  fun w =>
    let w' := log (EvSetDoc id) w in
    if setDocFault env then (Throw unavailable, w')
    else match findDoc id (users w) with
         | Some _ => (Ok tt, setUsers (updateFirst id (fun _ => data) (users w)) w')
         | None => (Ok tt, setUsers (users w ++ [data]) w')
         end.

(** [updateDoc(ref, updates)].  An environment decides the outcome of the
    writes to one document id once; where a sequence of calls is to have
    its writes accepted or rejected one by one, each call is run in an
    environment of its own. *)
Definition updateDoc (id : string) (updates : PartialUser) : M unit :=
  fun w =>
    let w' := log (EvUpdateDoc id) w in
    if updateDocFault env id then (Throw unavailable, w')
    else match findDoc id (users w) with
         | Some _ =>
             (Ok tt, setUsers (updateFirst id (applyUpdates updates (now env))
                                           (users w)) w')
         | None => (Throw notFound, w')
         end.

Definition findAccount (mail : string) (l : list Account) : option Account :=
  find (fun a => acc_email a =? mail) l.

Definition createUserWithEmailAndPassword (mail password : string)
  : M FirebaseUser :=
  fun w =>
    let w' := log (EvCreateAccount mail) w in
    match createAccountFault env with
    | Some e => (Throw e, w')
    | None =>
        match findAccount mail (accounts w) with
        | Some _ =>
            (Throw (mkError "The email address is already in use"
                            (Some "auth/email-already-in-use")), w')
        | None =>
            let a := mkAccount (newAuthUid env) mail password "" in
            (Ok (mkFirebaseUser (newAuthUid env) mail),
             setCurrentUser (Some (newAuthUid env))
                            (setAccounts (accounts w ++ [a]) w'))
        end
    end.

Definition setDisplayName (id name : string) (a : Account) : Account :=
  if acc_uid a =? id
  then mkAccount (acc_uid a) (acc_email a) (acc_password a) name
  else a.

Definition updateProfile (user : FirebaseUser) (displayName : string)
  : M unit :=
  fun w =>
    let w' := log (EvUpdateProfile (fu_uid user)) w in
    match updateProfileFault env with
    | Some e => (Throw e, w')
    | None =>
        (Ok tt, setAccounts (map (setDisplayName (fu_uid user) displayName)
                                 (accounts w)) w')
    end.

Definition signInWithEmailAndPassword (mail password : string)
  : M FirebaseUser :=
  fun w =>
    let w' := log (EvSignIn mail) w in
    match signInFault env with
    | Some e => (Throw e, w')
    | None =>
        match findAccount mail (accounts w) with
        | None =>
            (Throw (mkError "There is no user record for this identifier"
                            (Some "auth/user-not-found")), w')
        | Some a =>
            if acc_password a =? password
            then (Ok (mkFirebaseUser (acc_uid a) mail),
                  setCurrentUser (Some (acc_uid a)) w')
            else (Throw (mkError "The password is invalid"
                                 (Some "auth/wrong-password")), w')
        end
    end.

Definition signOut : M unit :=
  fun w =>
    let w' := log EvSignOut w in
    match signOutFault env with
    | Some e => (Throw e, w')
    | None => (Ok tt, setCurrentUser None w')
    end.

(** [user.delete()] *)
Definition deleteUser (user : FirebaseUser) : M unit :=
  fun w =>
    let w' := log (EvDeleteAccount (fu_uid user)) w in
    match deleteAccountFault env with
    | Some e => (Throw e, w')
    | None =>
        (Ok tt,
         setCurrentUser None
           (setAccounts
              (filter (fun a => negb (acc_uid a =? fu_uid user)) (accounts w))
              w'))
    end.

(** Storage: [uploadString] followed by [getDownloadURL]. *)
Definition upload (id : string) : M string :=
  fun w =>
    let w' := log (EvUpload id) w in
    match uploadResult env with
    | Some url => (Ok url, w')
    | None => (Throw unavailable, w')
    end.

(** [sendPasswordResetEmail(auth, email)].  The e-mail leaves the modelled
    world; the outcome of the call is the argument [outcome], [None] when
    the service accepts the request. *)
Definition sendPasswordResetEmail (outcome : option JsError) (mail : string)
  : M unit :=
  fun w => match outcome with
           | Some e => (Throw e, w)
           | None => (Ok tt, w)
           end.

End WithEnv.
End Firebase.

(** ** services/imageService.ts *)
Module ImageService.
Section WithEnv.
Context (env : Env).

Definition uploadBase64Image (base64Image userId : string) : M string :=
  try_catch (Firebase.upload env userId)
            (fun _ => throw (Error "Failed to upload image")).

End WithEnv.
End ImageService.

(** ** services/userService.ts *)
Module UserService.
Section WithEnv.
Context (env : Env).

(** [orderBy('createdAt', 'desc')] *)
Fixpoint insertDesc (u : User) (l : list User) : list User :=
  match l with
  | [] => [u]
  | v :: rest => if Nat.ltb (createdAt v) (createdAt u) then u :: v :: rest
                 else v :: insertDesc u rest
  end.

Definition orderByCreatedAtDesc (l : list User) : list User :=
  fold_right insertDesc [] l.

Definition getUserByCardNumber (card : string) : M (option User) :=
  try_catch
    (if card =? "" then ret None
     else docs <- Firebase.getDocs env "cardNumber" card
                    (fun u => cardNumber u =? card);;
          ret (hd_error docs))
    (fun _ => throw (Error "Failed to fetch user by card number")).

Definition holdsNfc (tag : string) (u : User) : bool :=
  match nfcId u with Some t => t =? tag | None => false end.

Definition getUserByNfcId (tag : string) : M (option User) :=
  try_catch
    (if tag =? "" then ret None
     else docs <- Firebase.getDocs env "nfcId" tag (holdsNfc tag);;
          ret (hd_error docs))
    (fun _ => throw (Error "Failed to fetch user by NFC ID")).

Definition getUserByAuthUid (id : string) : M (option User) :=
  try_catch
    (docs <- Firebase.getDocs env "authUid" id (fun u => authUid u =? id);;
     ret (hd_error docs))
    (fun _ => throw (Error "Failed to fetch user data")).

Definition getUserByUid (id : string) : M (option User) :=
  try_catch (Firebase.getDoc env id)
            (fun _ => throw (Error "Failed to fetch user data")).

Definition getUsersByRole (r : UserRole) : M (list User) :=
  try_catch
    (docs <- Firebase.getDocs env "role" (roleName r)
               (fun u => UserRole_eqb (role u) r);;
     ret (orderByCreatedAtDesc docs))
    (fun _ => throw (Error "Failed to fetch users")).

(** The document written by [createUser]: [imageUrl] only when truthy,
    [canApproveStudents] only for staff, no [nfcId]. *)
Definition newUserData (id authId : string) (userData : CreateUserData)
           (image : option string) : User :=
  mkUser id authId (cu_email userData) (cu_FirstName userData)
         (cu_LastName userData) (cu_cardNumber userData)
         None
         (if truthy image then image else None)
         (cu_role userData) (cu_department userData)
         true
         (if UserRole_eqb (cu_role userData) admin then true else false)
         (if UserRole_eqb (cu_role userData) staff then Some false else None)
         (now env) (now env).

(** The object literal [createUser] returns. *)
Definition createdUser (id authId : string) (userData : CreateUserData)
           (image : option string) : User :=
  mkUser id authId (cu_email userData) (cu_FirstName userData)
         (cu_LastName userData) (cu_cardNumber userData)
         None
         image
         (cu_role userData) (cu_department userData)
         true
         (if UserRole_eqb (cu_role userData) admin then true else false)
         None
         (now env) (now env).

Definition createUser (authId : string) (userData : CreateUserData) : M User :=
  try_catch
    (existingCard <- getUserByCardNumber (cu_cardNumber userData);;
     match existingCard with
     | Some _ => throw (Error "Card number already exists")
     | None =>
         let userRef := newDocId env in
         image <- (if truthy (cu_imageBase64 userData)
                   then try_catch
                          (url <- ImageService.uploadBase64Image env
                                    (orElse (cu_imageBase64 userData) "")
                                    userRef;;
                           ret (Some url))
                          (fun _ => ret None)
                   else ret None);;
         Firebase.setDoc env userRef (newUserData userRef authId userData image);;
         ret (createdUser userRef authId userData image)
     end)
    (fun error =>
       if message error =? "Card number already exists" then throw error
       else throw (Error "Failed to create user profile")).

Definition updateUser (id : string) (updates : PartialUser) : M unit :=
  try_catch (Firebase.updateDoc env id updates)
            (fun _ => throw (Error "Failed to update user")).

Definition approveUser (id : string) : M unit :=
  try_catch (updateUser id (mkPartial None (Some true) None None None))
            (fun _ => throw (Error "Failed to approve user")).

Definition deactivateUser (id : string) : M unit :=
  try_catch (updateUser id (mkPartial (Some false) None None None None))
            (fun _ => throw (Error "Failed to deactivate user")).

Definition assignNfcId (id tag : string) : M unit :=
  try_catch
    (existingUser <- getUserByNfcId tag;;
     match existingUser with
     | Some holder =>
         if negb (uid holder =? id)
         then throw (Error "NFC ID already assigned to another user")
         else updateUser id (mkPartial None None (Some tag) None None)
     | None => updateUser id (mkPartial None None (Some tag) None None)
     end)
    (fun _ => throw (Error "Failed to assign NFC ID")).

Definition updateStaffApprovalPermission (id : string) (value : bool)
  : M unit :=
  try_catch (updateUser id (mkPartial None None None (Some value) None))
            (fun _ => throw (Error "Failed to update staff permissions")).

(** [users.sort((a, b) => b.createdAt.getTime() - a.createdAt.getTime())]:
    the stable sort of [Array.prototype.sort], newest first. *)
Fixpoint insertByCreatedAtDesc (u : User) (l : list User) : list User :=
  match l with
  | [] => [u]
  | v :: rest => if Nat.leb (createdAt v) (createdAt u) then u :: v :: rest
                 else v :: insertByCreatedAtDesc u rest
  end.

Definition sortByCreatedAtDesc (l : list User) : list User :=
  fold_right insertByCreatedAtDesc [] l.

(** The query has no filter; its event and its fault are those of the
    ordering field. *)
Definition getAllUsers : M (list User) :=
  try_catch
    (docs <- Firebase.getDocs env "createdAt" "desc" (fun _ => true);;
     ret (orderByCreatedAtDesc docs))
    (fun _ => throw (Error "Failed to fetch users")).

Definition getPendingApprovals : M (list User) :=
  try_catch
    (docs <- Firebase.getDocs env "isApproved" "false"
               (fun u => negb (isApproved u));;
     ret (sortByCreatedAtDesc docs))
    (fun _ => throw (Error "Failed to fetch pending approvals")).

End WithEnv.
End UserService.

(** ** services/authService.ts *)
Module AuthService.
Section WithEnv.
Context (env : Env).

Definition handleAuthError (error : JsError) : JsError :=
  let c := orElse (code error) "" in
  Error
    (if c =? "auth/email-already-in-use" then "This email is already registered"
     else if c =? "auth/invalid-email" then "Invalid email address"
     else if c =? "auth/operation-not-allowed" then "Operation not allowed"
     else if c =? "auth/weak-password"
          then "Password is too weak. Please use at least 6 characters"
     else if c =? "auth/user-disabled" then "This account has been disabled"
     else if c =? "auth/user-not-found" then "No account found with this email"
     else if c =? "auth/wrong-password" then "Incorrect password"
     else if c =? "auth/invalid-credential" then "Invalid email or password"
     else if c =? "auth/too-many-requests"
          then "Too many failed attempts. Please try again later"
     else strOr (message error) "An error occurred during authentication").

Definition register (userData : CreateUserData) : M FirebaseUser :=
  try_catch
    (user <- Firebase.createUserWithEmailAndPassword env
               (cu_email userData) (cu_password userData);;
     Firebase.updateProfile env user
       (cu_FirstName userData ++ " " ++ cu_LastName userData);;
     ret user)
    (fun error => throw (handleAuthError error)).

Definition genericLoginMessage : string := "Invalid card number or password".

Definition login (credentials : LoginCredentials) : M FirebaseUser :=
  try_catch
    (user <- UserService.getUserByCardNumber env (lc_cardNumber credentials);;
     match user with
     | None => throw (Error "Invalid card number or password")
     | Some u =>
         Firebase.signInWithEmailAndPassword env (email u)
           (lc_password credentials)
     end)
    (fun error =>
       if message error =? "Invalid card number or password" then throw error
       else if isAuthCode error
            then throw (Error "Invalid card number or password")
            else throw (handleAuthError error)).

Definition logout : M unit :=
  try_catch (Firebase.signOut env)
            (fun error => throw (handleAuthError error)).

Definition resetPassword (outcome : option JsError) (mail : string) : M unit :=
  try_catch (Firebase.sendPasswordResetEmail outcome mail)
            (fun error => throw (handleAuthError error)).

Definition resetPasswordByCardNumber (outcome : option JsError)
           (card : string) : M unit :=
  try_catch
    (user <- UserService.getUserByCardNumber env card;;
     match user with
     | None => throw (Error "No account found with this card number")
     | Some u => Firebase.sendPasswordResetEmail outcome (email u)
     end)
    (fun error =>
       if message error =? "No account found with this card number"
       then throw error
       else throw (handleAuthError error)).

End WithEnv.
End AuthService.

(** ** Bulk operations

    [uids.map(async uid => ...)] followed by [Promise.all]: every closure
    runs to its first [await] in list order, so the per-id calls are issued
    in list order; the closures never reject, and each bumps one of the two
    counters when its call settles.  The per-id updates write the same
    values whatever the order of settlement, so the batch is the
    left-to-right run of the closures. *)
Record BulkResult : Type := mkBulk {
  success : nat;
  failed : nat
}.

Fixpoint promiseAllCounting (body : string -> M bool) (uids : list string)
         (acc : BulkResult) : M BulkResult :=
  match uids with
  | [] => ret acc
  | id :: rest =>
      ok <- body id;;
      promiseAllCounting body rest
        (if ok then mkBulk (S (success acc)) (failed acc)
         else mkBulk (success acc) (S (failed acc)))
  end.

(** ** services/adminService.ts *)
Module AdminService.
Section WithEnv.
Context (env : Env).

Definition approveOne (id : string) : M bool :=
  try_catch (UserService.approveUser env id;; ret true)
            (fun _ => ret false).

Definition approveBulk (uids : list string) : M BulkResult :=
  try_catch (promiseAllCounting approveOne uids (mkBulk 0 0))
            (fun _ => throw (Error "Failed to complete bulk approval")).

Definition grantApprovalRights (staffUid : string) : M unit :=
  try_catch
    (user <- UserService.getUserByUid env staffUid;;
     match user with
     | None => throw (Error "User not found")
     | Some u =>
         if negb (UserRole_eqb (role u) staff)
         then throw (Error "Only staff members can be granted approval rights")
         else UserService.updateStaffApprovalPermission env staffUid true
     end)
    (fun error =>
       throw (Error (strOr (message error) "Failed to grant approval rights"))).

Definition revokeApprovalRights (staffUid : string) : M unit :=
  try_catch
    (user <- UserService.getUserByUid env staffUid;;
     match user with
     | None => throw (Error "User not found")
     | Some u =>
         if negb (UserRole_eqb (role u) staff)
         then throw (Error "Only staff members have approval rights")
         else UserService.updateStaffApprovalPermission env staffUid false
     end)
    (fun error =>
       throw (Error (strOr (message error) "Failed to revoke approval rights"))).

Definition toggleApprovalRights (staffUid : string) : M bool :=
  try_catch
    (user <- UserService.getUserByUid env staffUid;;
     match user with
     | None => throw (Error "User not found")
     | Some u =>
         if negb (UserRole_eqb (role u) staff)
         then throw (Error "Only staff members can have approval rights")
         else
           let newValue := negb (truthyB (canApproveStudents u)) in
           UserService.updateStaffApprovalPermission env staffUid newValue;;
           ret newValue
     end)
    (fun error =>
       throw (Error (strOr (message error) "Failed to toggle approval rights"))).

Definition assignNfcCard (id tag : string) : M unit :=
  try_catch (UserService.assignNfcId env id tag)
            (fun error =>
               throw (Error (strOr (message error) "Failed to assign NFC card"))).

Definition validateUserCanApprove (user : option User) : bool :=
  match user with
  | None => false
  | Some u =>
      match role u with
      | admin => true
      | staff => match canApproveStudents u with
                 | Some true => true
                 | _ => false
                 end
      | student => false
      end
  end.

Definition approveUser (id : string) : M unit :=
  try_catch (UserService.approveUser env id)
            (fun _ => throw (Error "Failed to approve user")).

Definition grantAccess (id : string) : M unit :=
  try_catch (UserService.updateUser env id
               (mkPartial (Some true) None None None None))
            (fun _ => throw (Error "Failed to grant access")).

Definition revokeAccess (id : string) : M unit :=
  try_catch (UserService.deactivateUser env id)
            (fun _ => throw (Error "Failed to revoke access")).

Definition rejectUser (id : string) : M unit :=
  try_catch (UserService.deactivateUser env id)
            (fun _ => throw (Error "Failed to reject user")).

Definition approveAndActivate (id : string) : M unit :=
  try_catch (UserService.updateUser env id
               (mkPartial (Some true) (Some true) None None None))
            (fun _ => throw (Error "Failed to approve and activate user")).

(** The closures of the other batches: one update per id, [true] when it
    settles, [false] when it throws. *)
Definition updateOne (updates : PartialUser) (id : string) : M bool :=
  try_catch (UserService.updateUser env id updates;; ret true)
            (fun _ => ret false).

Definition deactivateOne (id : string) : M bool :=
  try_catch (UserService.deactivateUser env id;; ret true)
            (fun _ => ret false).

Definition grantAccessBulk (uids : list string) : M BulkResult :=
  try_catch (promiseAllCounting
               (updateOne (mkPartial (Some true) None None None None))
               uids (mkBulk 0 0))
            (fun _ => throw (Error "Failed to complete bulk access grant")).

Definition revokeAccessBulk (uids : list string) : M BulkResult :=
  try_catch (promiseAllCounting deactivateOne uids (mkBulk 0 0))
            (fun _ => throw (Error "Failed to complete bulk access revocation")).

Definition rejectBulk (uids : list string) : M BulkResult :=
  try_catch (promiseAllCounting deactivateOne uids (mkBulk 0 0))
            (fun _ => throw (Error "Failed to complete bulk rejection")).

Definition approveAndActivateBulk (uids : list string) : M BulkResult :=
  try_catch (promiseAllCounting
               (updateOne (mkPartial (Some true) (Some true) None None None))
               uids (mkBulk 0 0))
            (fun _ => throw (Error "Failed to complete bulk operation")).

Definition getPendingApprovals : M (list User) :=
  try_catch (UserService.getPendingApprovals env)
            (fun _ => throw (Error "Failed to fetch pending approvals")).

Record DashboardStats : Type := mkStats {
  totalUsers : nat;
  activeUsers : nat;
  pendingApprovals : nat;
  totalStudents : nat;
  totalStaff : nat;
  staffWithApprovalRights : nat
}.

(** One branch of a [Promise.all]: the call is issued and runs to its
    end whatever the other branches do; its outcome is kept. *)
Definition settle {A : Type} (m : M A) : M (Result A) :=
  fun w => let (r, w') := m w in (Ok r, w').

(** The four reads of [Promise.all([...])] are all issued; the joint
    promise rejects when one of them does. *)
Definition getDashboardStats : M DashboardStats :=
  try_catch
    (r1 <- settle (UserService.getAllUsers env);;
     r2 <- settle (UserService.getPendingApprovals env);;
     r3 <- settle (UserService.getUsersByRole env student);;
     r4 <- settle (UserService.getUsersByRole env staff);;
     match r1, r2, r3, r4 with
     | Ok allUsers, Ok pendingUsers, Ok students, Ok staffMembers =>
         ret (mkStats
                (length allUsers)
                (length (filter (fun u => isActive u && isApproved u) allUsers))
                (length pendingUsers)
                (length students)
                (length staffMembers)
                (length (filter (fun u => truthyB (canApproveStudents u))
                                staffMembers)))
     | Throw e, _, _, _ => throw e
     | _, Throw e, _, _ => throw e
     | _, _, Throw e, _ => throw e
     | _, _, _, Throw e => throw e
     end)
    (fun _ => throw (Error "Failed to fetch dashboard statistics")).




End WithEnv.
End AdminService.

(** ** services/staffService.ts *)
Module StaffService.
Section WithEnv.
Context (env : Env).

Definition approveStudent (staffUser : User) (studentUid : string) : M unit :=
  try_catch
    (if negb (UserRole_eqb (role staffUser) staff)
     then throw (Error "Only staff members can approve students")
     else if negb (truthyB (canApproveStudents staffUser))
     then throw (Error "You do not have permission to approve students")
     else
       target <- UserService.getUserByUid env studentUid;;
       match target with
       | None => throw (Error "Student not found")
       | Some s =>
           if negb (UserRole_eqb (role s) student)
           then throw (Error "Can only approve students")
           else if negb (department s =? department staffUser)
           then throw (Error "Can only approve students in your department")
           else UserService.approveUser env studentUid
       end)
    (fun error =>
       throw (Error (strOr (message error) "Failed to approve student"))).

(** [new Set(students.filter(...).map(s => s.uid))] *)
Definition departmentStudentIds (staffUser : User) (students : list User)
  : list string :=
  map uid (filter (fun s => department s =? department staffUser) students).

(** [set.has(uid)] *)
Definition has (ids : list string) (id : string) : bool :=
  existsb (String.eqb id) ids.

Definition approveInDepartment (ids : list string) (id : string) : M bool :=
  try_catch
    (if negb (has ids id) then ret false
     else UserService.approveUser env id;; ret true)
    (fun _ => ret false).

Definition approveStudentsBulk (staffUser : User) (studentUids : list string)
  : M BulkResult :=
  try_catch
    (if negb (truthyB (canApproveStudents staffUser))
     then throw (Error "You do not have permission to approve students")
     else
       students <- UserService.getUsersByRole env student;;
       promiseAllCounting
         (approveInDepartment (departmentStudentIds staffUser students))
         studentUids (mkBulk 0 0))
    (fun error =>
       throw (Error (strOr (message error) "Failed to complete bulk approval"))).

Definition activateInDepartment (ids : list string) (id : string) : M bool :=
  try_catch
    (if negb (has ids id) then ret false
     else UserService.updateUser env id
            (mkPartial (Some true) None None None None);;
          ret true)
    (fun _ => ret false).

Definition deactivateInDepartment (ids : list string) (id : string) : M bool :=
  try_catch
    (if negb (has ids id) then ret false
     else UserService.deactivateUser env id;; ret true)
    (fun _ => ret false).

Definition activateStudentsBulk (staffUser : User) (studentUids : list string)
  : M BulkResult :=
  try_catch
    (if negb (truthyB (canApproveStudents staffUser))
     then throw (Error "You do not have permission to activate students")
     else
       students <- UserService.getUsersByRole env student;;
       promiseAllCounting
         (activateInDepartment (departmentStudentIds staffUser students))
         studentUids (mkBulk 0 0))
    (fun error =>
       throw (Error (strOr (message error)
                           "Failed to complete bulk activation"))).

Definition deactivateStudentsBulk (staffUser : User)
           (studentUids : list string) : M BulkResult :=
  try_catch
    (if negb (truthyB (canApproveStudents staffUser))
     then throw (Error "You do not have permission to deactivate students")
     else
       students <- UserService.getUsersByRole env student;;
       promiseAllCounting
         (deactivateInDepartment (departmentStudentIds staffUser students))
         studentUids (mkBulk 0 0))
    (fun error =>
       throw (Error (strOr (message error)
                           "Failed to complete bulk deactivation"))).

Definition hasApprovalPermission (staffUser : User) : bool :=
  UserRole_eqb (role staffUser) staff
  && match canApproveStudents staffUser with Some true => true | _ => false end.


Definition activateStudent (staffUser : User) (studentUid : string) : M unit :=
  try_catch
    (if negb (truthyB (canApproveStudents staffUser))
     then throw (Error "You do not have permission to activate students")
     else
       target <- UserService.getUserByUid env studentUid;;
       match target with
       | None => throw (Error "Student not found")
       | Some s =>
           if negb (department s =? department staffUser)
           then throw (Error "Can only activate students in your department")
           else UserService.updateUser env studentUid
                  (mkPartial (Some true) None None None None)
       end)
    (fun error =>
       throw (Error (strOr (message error) "Failed to activate student"))).

Definition deactivateStudent (staffUser : User) (studentUid : string)
  : M unit :=
  try_catch
    (if negb (truthyB (canApproveStudents staffUser))
     then throw (Error "You do not have permission to deactivate students")
     else
       target <- UserService.getUserByUid env studentUid;;
       match target with
       | None => throw (Error "Student not found")
       | Some s =>
           if negb (department s =? department staffUser)
           then throw (Error "Can only deactivate students in your department")
           else UserService.deactivateUser env studentUid
       end)
    (fun error =>
       throw (Error (strOr (message error) "Failed to deactivate student"))).


End WithEnv.
End StaffService.

(** ** contexts/AuthContext.tsx *)
Module AuthContext.
Section WithEnv.
Context (env : Env).

Definition setUser (x : option User) : M unit :=
  modify (fun w => setAuthCtx (withUser x (authCtx w)) w).
Definition setFirebaseUser (x : option FirebaseUser) : M unit :=
  modify (fun w => setAuthCtx (withFirebaseUser x (authCtx w)) w).
Definition setLoading (x : bool) : M unit :=
  modify (fun w => setAuthCtx (withLoading x (authCtx w)) w).
Definition setError (x : option string) : M unit :=
  modify (fun w => setAuthCtx (withError x (authCtx w)) w).

Definition login (credentials : LoginCredentials) : M unit :=
  try_finally
    (try_catch
       (setLoading true;;
        setError None;;
        firebaseUser <- AuthService.login env credentials;;
        userData <- UserService.getUserByAuthUid env (fu_uid firebaseUser);;
        match userData with
        | None => throw (Error "User profile not found")
        | Some u =>
            if negb (isActive u)
            then AuthService.logout env;;
                 throw (Error "Your account has been deactivated")
            else if negb (isApproved u)
            then AuthService.logout env;;
                 throw (Error "Your account is pending approval")
            else setUser (Some u);;
                 setFirebaseUser (Some firebaseUser)
        end)
       (fun err =>
          setError (Some (strOr (message err) "Failed to login"));;
          throw err))
    (fun w => setAuthCtx (withLoading false (authCtx w)) w).

(** The [catch] block of [register]; [firebaseUser] is the value the
    local variable of that name holds when the block is entered. *)
Definition registerCatch (firebaseUser : option FirebaseUser) (err : JsError)
  : M unit :=
  match firebaseUser with
  | Some fu =>
      try_catch (Firebase.deleteUser env fu)
                (fun _ => try_catch (AuthService.logout env)
                                    (fun _ => ret tt))
  | None => ret tt
  end;;
  setError (Some (strOr (message err) "Failed to register"));;
  throw err.

(** The one [try] block is written as its two halves: up to the
    assignment of [firebaseUser] the local is [null], after it the local
    holds the new credential; a throw in either half enters the same
    [catch] block with the value the local has there. *)
Definition register (userData : CreateUserData) : M unit :=
  try_finally
    (firebaseUser <- try_catch
                       (setLoading true;;
                        setError None;;
                        AuthService.register env userData)
                       (fun err => registerCatch None err;;
                                   throw err);;
     try_catch
       (newUser <- UserService.createUser env (fu_uid firebaseUser) userData;;
        setUser (Some newUser);;
        setFirebaseUser (Some firebaseUser))
       (registerCatch (Some firebaseUser)))
    (fun w => setAuthCtx (withLoading false (authCtx w)) w).

Definition logout : M unit :=
  try_finally
    (try_catch
       (setLoading true;;
        setError None;;
        AuthService.logout env;;
        setUser None;;
        setFirebaseUser None)
       (fun err =>
          setError (Some (strOr (message err) "Failed to logout"));;
          throw err))
    (fun w => setAuthCtx (withLoading false (authCtx w)) w).

Definition resetPassword (outcome : option JsError) (mail : string) : M unit :=
  try_finally
    (try_catch
       (setLoading true;;
        setError None;;
        AuthService.resetPassword outcome mail)
       (fun err =>
          setError (Some (strOr (message err) "Failed to send reset email"));;
          throw err))
    (fun w => setAuthCtx (withLoading false (authCtx w)) w).

Definition resetPasswordByCardNumber (outcome : option JsError)
           (card : string) : M unit :=
  try_finally
    (try_catch
       (setLoading true;;
        setError None;;
        AuthService.resetPasswordByCardNumber env outcome card)
       (fun err =>
          setError (Some (strOr (message err) "Failed to send reset email"));;
          throw err))
    (fun w => setAuthCtx (withLoading false (authCtx w)) w).

End WithEnv.
End AuthContext.

(** ** utils/userCardUtils.ts

    [user] is a [User | null]. *)
Module UserCardUtils.

Definition getCardStatus (user : option User) : string :=
  match user with
  | None => "Unknown"
  | Some u =>
      if isActive u && isApproved u then "Active & Valid"
      else if isApproved u then "Inactive"
      else "Pending Approval"
  end.

Definition shouldShowWarning (user : option User) : bool :=
  match user with
  | None => true
  | Some u => negb (isApproved u)
  end.

Definition shouldShowError (user : option User) : bool :=
  match user with
  | None => false
  | Some u => negb (isActive u) && isApproved u
  end.

Definition shouldShowSuccess (user : option User) : bool :=
  match user with
  | None => false
  | Some u => isActive u && isApproved u
  end.

(** The [default] branches of the two [switch] statements are not
    reachable for a [role] of the declared type. *)
Definition getAccessStatusText (user : option User) (r : UserRole) : string :=
  match user with
  | None => "Status unknown"
  | Some u =>
      if isActive u
      then match r with
           | admin => "All systems operational"
           | staff => "Card is active"
           | student => "Your card is active"
           end
      else match r with
           | admin => "Account inactive"
           | staff => "Card inactive"
           | student => "Card inactive"
           end
  end.

(** [!!user?.nfcId] *)
Definition hasNfcId (user : option User) : bool :=
  match user with
  | None => false
  | Some u => truthy (nfcId u)
  end.

End UserCardUtils.

(** ** app/index.tsx: formatting of the card id read from a tag

    A tag id is a string or an array of numbers, here non-negative
    integers.  [toUpperCase] is JavaScript's [String.prototype.toUpperCase],
    left abstract; the hexadecimal digits of a number are produced here in
    their upper-case form. *)
Module Scanner.
Section WithBuiltins.
Context (toUpperCase : string -> string).

Inductive CardId : Type :=
| IdString (s : string)
| IdBytes (bytes : list nat).

Definition hexDigit (n : nat) : string :=
  match n with
  | 0 => "0" | 1 => "1" | 2 => "2" | 3 => "3" | 4 => "4" | 5 => "5"
  | 6 => "6" | 7 => "7" | 8 => "8" | 9 => "9" | 10 => "A" | 11 => "B"
  | 12 => "C" | 13 => "D" | 14 => "E" | _ => "F"
  end.

(** [n.toString(16).toUpperCase()], by at most [fuel] digits. *)
Fixpoint toString16 (fuel n : nat) : string :=
  match fuel with
  | 0 => ""
  | S f => if Nat.ltb n 16 then hexDigit n
           else toString16 f (n / 16) ++ hexDigit (n mod 16)
  end.

Definition numberToHex (n : nat) : string := toString16 (S n) n.

(** [s.slice(-2)] *)
Definition sliceLastTwo (s : string) : string :=
  substring (String.length s - 2) 2 s.

(** [('00' + byte.toString(16).toUpperCase()).slice(-2)] *)
Definition hexByte (byte : nat) : string :=
  sliceLastTwo ("00" ++ numberToHex byte).

(** [parts.join(sep)] *)
Fixpoint join (sep : string) (parts : list string) : string :=
  match parts with
  | [] => ""
  | [x] => x
  | x :: rest => x ++ sep ++ join sep rest
  end.

Definition toHexString (byteArr : list nat) : string :=
  join " " (map hexByte byteArr).

Definition formatCardId (cardId : CardId) : string :=
  match cardId with
  | IdString s => toUpperCase s
  | IdBytes bytes => join ":" (map hexByte bytes)
  end.

End WithBuiltins.
End Scanner.

(** ** app/user-profile.tsx *)
Module UserProfileScreen.
Section WithEnv.
Context (env : Env).

Definition DEFAULT_CARD_NUMBER : string := "Admin01".

Definition setUser (x : option User) : M unit :=
  modify (fun w => setProfile (withUser x (profile w)) w).
Definition setLoading (x : bool) : M unit :=
  modify (fun w => setProfile (withLoading x (profile w)) w).
Definition setError (x : option string) : M unit :=
  modify (fun w => setProfile (withError x (profile w)) w).

Definition loadUser (routeNfcId routeCardNumber : option string) : M unit :=
  try_finally
    (try_catch
       (setLoading true;;
        setError None;;
        found <- (if truthy routeNfcId
                  then
                    let tag := orElse routeNfcId "" in
                    p <- UserService.getUserByNfcId env tag;;
                    match p with
                    | None =>
                        setError (Some ("No user found for NFC ID " ++ tag))
                    | Some _ => ret tt
                    end;;
                    ret p
                  else
                    let cardToUse :=
                      if truthy routeCardNumber
                      then orElse routeCardNumber ""
                      else DEFAULT_CARD_NUMBER in
                    p <- UserService.getUserByCardNumber env cardToUse;;
                    match p with
                    | None =>
                        setError (Some ("No user found for card " ++ cardToUse))
                    | Some _ => ret tt
                    end;;
                    ret p);;
        setUser found)
       (fun err =>
          setError (Some (strOr (message err) "Failed to load user profile"))))
    (fun w => setProfile (withLoading false (profile w)) w).

(** The colour of the status line; [textSecondary] is the colour of the
    theme the last alternative falls back to. *)
Definition statusColor (user : option User) (textSecondary : string) : string :=
  if UserCardUtils.shouldShowSuccess user then "#00C8FC"
  else if UserCardUtils.shouldShowError user then "#FF3B30"
  else if UserCardUtils.shouldShowWarning user then "#FFCC00"
  else textSecondary.

End WithEnv.
End UserProfileScreen.

(** * Specification vocabulary

    The predicates, observations and sample data in which the properties
    below are stated. *)

Ltac unfold_m :=
  unfold bind, ret, throw, try_catch, try_finally, modify in *.

(** Sample data shared by the instances below: a pending student and an
    approved staff member of department CS, and an environment in which
    every external call succeeds. *)
Definition sampleEnv : Env :=
  mkEnv (fun _ => false) (fun _ => false) false (fun _ => false)
        (Some "https://img/1") None None None None None "doc9" "auth9" 7.

Definition sampleStudent : User :=
  mkUser "A" "authA" "a@u.edu" "Ann" "Lee" "C-001" (Some "N1") None
         student "CS" true false None 1 1.

Definition sampleStaff : User :=
  mkUser "B" "authB" "b@u.edu" "Bob" "Ray" "C-002" None None
         staff "CS" true true (Some true) 2 2.

Definition idleUi : UiState := mkUi None None false None.

Definition sampleWorld : World :=
  mkWorld [sampleStudent; sampleStaff]
          [mkAccount "authA" "a@u.edu" "pwA" "Ann Lee";
           mkAccount "authB" "b@u.edu" "pwB" "Bob Ray"]
          None idleUi idleUi [].

(** The target of a rights operation is missing from the directory or is
    not a staff record. *)
Definition notExistingStaff (id : string) (w : World) : Prop :=
  match Firebase.findDoc id (users w) with
  | Some u => role u <> staff
  | None => True
  end.

(** The operation threw, wrote nothing and issued only the read of [id]. *)
Definition rejectedUntouched {A : Type} (id : string) (w : World)
           (out : Result A * World) : Prop :=
  (exists e, fst out = Throw e) /\
  users (snd out) = users w /\
  trace (snd out) = (trace w ++ [EvGetDoc id])%list.

Definition permissionMessages : list string :=
  [ "Only staff members can approve students";
    "You do not have permission to approve students";
    "Can only approve students";
    "Can only approve students in your department" ].

(** The errors of the authorization checks, recognised by their message. *)
Definition isPermissionError (e : JsError) : bool :=
  existsb (String.eqb (message e)) permissionMessages.

(** The directory read of [id] returns the record [t]. *)
Definition resolvesTo (env : Env) (id : string) (w : World) (t : User) : Prop :=
  fst (UserService.getUserByUid env id w) = Ok (Some t).

(** The reasons for which a staff actor may not approve a target. *)
Inductive outOfScope (env : Env) (actor : User) (id : string) (w : World)
  : Prop :=
| LacksRight :
    canApproveStudents actor <> Some true -> outOfScope env actor id w
| NotAStudent (t : User) :
    resolvesTo env id w t -> role t <> student -> outOfScope env actor id w
| OtherDepartment (t : User) :
    resolvesTo env id w t -> role t = student ->
    department t <> department actor -> outOfScope env actor id w.

(** The directory query [loadUser] issues for its route parameters. *)
Definition lookupOf (routeNfcId routeCardNumber : option string) : Event :=
  if truthy routeNfcId then EvGetDocs "nfcId" (orElse routeNfcId "")
  else EvGetDocs "cardNumber"
         (if truthy routeCardNumber then orElse routeCardNumber ""
          else UserProfileScreen.DEFAULT_CARD_NUMBER).

(** The record that query selects in the directory. *)
Definition selectedBy (routeNfcId routeCardNumber : option string)
           (l : list User) : option User :=
  if truthy routeNfcId
  then find (UserService.holdsNfc (orElse routeNfcId "")) l
  else find (fun u => cardNumber u =?
                      (if truthy routeCardNumber then orElse routeCardNumber ""
                       else UserProfileScreen.DEFAULT_CARD_NUMBER)) l.

Definition queriedField (routeNfcId : option string) : string :=
  if truthy routeNfcId then "nfcId" else "cardNumber".

Definition adminRecord : User :=
  mkUser "R" "authR" "root@u.edu" "Ada" "Root" "Admin01" None None
         admin "IT" true true None 0 0.

Definition adminWorld : World :=
  mkWorld [adminRecord; sampleStudent] [] None idleUi idleUi [].

(** The message of the error a run surfaces to its caller. *)
Definition surfaced {A : Type} (out : Result A * World) : option string :=
  match fst out with
  | Throw e => Some (message e)
  | Ok _ => None
  end.

(** The three classes of failing login attempts: the card number resolves
    to no record; the record's credential exists and the secret presented
    is not its secret; the credential check rejects with an error whose
    code is in the [auth/] category. *)
Inductive LoginFailure (env : Env) (w : World) (c : LoginCredentials) : Prop :=
| UnknownCard :
    fst (UserService.getUserByCardNumber env (lc_cardNumber c) w) = Ok None ->
    LoginFailure env w c
| WrongSecret (u : User) (a : Account) :
    fst (UserService.getUserByCardNumber env (lc_cardNumber c) w) = Ok (Some u) ->
    signInFault env = None ->
    Firebase.findAccount (email u) (accounts w) = Some a ->
    acc_password a <> lc_password c ->
    LoginFailure env w c
| AuthCategoryError (u : User) (e : JsError) :
    fst (UserService.getUserByCardNumber env (lc_cardNumber c) w) = Ok (Some u) ->
    fst (Firebase.signInWithEmailAndPassword
           env (email u) (lc_password c) w) = Throw e ->
    isAuthCode e = true ->
    LoginFailure env w c.

Definition staffRequest : CreateUserData :=
  mkCreateUserData "s@u.edu" "pw123456" "Sam" "Poe" "C-003" None staff "CS".

Definition studentRequest : CreateUserData :=
  mkCreateUserData "c@u.edu" "pw123456" "Cy" "Doe" "C-004" None student "CS".

(** The world once a context operation has run [setLoading(true)] and
    [setError(null)]. *)
Definition started (w : World) : World :=
  setAuthCtx (withError None (withLoading true (authCtx w))) w.

(** The calls of the compensation, as decided by the environment. *)
Definition rollbackCalls (env : Env) (fu : FirebaseUser) : list Event :=
  EvDeleteAccount (fu_uid fu)
  :: match deleteAccountFault env with
     | Some _ => [EvSignOut]
     | None => []
     end.

(** An environment whose directory rejects the write of the new document. *)
Definition writeFailsEnv : Env :=
  mkEnv (fun _ => false) (fun _ => false) true (fun _ => false)
        (Some "https://img/1") None None None None None "doc9" "auth9" 7.

(** The record may not be used to authenticate. *)
Definition blocked (u : User) : Prop :=
  isActive u = false \/ isApproved u = false.

Definition blockedMessage (u : User) : string :=
  if negb (isActive u) then "Your account has been deactivated"
  else "Your account is pending approval".

(** The errors with which [login] refuses a blocked account. *)
Definition isAccountNotUsable (e : JsError) : bool :=
  (message e =? "Your account has been deactivated")
  || (message e =? "Your account is pending approval").

(** The part of the context's [login] that follows the two lookups. *)
Definition loginGate (env : Env) (fu : FirebaseUser) (u : User) : M unit :=
  if negb (isActive u)
  then AuthService.logout env;;
       throw (Error "Your account has been deactivated")
  else if negb (isApproved u)
  then AuthService.logout env;;
       throw (Error "Your account is pending approval")
  else AuthContext.setUser (Some u);;
       AuthContext.setFirebaseUser (Some fu).

Definition studentLogin : LoginCredentials := mkLoginCredentials "C-001" "pwA".

(** An environment whose credential service rejects the sign-out. *)
Definition signOutFailsEnv : Env :=
  mkEnv (fun _ => false) (fun _ => false) false (fun _ => false)
        (Some "https://img/1") None None None
        (Some (mkError "A network error has occurred"
                       (Some "auth/network-request-failed")))
        None "doc9" "auth9" 7.

(** The account [createUserWithEmailAndPassword] adds, with the display name
    [updateProfile] then gives it. *)
Definition accountsAfterRegister (env : Env) (userData : CreateUserData)
           (l : list Account) : list Account :=
  map (Firebase.setDisplayName (newAuthUid env)
         (cu_FirstName userData ++ " " ++ cu_LastName userData))
      (l ++ [mkAccount (newAuthUid env) (cu_email userData)
                       (cu_password userData) ""]).

Definition duplicateRequest : CreateUserData :=
  mkCreateUserData "c@u.edu" "pw123456" "Cy" "Doe" "C-001" None student "CS".

(** An environment whose credential service rejects the delete. *)
Definition deleteFailsEnv : Env :=
  mkEnv (fun _ => false) (fun _ => false) false (fun _ => false)
        (Some "https://img/1") None None None None
        (Some (mkError "This operation requires recent authentication"
                       (Some "auth/requires-recent-login")))
        "doc9" "auth9" 7.

(** The per-id operation, run alone on [w], fails. *)
Definition approveFails (env : Env) (w : World) (id : string) : bool :=
  match fst (UserService.approveUser env id w) with
  | Throw _ => true
  | Ok _ => false
  end.

(** [id] is a student of the actor's department in the directory. *)
Definition inDepartment (staffUser : User) (w : World) (id : string) : bool :=
  existsb (fun s => (uid s =? id) && UserRole_eqb (role s) student
                    && (department s =? department staffUser))
          (users w).

(** The per-id step of the department-scoped batch fails: the id is
    filtered out, or its approval fails. *)
Definition staffApproveFails (env : Env) (staffUser : User) (w : World)
           (id : string) : bool :=
  negb (inDepartment staffUser w id) || approveFails env w id.

(** The record of [id] exists and is approved. *)
Definition approvedIn (id : string) (w : World) : Prop :=
  exists u, Firebase.findDoc id (users w) = Some u /\ isApproved u = true.

Definition approveDoc (env : Env) : User -> User :=
  applyUpdates (mkPartial None (Some true) None None None) (now env).

(** The directory after approving, in order, the ids that do not fail. *)
Fixpoint approveAll (env : Env) (fails : string -> bool) (uids : list string)
         (l : list User) : list User :=
  match uids with
  | [] => l
  | id :: rest =>
      approveAll env fails rest
        (if fails id then l else Firebase.updateFirst id (approveDoc env) l)
  end.

(** [u'] is [u] up to the lifecycle flags and the update time. *)
Definition sameIdentity (u u' : User) : Prop :=
  uid u' = uid u /\ authUid u' = authUid u /\ email u' = email u /\
  FirstName u' = FirstName u /\ LastName u' = LastName u /\
  cardNumber u' = cardNumber u /\ nfcId u' = nfcId u /\
  imageUrl u' = imageUrl u /\ role u' = role u /\
  department u' = department u /\
  canApproveStudents u' = canApproveStudents u /\
  createdAt u' = createdAt u.

(** Every record other than [id] is as it was. *)
Definition othersUntouched (id : string) (w w' : World) : Prop :=
  forall j, j <> id ->
    Firebase.findDoc j (users w') = Firebase.findDoc j (users w).

(** No non-empty NFC id is held by records of two different ids. *)
Definition nfcUnique (l : list User) : Prop :=
  forall u v t, t <> "" -> In u l -> In v l ->
    nfcId u = Some t -> nfcId v = Some t -> uid u = uid v.

(** Newest first. *)
Definition newestFirst (l : list User) : Prop :=
  StronglySorted (fun a b => createdAt b <= createdAt a) l.

(** An environment whose image storage rejects the upload. *)
Definition uploadFailsEnv : Env :=
  mkEnv (fun _ => false) (fun _ => false) false (fun _ => false)
        None None None None None None "doc9" "auth9" 7.

Definition pictureRequest : CreateUserData :=
  mkCreateUserData "p@u.edu" "pw123456" "Pia" "Kim" "C-005"
                   (Some "aGVsbG8=") student "EE".

(** The update [{ nfcId }]. *)
Definition nfcUpdate (tag : string) : PartialUser :=
  mkPartial None None (Some tag) None None.

Definition staffLogin : LoginCredentials := mkLoginCredentials "C-002" "pwB".

(** Numbers that fit a byte. *)
Definition allBytes (l : list nat) : Prop := Forall (fun b => b < 256) l.

(** The three colours [statusColor] chooses from. *)
Definition statusPalette : list string := ["#00C8FC"; "#FF3B30"; "#FFCC00"].

(** The update of one id of a batch goes through on the directory [l]: the
    id is selected, the write is accepted and the record exists. *)
Definition goesThrough (env : Env) (sel : string -> bool) (l : list User)
           (id : string) : bool :=
  sel id && negb (updateDocFault env id)
  && match Firebase.findDoc id l with Some _ => true | None => false end.

(** The directory after applying [f], in order, to the ids that go
    through. *)
Fixpoint updateAll (f : User -> User) (good : string -> bool)
         (uids : list string) (l : list User) : list User :=
  match uids with
  | [] => l
  | id :: rest =>
      updateAll f good rest (if good id then Firebase.updateFirst id f l else l)
  end.

(** What a batch that applies the update [p] to the selected ids leaves
    behind: the aggregate is returned, the directory differs from the
    initial one in the properties [p] lists and in [updatedAt] only, the
    ids that go through end up satisfying [Q], the others are as before. *)
Definition batchOutcome (env : Env) (sel : string -> bool) (p : PartialUser)
           (Q : User -> Prop) (uids : list string) (w : World)
           (out : Result BulkResult * World) : Prop :=
  let good := goesThrough env sel (users w) in
  exists r,
    fst out = Ok r /\
    success r = length (filter good uids) /\
    success r + failed r = length uids /\
    map (applyUpdates p 0) (users (snd out))
    = map (applyUpdates p 0) (users w) /\
    (forall id, In id uids -> good id = true ->
       exists u', Firebase.findDoc id (users (snd out)) = Some u' /\ Q u') /\
    (forall id, (In id uids -> good id = false) ->
       Firebase.findDoc id (users (snd out)) = Firebase.findDoc id (users w)).

(** The object literals the batches pass to [updateUser]. *)
Definition activateUpdate : PartialUser :=
  mkPartial (Some true) None None None None.
Definition deactivateUpdate : PartialUser :=
  mkPartial (Some false) None None None None.
Definition approveActivateUpdate : PartialUser :=
  mkPartial (Some true) (Some true) None None None.

(** Every property of the record but [canApproveStudents] and [updatedAt]
    is as it was. *)
Definition sameButRights (u u' : User) : Prop :=
  uid u' = uid u /\ authUid u' = authUid u /\ email u' = email u /\
  FirstName u' = FirstName u /\ LastName u' = LastName u /\
  cardNumber u' = cardNumber u /\ nfcId u' = nfcId u /\
  imageUrl u' = imageUrl u /\ role u' = role u /\
  department u' = department u /\
  isActive u' = isActive u /\ isApproved u' = isApproved u /\
  createdAt u' = createdAt u.

(** An environment whose directory does not answer the query by role. *)
Definition rosterFailsEnv : Env :=
  mkEnv (fun field => field =? "role") (fun _ => false) false (fun _ => false)
        (Some "https://img/1") None None None None None "doc9" "auth9" 7.

(** An environment whose directory rejects every update. *)
Definition updateFailsEnv : Env :=
  mkEnv (fun _ => false) (fun _ => false) false (fun _ => true)
        (Some "https://img/1") None None None None None "doc9" "auth9" 7.

(** * Properties *)

(** ** Generic facts about the stores and the monad *)

Lemma hd_error_filter (A : Type) (p : A -> bool) (l : list A) :
  hd_error (filter p l) = find p l.
Proof.
  induction l as [|a l IH]; simpl; [reflexivity|].
  destruct (p a); simpl; auto.
Qed.

Lemma UserRole_eqb_eq (a b : UserRole) : UserRole_eqb a b = true <-> a = b.
Proof. destruct a, b; simpl; split; intros H; congruence. Qed.

Lemma UserRole_eqb_neq (a b : UserRole) : UserRole_eqb a b = false <-> a <> b.
Proof. destruct a, b; simpl; split; intros H; congruence. Qed.

Lemma findDoc_hasId (id : string) (l : list User) (u : User) :
  Firebase.findDoc id l = Some u -> uid u = id.
Proof.
  unfold Firebase.findDoc. intros H. apply find_some in H.
  destruct H as [_ H]. unfold Firebase.hasId in H.
  now apply String.eqb_eq.
Qed.

Lemma findDoc_updateFirst_same (id : string) (f : User -> User) (l : list User)
      (u : User) :
  uid (f u) = uid u ->
  Firebase.findDoc id l = Some u ->
  Firebase.findDoc id (Firebase.updateFirst id f l) = Some (f u).
Proof.
  intros Hf. unfold Firebase.findDoc.
  induction l as [|v l IH]; simpl; [discriminate|].
  destruct (Firebase.hasId id v) eqn:E.
  - intros H; inversion H; subst. simpl.
    unfold Firebase.hasId in *. rewrite Hf, E. reflexivity.
  - intros H. simpl. rewrite E. auto.
Qed.

Lemma findDoc_updateFirst_other (id id' : string) (f : User -> User)
      (l : list User) :
  (forall v, uid (f v) = uid v) ->
  id' <> id ->
  Firebase.findDoc id' (Firebase.updateFirst id f l) = Firebase.findDoc id' l.
Proof.
  intros Hf Hne. unfold Firebase.findDoc.
  induction l as [|v l IH]; simpl; [reflexivity|].
  destruct (Firebase.hasId id v) eqn:E; simpl.
  - unfold Firebase.hasId in *. rewrite Hf.
    apply String.eqb_eq in E. rewrite E.
    destruct (String.eqb_spec id id'); [congruence|reflexivity].
  - destruct (Firebase.hasId id' v); auto.
Qed.

Lemma map_uid_updateFirst (id : string) (f : User -> User) (l : list User) :
  (forall v, uid (f v) = uid v) ->
  map uid (Firebase.updateFirst id f l) = map uid l.
Proof.
  intros Hf. induction l as [|v l IH]; simpl; [reflexivity|].
  destruct (Firebase.hasId id v); simpl; [now rewrite Hf | now rewrite IH].
Qed.

(** ** Run equations of the UserService reads and writes *)

Lemma getUserByUid_run (env : Env) (id : string) (w : World) :
  UserService.getUserByUid env id w =
  if getDocFault env id
  then (Throw (Error "Failed to fetch user data"), log (EvGetDoc id) w)
  else (Ok (Firebase.findDoc id (users w)), log (EvGetDoc id) w).
Proof.
  unfold UserService.getUserByUid, Firebase.getDoc. unfold_m.
  destruct (getDocFault env id); reflexivity.
Qed.

Lemma updateUser_run (env : Env) (id : string) (p : PartialUser) (w : World) :
  UserService.updateUser env id p w =
  if updateDocFault env id
  then (Throw (Error "Failed to update user"), log (EvUpdateDoc id) w)
  else match Firebase.findDoc id (users w) with
       | Some _ =>
           (Ok tt, setUsers (Firebase.updateFirst id (applyUpdates p (now env))
                                                  (users w))
                            (log (EvUpdateDoc id) w))
       | None => (Throw (Error "Failed to update user"), log (EvUpdateDoc id) w)
       end.
Proof.
  unfold UserService.updateUser, Firebase.updateDoc. unfold_m.
  destruct (updateDocFault env id); [reflexivity|].
  destruct (Firebase.findDoc id (users w)); reflexivity.
Qed.

Lemma getUserByCardNumber_run (env : Env) (card : string) (w : World) :
  UserService.getUserByCardNumber env card w =
  if card =? "" then (Ok None, w)
  else if getDocsFault env "cardNumber"
  then (Throw (Error "Failed to fetch user by card number"),
        log (EvGetDocs "cardNumber" card) w)
  else (Ok (find (fun u => cardNumber u =? card) (users w)),
        log (EvGetDocs "cardNumber" card) w).
Proof.
  unfold UserService.getUserByCardNumber, Firebase.getDocs. unfold_m.
  destruct (card =? ""); [reflexivity|].
  destruct (getDocsFault env "cardNumber"); [reflexivity|].
  now rewrite hd_error_filter.
Qed.

Lemma getUserByNfcId_run (env : Env) (tag : string) (w : World) :
  UserService.getUserByNfcId env tag w =
  if tag =? "" then (Ok None, w)
  else if getDocsFault env "nfcId"
  then (Throw (Error "Failed to fetch user by NFC ID"),
        log (EvGetDocs "nfcId" tag) w)
  else (Ok (find (UserService.holdsNfc tag) (users w)),
        log (EvGetDocs "nfcId" tag) w).
Proof.
  unfold UserService.getUserByNfcId, Firebase.getDocs. unfold_m.
  destruct (tag =? ""); [reflexivity|].
  destruct (getDocsFault env "nfcId"); [reflexivity|].
  now rewrite hd_error_filter.
Qed.

Lemma getUserByAuthUid_run (env : Env) (id : string) (w : World) :
  UserService.getUserByAuthUid env id w =
  if getDocsFault env "authUid"
  then (Throw (Error "Failed to fetch user data"),
        log (EvGetDocs "authUid" id) w)
  else (Ok (find (fun u => authUid u =? id) (users w)),
        log (EvGetDocs "authUid" id) w).
Proof.
  unfold UserService.getUserByAuthUid, Firebase.getDocs. unfold_m.
  destruct (getDocsFault env "authUid"); [reflexivity|].
  now rewrite hd_error_filter.
Qed.

(** ** Approval rights are written for existing staff only *)

Lemma rights_guard (A : Type) (env : Env) (id : string) (w : World)
      (msgRole dflt : string) (k : User -> M A) :
  notExistingStaff id w ->
  rejectedUntouched id w
    (try_catch
       (user <- UserService.getUserByUid env id;;
        match user with
        | None => throw (Error "User not found")
        | Some u => if negb (UserRole_eqb (role u) staff)
                    then throw (Error msgRole)
                    else k u
        end)
       (fun error => throw (Error (strOr (message error) dflt))) w).
Proof.
  unfold notExistingStaff, rejectedUntouched. intros H.
  match goal with |- context [fst ?run] =>
    assert (E : exists e, run = (Throw e, log (EvGetDoc id) w))
  end.
  { unfold try_catch, bind, throw. rewrite getUserByUid_run.
    destruct (getDocFault env id); [simpl; now eauto|].
    destruct (Firebase.findDoc id (users w)) as [u|]; simpl; [|now eauto].
    apply UserRole_eqb_neq in H. rewrite H. simpl. now eauto. }
  destruct E as [e E]. rewrite E. simpl. eauto.
Qed.

(** C10. Granting, revoking or toggling approval rights for a target that
    does not exist or whose role is not staff fails with an error and
    modifies no directory record: the directory is unchanged and the only
    external call issued is the read of the target, so [canApproveStudents]
    is never written for such a target. *)
Theorem approval_rights_only_for_existing_staff
        (env : Env) (staffUid : string) (w : World) :
  notExistingStaff staffUid w ->
  rejectedUntouched staffUid w (AdminService.grantApprovalRights env staffUid w) /\
  rejectedUntouched staffUid w (AdminService.revokeApprovalRights env staffUid w) /\
  rejectedUntouched staffUid w (AdminService.toggleApprovalRights env staffUid w).
Proof.
  intros H. unfold AdminService.grantApprovalRights,
    AdminService.revokeApprovalRights, AdminService.toggleApprovalRights.
  split; [|split]; apply rights_guard; exact H.
Qed.

Lemma approval_rights_only_for_existing_staff_witness :
  notExistingStaff "A" sampleWorld /\
  rejectedUntouched "A" sampleWorld
    (AdminService.grantApprovalRights sampleEnv "A" sampleWorld) /\
  rejectedUntouched "A" sampleWorld
    (AdminService.revokeApprovalRights sampleEnv "A" sampleWorld) /\
  rejectedUntouched "A" sampleWorld
    (AdminService.toggleApprovalRights sampleEnv "A" sampleWorld).
Proof.
  assert (H : notExistingStaff "A" sampleWorld) by (simpl; discriminate).
  split; [exact H|].
  exact (approval_rights_only_for_existing_staff sampleEnv "A" sampleWorld H).
Defined.

(** ** Staff approval is scoped to students of the actor's department *)

Lemma resolvesTo_inv (env : Env) (id : string) (w : World) (t : User) :
  resolvesTo env id w t ->
  UserService.getUserByUid env id w = (Ok (Some t), log (EvGetDoc id) w) /\
  Firebase.findDoc id (users w) = Some t.
Proof.
  unfold resolvesTo. rewrite getUserByUid_run.
  destruct (getDocFault env id); simpl; [discriminate|].
  intros H. inversion H. rewrite H1. auto.
Qed.

Lemma truthyB_not_true (o : option bool) :
  o <> Some true -> truthyB o = false.
Proof. destruct o as [[|]|]; simpl; congruence. Qed.

Lemma truthyB_true (o : option bool) : truthyB o = true -> o = Some true.
Proof. destruct o as [[|]|]; simpl; congruence. Qed.

Lemma approveUser_run (env : Env) (id : string) (w : World) :
  UserService.approveUser env id w =
  if updateDocFault env id
  then (Throw (Error "Failed to approve user"), log (EvUpdateDoc id) w)
  else match Firebase.findDoc id (users w) with
       | Some _ =>
           (Ok tt,
            setUsers (Firebase.updateFirst id
                        (applyUpdates (mkPartial None (Some true) None None None)
                                      (now env))
                        (users w))
                     (log (EvUpdateDoc id) w))
       | None => (Throw (Error "Failed to approve user"), log (EvUpdateDoc id) w)
       end.
Proof.
  unfold UserService.approveUser. unfold try_catch. rewrite updateUser_run.
  destruct (updateDocFault env id); [reflexivity|].
  destruct (Firebase.findDoc id (users w)); reflexivity.
Qed.

(** A failed [approveStudent] leaves the directory as it was, whatever
    made it fail. *)
Lemma approveStudent_failure_keeps_directory
      (env : Env) (staffUser : User) (studentUid : string) (w : World)
      (e : JsError) :
  fst (StaffService.approveStudent env staffUser studentUid w) = Throw e ->
  users (snd (StaffService.approveStudent env staffUser studentUid w))
  = users w.
Proof.
  unfold StaffService.approveStudent, try_catch, bind, throw.
  destruct (negb (UserRole_eqb (role staffUser) staff)); [reflexivity|].
  destruct (negb (truthyB (canApproveStudents staffUser))); [reflexivity|].
  rewrite getUserByUid_run.
  destruct (getDocFault env studentUid); [reflexivity|].
  destruct (Firebase.findDoc studentUid (users w)) as [t|] eqn:Hf;
    [|reflexivity].
  destruct (negb (UserRole_eqb (role t) student)); [reflexivity|].
  destruct (negb (department t =? department staffUser)); [reflexivity|].
  rewrite approveUser_run.
  destruct (updateDocFault env studentUid); [reflexivity|].
  simpl users. rewrite Hf. simpl. discriminate.
Qed.

(** C4. A staff actor who lacks [canApproveStudents], or whose target is
    not a student, or is a student of another department, is refused with
    a permission error and the directory (so the target's [isApproved]) is
    unchanged; an approval by a staff actor succeeds only when the actor has
    [canApproveStudents = true] and the target is a student of the actor's
    department; and an approval that fails for any reason leaves the
    directory unchanged. *)
Theorem staff_approval_scoped
        (env : Env) (staffUser : User) (studentUid : string) (w : World) :
  role staffUser = staff ->
  (outOfScope env staffUser studentUid w ->
   exists e,
     fst (StaffService.approveStudent env staffUser studentUid w) = Throw e /\
     isPermissionError e = true /\
     users (snd (StaffService.approveStudent env staffUser studentUid w))
     = users w) /\
  (fst (StaffService.approveStudent env staffUser studentUid w) = Ok tt ->
   canApproveStudents staffUser = Some true /\
   exists t,
     Firebase.findDoc studentUid (users w) = Some t /\
     role t = student /\
     department t = department staffUser) /\
  (forall e,
     fst (StaffService.approveStudent env staffUser studentUid w) = Throw e ->
     users (snd (StaffService.approveStudent env staffUser studentUid w))
     = users w).
Proof.
  intros Hrole.
  split; [|split; [|apply approveStudent_failure_keeps_directory]];
    unfold StaffService.approveStudent; apply UserRole_eqb_eq in Hrole.
  - intros Hout.
    match goal with |- context [fst ?run] =>
      assert (E : exists e, isPermissionError e = true /\
                            (run = (Throw e, w) \/
                             run = (Throw e, log (EvGetDoc studentUid) w)))
    end.
    { assert (Hfin : forall (e : string) (w' : World),
                 (w' = w \/ w' = log (EvGetDoc studentUid) w) ->
                 In e permissionMessages ->
                 exists e0, isPermissionError e0 = true /\
                   ((Throw (A := unit) (Error (strOr e "Failed to approve student")), w')
                    = (Throw e0, w) \/
                    (Throw (A := unit) (Error (strOr e "Failed to approve student")), w')
                    = (Throw e0, log (EvGetDoc studentUid) w))).
      { intros e w' Hw Hin. eexists. split; [|destruct Hw; subst w'; eauto].
        simpl in Hin.
        repeat (destruct Hin as [<- | Hin]; [reflexivity|]). contradiction. }
      unfold try_catch, bind, throw. rewrite Hrole. simpl.
      destruct Hout as [Hno | t Hres Hr | t Hres Hr Hd].
      - rewrite (truthyB_not_true _ Hno). simpl.
        apply Hfin; simpl; auto.
      - destruct (truthyB (canApproveStudents staffUser)); simpl;
          [|apply Hfin; simpl; now auto].
        destruct (resolvesTo_inv _ _ _ _ Hres) as [-> _]. simpl.
        apply UserRole_eqb_neq in Hr. rewrite Hr. simpl.
        apply Hfin; simpl; auto.
      - destruct (truthyB (canApproveStudents staffUser)); simpl;
          [|apply Hfin; simpl; now auto].
        destruct (resolvesTo_inv _ _ _ _ Hres) as [-> _]. simpl.
        apply UserRole_eqb_eq in Hr. rewrite Hr. simpl.
        apply String.eqb_neq in Hd. rewrite Hd. simpl.
        apply Hfin; simpl; auto 6. }
    destruct E as (e & Hp & [E | E]); rewrite E; simpl; eauto.
  - unfold try_catch, bind, throw. rewrite Hrole. simpl.
    destruct (truthyB (canApproveStudents staffUser)) eqn:Hc; simpl;
      [|discriminate].
    rewrite getUserByUid_run.
    destruct (getDocFault env studentUid); simpl; [discriminate|].
    destruct (Firebase.findDoc studentUid (users w)) as [t|] eqn:Hf; simpl;
      [|discriminate].
    destruct (UserRole_eqb (role t) student) eqn:Hr; simpl; [|discriminate].
    destruct (department t =? department staffUser) eqn:Hd; simpl;
      [|discriminate].
    intros _. split; [now apply truthyB_true|].
    exists t. repeat split.
    + now apply UserRole_eqb_eq.
    + now apply String.eqb_eq.
Qed.

Lemma staff_approval_scoped_witness :
  role sampleStaff = staff /\
  outOfScope sampleEnv sampleStaff "B" sampleWorld /\
  exists e,
    fst (StaffService.approveStudent sampleEnv sampleStaff "B" sampleWorld)
    = Throw e /\
    isPermissionError e = true /\
    users (snd (StaffService.approveStudent sampleEnv sampleStaff "B"
                                            sampleWorld))
    = users sampleWorld.
Proof.
  assert (Hr : role sampleStaff = staff) by reflexivity.
  assert (Ho : outOfScope sampleEnv sampleStaff "B" sampleWorld).
  { apply NotAStudent with sampleStaff; [reflexivity | discriminate]. }
  split; [exact Hr|]. split; [exact Ho|].
  exact (proj1 (staff_approval_scoped sampleEnv sampleStaff "B" sampleWorld Hr)
               Ho).
Defined.

(** ** NFC assignment *)

Lemma assignNfcId_run (env : Env) (id tag : string) (w : World) :
  tag <> "" ->
  getDocsFault env "nfcId" = false ->
  UserService.assignNfcId env id tag w =
  match find (UserService.holdsNfc tag) (users w) with
  | Some holder =>
      if uid holder =? id
      then try_catch
             (UserService.updateUser env id
                (mkPartial None None (Some tag) None None))
             (fun _ => throw (Error "Failed to assign NFC ID"))
             (log (EvGetDocs "nfcId" tag) w)
      else (Throw (Error "Failed to assign NFC ID"),
            log (EvGetDocs "nfcId" tag) w)
  | None =>
      try_catch
        (UserService.updateUser env id (mkPartial None None (Some tag) None None))
        (fun _ => throw (Error "Failed to assign NFC ID"))
        (log (EvGetDocs "nfcId" tag) w)
  end.
Proof.
  intros Ht Hq. unfold UserService.assignNfcId.
  unfold try_catch at 1. unfold bind at 1.
  rewrite getUserByNfcId_run.
  apply String.eqb_neq in Ht. rewrite Ht, Hq.
  destruct (find (UserService.holdsNfc tag) (users w)) as [h|]; [|reflexivity].
  destruct (uid h =? id); reflexivity.
Qed.

(** An [nfcId] held by another record is never reassigned: the call throws
    and the directory is unchanged.  The error that reaches the caller is
    the blanket one of the [catch] block, not the one thrown by the check. *)
Lemma assignNfcId_held_by_other
      (env : Env) (id tag : string) (w : World) (holder : User) :
  tag <> "" ->
  getDocsFault env "nfcId" = false ->
  find (UserService.holdsNfc tag) (users w) = Some holder ->
  uid holder <> id ->
  UserService.assignNfcId env id tag w =
  (Throw (Error "Failed to assign NFC ID"), log (EvGetDocs "nfcId" tag) w).
Proof.
  intros Ht Hq Hh Hne. rewrite assignNfcId_run by assumption.
  rewrite Hh. apply String.eqb_neq in Hne. now rewrite Hne.
Qed.

(** Assigning an [nfcId] to the record that already holds it succeeds when the
    directory accepts the write. *)
Lemma assignNfcId_same_holder
      (env : Env) (id tag : string) (w : World) (holder : User) :
  tag <> "" ->
  getDocsFault env "nfcId" = false ->
  updateDocFault env id = false ->
  find (UserService.holdsNfc tag) (users w) = Some holder ->
  uid holder = id ->
  fst (UserService.assignNfcId env id tag w) = Ok tt.
Proof.
  intros Ht Hq Hu Hh He. rewrite assignNfcId_run by assumption.
  rewrite Hh. apply String.eqb_eq in He. rewrite He.
  unfold try_catch. rewrite updateUser_run. simpl. rewrite Hu.
  assert (Hf : exists d, Firebase.findDoc id (users w) = Some d).
  { unfold Firebase.findDoc.
    destruct (find (Firebase.hasId id) (users w)) as [d|] eqn:E; [eauto|].
    apply find_some in Hh. destruct Hh as [Hin _].
    pose proof (find_none _ _ E _ Hin) as Hn.
    unfold Firebase.hasId in Hn. congruence. }
  destruct Hf as [d ->]. reflexivity.
Qed.

(** C6. Record A holds tag N1; assigning N1 to record B is refused and the
    directory is unchanged, but the error surfaced by
    [UserService.assignNfcId], and passed on by [AdminService.assignNfcCard],
    is "Failed to assign NFC ID": the "NFC ID already assigned to another
    user" error thrown by the check is replaced in the enclosing [catch]. *)
Theorem assignNfcId_conflict_error_masked :
  UserService.assignNfcId sampleEnv "B" "N1" sampleWorld =
  (Throw (Error "Failed to assign NFC ID"),
   log (EvGetDocs "nfcId" "N1") sampleWorld) /\
  fst (AdminService.assignNfcCard sampleEnv "B" "N1" sampleWorld) =
  Throw (Error "Failed to assign NFC ID") /\
  message (Error "Failed to assign NFC ID")
  <> "NFC ID already assigned to another user" /\
  fst (UserService.assignNfcId sampleEnv "A" "N1" sampleWorld) = Ok tt.
Proof.
  repeat split; try reflexivity. simpl. discriminate.
Qed.

(** ** Resolution order of the profile screen *)

Lemma truthy_nonempty (o : option string) :
  truthy o = true -> (orElse o "" =? "") = false.
Proof.
  destruct o as [s|]; simpl; [|discriminate].
  destruct (s =? ""); simpl; congruence.
Qed.

(** C9 (as the code has it). [loadUser] issues exactly one directory query:
    by NFC id whenever an NFC id is presented, whatever card number came
    with it; by the presented card number when no NFC id is presented; and
    by the default card number "Admin01" when neither is presented.  When
    the query succeeds the screen's user is the record it selects. *)
Theorem kiosk_resolution_order
        (env : Env) (routeNfcId routeCardNumber : option string) (w : World) :
  let out := UserProfileScreen.loadUser env routeNfcId routeCardNumber w in
  fst out = Ok tt /\
  trace (snd out) = (trace w ++ [lookupOf routeNfcId routeCardNumber])%list /\
  users (snd out) = users w /\
  (getDocsFault env (queriedField routeNfcId) = false ->
   ui_user (profile (snd out))
   = selectedBy routeNfcId routeCardNumber (users w)).
Proof.
  unfold UserProfileScreen.loadUser, lookupOf, selectedBy, queriedField.
  unfold UserProfileScreen.setLoading, UserProfileScreen.setError,
    UserProfileScreen.setUser.
  unfold try_finally, try_catch, bind, modify, ret.
  cbv beta iota zeta.
  destruct (truthy routeNfcId) eqn:Hn; cbv beta iota.
  - rewrite getUserByNfcId_run. rewrite (truthy_nonempty _ Hn).
    destruct (getDocsFault env "nfcId"); simpl.
    + repeat split; try reflexivity. discriminate.
    + destruct (find _ (users w)); simpl; repeat split; reflexivity.
  - rewrite getUserByCardNumber_run.
    destruct (truthy routeCardNumber) eqn:Hc.
    + rewrite (truthy_nonempty _ Hc).
      destruct (getDocsFault env "cardNumber"); simpl.
      * repeat split; try reflexivity. discriminate.
      * destruct (find _ (users w)); simpl; repeat split; reflexivity.
    + simpl (UserProfileScreen.DEFAULT_CARD_NUMBER =? "").
      destruct (getDocsFault env "cardNumber"); simpl.
      * repeat split; try reflexivity. discriminate.
      * destruct (find _ (users w)); simpl; repeat split; reflexivity.
Qed.

(** C9 (as stated) fails: with neither an NFC id nor a card number
    presented, a record is still looked up and resolved, the one holding
    the default card number. *)
Lemma kiosk_neither_presented_counterexample :
  let out := UserProfileScreen.loadUser sampleEnv None None adminWorld in
  trace (snd out) = [EvGetDocs "cardNumber" "Admin01"] /\
  trace (snd out) <> trace adminWorld /\
  ui_user (profile (snd out)) = Some adminRecord.
Proof.
  simpl. repeat split. discriminate.
Qed.

(** ** Login failures are indistinguishable *)

Lemma getUserByCardNumber_fst_users (env : Env) (card : string) (w w' : World) :
  users w' = users w ->
  fst (UserService.getUserByCardNumber env card w')
  = fst (UserService.getUserByCardNumber env card w).
Proof.
  intros H. rewrite !getUserByCardNumber_run.
  destruct (card =? ""); [reflexivity|].
  destruct (getDocsFault env "cardNumber"); simpl; [reflexivity|].
  now rewrite H.
Qed.

Lemma getUserByCardNumber_keeps (env : Env) (card : string) (w : World) :
  users (snd (UserService.getUserByCardNumber env card w)) = users w /\
  accounts (snd (UserService.getUserByCardNumber env card w)) = accounts w /\
  currentUser (snd (UserService.getUserByCardNumber env card w))
  = currentUser w /\
  authCtx (snd (UserService.getUserByCardNumber env card w)) = authCtx w.
Proof.
  rewrite getUserByCardNumber_run.
  destruct (card =? ""); [simpl; auto|].
  destruct (getDocsFault env "cardNumber"); simpl; auto.
Qed.

Lemma signIn_fst_accounts (env : Env) (mail pw : string) (w w' : World) :
  accounts w' = accounts w ->
  fst (Firebase.signInWithEmailAndPassword env mail pw w')
  = fst (Firebase.signInWithEmailAndPassword env mail pw w).
Proof.
  intros H. unfold Firebase.signInWithEmailAndPassword. rewrite H.
  destruct (signInFault env); [reflexivity|].
  destruct (Firebase.findAccount mail (accounts w)); [|reflexivity].
  destruct (acc_password a =? pw); reflexivity.
Qed.

(** The [catch] block of [AuthService.login] maps an error of the [auth/]
    category, and its own unknown-card error, to the generic message. *)
Lemma login_catch_generic (A : Type) (e : JsError) (w : World) :
  isAuthCode e = true \/ message e = AuthService.genericLoginMessage ->
  surfaced
    ((if message e =? "Invalid card number or password"
      then throw (A := A) e
      else if isAuthCode e
           then throw (Error "Invalid card number or password")
           else throw (AuthService.handleAuthError e)) w)
  = Some AuthService.genericLoginMessage.
Proof.
  intros H. unfold surfaced, throw.
  destruct (message e =? "Invalid card number or password") eqn:E.
  - apply String.eqb_eq in E. simpl. now rewrite E.
  - destruct H as [H | H].
    + rewrite H. reflexivity.
    + apply String.eqb_neq in E. contradiction.
Qed.

Lemma login_failure_generic (env : Env) (w : World) (c : LoginCredentials) :
  LoginFailure env w c ->
  surfaced (AuthService.login env c w) = Some AuthService.genericLoginMessage.
Proof.
  intros H. unfold AuthService.login.
  unfold try_catch at 1. unfold bind at 1.
  destruct (UserService.getUserByCardNumber env (lc_cardNumber c) w)
    as [r w1] eqn:Hrun.
  pose proof (getUserByCardNumber_keeps env (lc_cardNumber c) w) as Hk.
  rewrite Hrun in Hk. simpl in Hk. destruct Hk as (_ & Hacc & _).
  destruct H as [H | u a H Hf Ha Hp | u e H Hs He];
    rewrite Hrun in H; simpl in H; subst r.
  - unfold throw at 1. cbv beta iota.
    apply (login_catch_generic FirebaseUser
             (Error "Invalid card number or password") w1).
    right. reflexivity.
  - unfold Firebase.signInWithEmailAndPassword. rewrite Hf, Hacc, Ha.
    apply String.eqb_neq in Hp. rewrite Hp. reflexivity.
  - rewrite <- (signIn_fst_accounts env (email u) (lc_password c) w w1 Hacc)
      in Hs.
    destruct (Firebase.signInWithEmailAndPassword env (email u)
                (lc_password c) w1) as [r2 w2].
    simpl in Hs. subst r2.
    apply login_catch_generic. now left.
Qed.

Lemma login_failure_ctx (env : Env) (w : World) (c : LoginCredentials) :
  LoginFailure env w c ->
  surfaced (AuthContext.login env c w) = Some AuthService.genericLoginMessage /\
  ui_error (authCtx (snd (AuthContext.login env c w)))
  = Some AuthService.genericLoginMessage.
Proof.
  intros H.
  set (w1 := setAuthCtx (withError None
                 (authCtx (setAuthCtx (withLoading true (authCtx w)) w)))
               (setAuthCtx (withLoading true (authCtx w)) w)).
  assert (H1 : LoginFailure env w1 c).
  { assert (Hu : users w1 = users w) by reflexivity.
    assert (Ha : accounts w1 = accounts w) by reflexivity.
    destruct H as [H | u a H Hf Hacc Hp | u e H Hs He].
    - apply UnknownCard.
      now rewrite (getUserByCardNumber_fst_users env (lc_cardNumber c) w w1 Hu).
    - apply WrongSecret with u a; auto.
      now rewrite (getUserByCardNumber_fst_users env (lc_cardNumber c) w w1 Hu).
    - apply AuthCategoryError with u e; auto.
      + now rewrite (getUserByCardNumber_fst_users env (lc_cardNumber c) w w1 Hu).
      + now rewrite (signIn_fst_accounts env (email u) (lc_password c) w w1 Ha). }
  apply login_failure_generic in H1.
  unfold AuthContext.login.
  unfold AuthContext.setLoading, AuthContext.setError.
  unfold try_finally, try_catch, bind, modify. cbv beta iota zeta.
  fold w1. unfold surfaced in *.
  destruct (AuthService.login env c w1) as [[fu|e] w2]; simpl in H1;
    [discriminate|].
  inversion H1 as [Hm]. unfold throw. simpl. rewrite Hm. simpl. auto.
Qed.

(** C7. Any two failing login attempts, each for an unknown card number,
    a wrong secret or an authentication-category error of the credential
    service, surface the same generic message, from [AuthService.login] and
    from the context's [login] alike, and the context records that same
    message as its error. *)
Theorem login_failures_indistinguishable
        (env1 env2 : Env) (w1 w2 : World) (c1 c2 : LoginCredentials) :
  LoginFailure env1 w1 c1 ->
  LoginFailure env2 w2 c2 ->
  surfaced (AuthService.login env1 c1 w1) = Some "Invalid card number or password" /\
  surfaced (AuthService.login env1 c1 w1) = surfaced (AuthService.login env2 c2 w2) /\
  surfaced (AuthContext.login env1 c1 w1) = surfaced (AuthContext.login env2 c2 w2) /\
  ui_error (authCtx (snd (AuthContext.login env1 c1 w1)))
  = ui_error (authCtx (snd (AuthContext.login env2 c2 w2))).
Proof.
  intros H1 H2.
  pose proof (login_failure_generic _ _ _ H1) as G1.
  pose proof (login_failure_generic _ _ _ H2) as G2.
  destruct (login_failure_ctx _ _ _ H1) as [K1 L1].
  destruct (login_failure_ctx _ _ _ H2) as [K2 L2].
  unfold AuthService.genericLoginMessage in *.
  repeat split; congruence.
Qed.

Lemma login_failures_indistinguishable_witness :
  let unknown := mkLoginCredentials "C-404" "pwA" in
  let wrong := mkLoginCredentials "C-001" "guess" in
  LoginFailure sampleEnv sampleWorld unknown /\
  LoginFailure sampleEnv sampleWorld wrong /\
  surfaced (AuthService.login sampleEnv unknown sampleWorld)
  = surfaced (AuthService.login sampleEnv wrong sampleWorld).
Proof.
  intros unknown wrong.
  assert (H1 : LoginFailure sampleEnv sampleWorld unknown)
    by (apply UnknownCard; reflexivity).
  assert (H2 : LoginFailure sampleEnv sampleWorld wrong).
  { apply WrongSecret with sampleStudent
                           (mkAccount "authA" "a@u.edu" "pwA" "Ann Lee");
      [reflexivity | reflexivity | reflexivity | simpl; discriminate]. }
  split; [exact H1|]. split; [exact H2|].
  exact (proj1 (proj2 (login_failures_indistinguishable _ _ _ _ _ _ H1 H2))).
Defined.

(** ** Defaults of a created account *)

Lemma findDoc_app_new (id : string) (l : list User) (d : User) :
  Firebase.findDoc id l = None -> uid d = id ->
  Firebase.findDoc id (l ++ [d]) = Some d.
Proof.
  unfold Firebase.findDoc. intros Hn Hd.
  induction l as [|v l IH]; simpl in *.
  - unfold Firebase.hasId. apply String.eqb_eq in Hd. now rewrite Hd.
  - destruct (Firebase.hasId id v); [discriminate | auto].
Qed.

Lemma setDoc_stores (env : Env) (id : string) (d : User) (w w' : World) :
  uid d = id ->
  Firebase.setDoc env id d w = (Ok tt, w') ->
  Firebase.findDoc id (users w') = Some d.
Proof.
  intros Hd. unfold Firebase.setDoc.
  destruct (setDocFault env); [discriminate|].
  destruct (Firebase.findDoc id (users w)) as [old|] eqn:E;
    intros H; inversion H; subst w'; simpl.
  - apply (findDoc_updateFirst_same id (fun _ => d) (users w) old); [|exact E].
    now rewrite Hd, (findDoc_hasId _ _ _ E).
  - now apply findDoc_app_new.
Qed.

(** A successful [createUser] returns its object literal and has written
    the prepared document under the new document id. *)
Lemma createUser_ok_inv (env : Env) (authId : string) (userData : CreateUserData)
      (w w' : World) (u : User) :
  UserService.createUser env authId userData w = (Ok u, w') ->
  exists image w1,
    u = UserService.createdUser env (newDocId env) authId userData image /\
    Firebase.setDoc env (newDocId env)
      (UserService.newUserData env (newDocId env) authId userData image) w1
    = (Ok tt, w').
Proof.
  unfold UserService.createUser.
  unfold try_catch at 1. unfold bind at 1.
  destruct (UserService.getUserByCardNumber env (cu_cardNumber userData) w)
    as [[[existing|]|e] w0].
  - unfold throw. simpl. discriminate.
  - unfold bind at 1.
    match goal with |- context [(if ?c then ?a else ?b) w0] =>
      destruct ((if c then a else b) w0) as [[image|e] w1]
    end.
    + unfold bind, ret.
      destruct (Firebase.setDoc env (newDocId env)
                  (UserService.newUserData env (newDocId env) authId userData
                                           image) w1) as [[[]|e] w2] eqn:Hs.
      * intros H. inversion H; subst. eauto.
      * unfold throw.
        destruct (message e =? "Card number already exists"); discriminate.
    + unfold throw.
      destruct (message e =? "Card number already exists"); discriminate.
  - unfold throw.
    destruct (message e =? "Card number already exists"); discriminate.
Qed.

(** C8 (as the code has it). After a successful [createUser] the returned
    record and the stored document both have [isActive = true],
    [isApproved = true] exactly for the admin role, and the requested card
    number; the stored document has [canApproveStudents = false] when the
    role is staff, while the returned record leaves [canApproveStudents]
    unset for every role. *)
Theorem createUser_defaults
        (env : Env) (authId : string) (userData : CreateUserData)
        (w w' : World) (u : User) :
  UserService.createUser env authId userData w = (Ok u, w') ->
  (isActive u = true /\
   (isApproved u = true <-> cu_role userData = admin) /\
   cardNumber u = cu_cardNumber userData /\
   canApproveStudents u = None) /\
  exists d,
    Firebase.findDoc (uid u) (users w') = Some d /\
    authUid d = authId /\
    isActive d = true /\
    (isApproved d = true <-> cu_role userData = admin) /\
    cardNumber d = cu_cardNumber userData /\
    (cu_role userData = staff -> canApproveStudents d = Some false).
Proof.
  intros H. apply createUser_ok_inv in H.
  destruct H as (image & w1 & -> & Hs).
  assert (Hadm : forall r, (if UserRole_eqb r admin then true else false) = true
                           <-> r = admin)
    by (intros []; simpl; split; congruence).
  split.
  - simpl. repeat split; try apply Hadm; auto.
  - apply setDoc_stores in Hs; [|reflexivity].
    eexists. split; [exact Hs|]. simpl.
    repeat split; try apply Hadm; auto.
    intros ->. reflexivity.
Qed.

Lemma createUser_defaults_witness :
  let out := UserService.createUser sampleEnv "auth9" staffRequest sampleWorld in
  exists u, fst out = Ok u /\
    isActive u = true /\
    exists d,
      Firebase.findDoc (uid u) (users (snd out)) = Some d /\
      canApproveStudents d = Some false.
Proof.
  intros out.
  destruct out as [r w'] eqn:E.
  assert (Hr : r = Ok (UserService.createdUser sampleEnv "doc9" "auth9"
                                               staffRequest None)).
  { unfold out in E. vm_compute in E. inversion E. reflexivity. }
  subst r. eexists. split; [reflexivity|].
  destruct (createUser_defaults sampleEnv "auth9" staffRequest sampleWorld _ _ E)
    as ((Hact & _) & d & Hd & _ & _ & _ & _ & Hcan).
  split; [exact Hact|].
  exists d. split; [exact Hd | exact (Hcan eq_refl)].
Defined.

(** C8 (as stated) fails for the returned record: the record returned for
    a staff request has no [canApproveStudents] at all, it is not [false]. *)
Lemma createUser_returned_staff_counterexample :
  exists u w',
    UserService.createUser sampleEnv "auth9" staffRequest sampleWorld
    = (Ok u, w') /\
    role u = staff /\
    canApproveStudents u <> Some false.
Proof.
  eexists. eexists. split; [vm_compute; reflexivity|].
  split; [reflexivity | discriminate].
Qed.

(** ** Registration: rollback of the credential *)

Lemma registerCatch_run (env : Env) (fu : FirebaseUser) (e : JsError)
      (w : World) :
  let out := AuthContext.registerCatch env (Some fu) e w in
  fst out = Throw e /\
  users (snd out) = users w /\
  trace (snd out) = (trace w ++ rollbackCalls env fu)%list /\
  ui_error (authCtx (snd out)) = Some (strOr (message e) "Failed to register") /\
  ui_user (authCtx (snd out)) = ui_user (authCtx w) /\
  (deleteAccountFault env = None ->
   accounts (snd out)
   = filter (fun a => negb (acc_uid a =? fu_uid fu)) (accounts w) /\
   currentUser (snd out) = None) /\
  (deleteAccountFault env <> None -> signOutFault env = None ->
   currentUser (snd out) = None).
Proof.
  unfold AuthContext.registerCatch, rollbackCalls, AuthService.logout,
    Firebase.deleteUser, Firebase.signOut, AuthContext.setError.
  unfold try_catch, bind, modify, throw, ret. cbv beta iota zeta.
  destruct (deleteAccountFault env) as [de|]; cbv beta iota zeta.
  - destruct (signOutFault env) as [se|]; simpl;
      rewrite <- app_assoc; simpl; repeat split; auto; congruence.
  - simpl. repeat split; auto; congruence.
Qed.

(** Once [AuthService.register] has returned the credential, [register]
    continues with the second half of its [try] block. *)
Lemma register_step (env : Env) (userData : CreateUserData) (w w1 : World)
      (fu : FirebaseUser) :
  AuthService.register env userData (started w) = (Ok fu, w1) ->
  AuthContext.register env userData w =
  try_finally
    (try_catch
       (newUser <- UserService.createUser env (fu_uid fu) userData;;
        AuthContext.setUser (Some newUser);;
        AuthContext.setFirebaseUser (Some fu))
       (AuthContext.registerCatch env (Some fu)))
    (fun w => setAuthCtx (withLoading false (authCtx w)) w) w1.
Proof.
  intros Hreg. unfold AuthContext.register.
  unfold AuthContext.setLoading, AuthContext.setError.
  unfold try_finally.
  unfold bind at 1. unfold try_catch at 1.
  unfold bind at 1. unfold modify at 1. cbv beta iota zeta.
  unfold bind at 1. unfold modify at 1. cbv beta iota zeta.
  change (setAuthCtx _ (setAuthCtx _ w)) with (started w).
  rewrite Hreg. reflexivity.
Qed.

Lemma register_create_fails (env : Env) (userData : CreateUserData)
      (w w1 w2 : World) (fu : FirebaseUser) (e : JsError) :
  AuthService.register env userData (started w) = (Ok fu, w1) ->
  UserService.createUser env (fu_uid fu) userData w1 = (Throw e, w2) ->
  AuthContext.register env userData w =
  try_finally (AuthContext.registerCatch env (Some fu) e)
              (fun w => setAuthCtx (withLoading false (authCtx w)) w) w2.
Proof.
  intros Hreg Hcreate. rewrite (register_step env userData w w1 fu Hreg).
  unfold try_finally, try_catch. unfold bind at 1. rewrite Hcreate.
  reflexivity.
Qed.

(** C2. When the credential was created and the directory step then fails,
    the compensation runs: the credential delete is issued and, only if it
    fails, a sign-out; whatever the outcome of these two calls, the error
    surfaced (and recorded by the context) is the failure of the directory
    step.  When the delete succeeds no account with the new uid remains. *)
Theorem register_rollback
        (env : Env) (userData : CreateUserData) (w w1 w2 : World)
        (fu : FirebaseUser) (e : JsError) :
  AuthService.register env userData (started w) = (Ok fu, w1) ->
  UserService.createUser env (fu_uid fu) userData w1 = (Throw e, w2) ->
  let out := AuthContext.register env userData w in
  fst out = Throw e /\
  ui_error (authCtx (snd out)) = Some (strOr (message e) "Failed to register") /\
  trace (snd out) = (trace w2 ++ rollbackCalls env fu)%list /\
  users (snd out) = users w2 /\
  (deleteAccountFault env = None ->
   (forall a, In a (accounts (snd out)) -> acc_uid a <> fu_uid fu) /\
   currentUser (snd out) = None) /\
  (deleteAccountFault env <> None -> signOutFault env = None ->
   currentUser (snd out) = None).
Proof.
  intros Hreg Hcreate out. unfold out.
  rewrite (register_create_fails env userData w w1 w2 fu e Hreg Hcreate).
  unfold try_finally.
  pose proof (registerCatch_run env fu e w2) as R. cbv zeta in R.
  destruct (AuthContext.registerCatch env (Some fu) e w2) as [r w3].
  simpl in *.
  destruct R as (Hr & Hu & Ht & He & _ & Hd & Hs).
  split; [exact Hr|]. split; [exact He|]. split; [exact Ht|].
  split; [exact Hu|]. split; [|exact Hs].
  intros Hdel. destruct (Hd Hdel) as [Hacc Hcur]. split; [|exact Hcur].
  intros a Hin. rewrite Hacc in Hin.
  apply filter_In in Hin. destruct Hin as [_ Hne].
  apply negb_true_iff in Hne. now apply String.eqb_neq.
Qed.

Lemma register_rollback_witness :
  let out := AuthContext.register writeFailsEnv studentRequest sampleWorld in
  fst out = Throw (Error "Failed to create user profile") /\
  trace (snd out)
  = [EvCreateAccount "c@u.edu"; EvUpdateProfile "auth9";
     EvGetDocs "cardNumber" "C-004"; EvSetDoc "doc9"; EvDeleteAccount "auth9"] /\
  accounts (snd out) = accounts sampleWorld.
Proof.
  intros out.
  destruct (AuthService.register writeFailsEnv studentRequest
                                 (started sampleWorld)) as [r w1] eqn:Hreg.
  assert (Hr : r = Ok (mkFirebaseUser "auth9" "c@u.edu"))
    by (vm_compute in Hreg; inversion Hreg; reflexivity).
  subst r.
  destruct (UserService.createUser writeFailsEnv "auth9" studentRequest w1)
    as [r2 w2] eqn:Hcreate.
  assert (Hr2 : r2 = Throw (Error "Failed to create user profile")).
  { assert (Hw1 : w1 = snd (AuthService.register writeFailsEnv studentRequest
                                                 (started sampleWorld)))
      by (now rewrite Hreg).
    rewrite Hw1 in Hcreate. vm_compute in Hcreate. inversion Hcreate.
    reflexivity. }
  subst r2.
  split; [exact (proj1 (register_rollback writeFailsEnv studentRequest
                                          sampleWorld _ _ _ _ Hreg Hcreate))|].
  split; vm_compute; reflexivity.
Defined.

(** ** Login of a blocked account *)

Lemma login_resolved (env : Env) (c : LoginCredentials) (w w1 w2 : World)
      (fu : FirebaseUser) (u : User) :
  AuthService.login env c (started w) = (Ok fu, w1) ->
  UserService.getUserByAuthUid env (fu_uid fu) w1 = (Ok (Some u), w2) ->
  AuthContext.login env c w =
  try_finally
    (try_catch (loginGate env fu u)
       (fun err =>
          AuthContext.setError (Some (strOr (message err) "Failed to login"));;
          throw err))
    (fun w => setAuthCtx (withLoading false (authCtx w)) w) w2.
Proof.
  intros Hlogin Hget. unfold AuthContext.login.
  unfold AuthContext.setLoading at 1. unfold AuthContext.setError at 1.
  unfold try_finally. unfold try_catch at 1.
  unfold bind at 1. unfold modify at 1. cbv beta iota zeta.
  unfold bind at 1. unfold modify at 1. cbv beta iota zeta.
  change (setAuthCtx _ (setAuthCtx _ w)) with (started w).
  unfold bind at 1. rewrite Hlogin.
  unfold bind at 1. rewrite Hget.
  reflexivity.
Qed.

Lemma signIn_keeps_ctx (env : Env) (mail pw : string) (w : World) :
  authCtx (snd (Firebase.signInWithEmailAndPassword env mail pw w)) = authCtx w.
Proof.
  unfold Firebase.signInWithEmailAndPassword.
  destruct (signInFault env); [reflexivity|].
  destruct (Firebase.findAccount mail (accounts w)); [|reflexivity].
  destruct (acc_password a =? pw); reflexivity.
Qed.

Lemma AuthService_login_keeps_ctx (env : Env) (c : LoginCredentials) (w : World) :
  authCtx (snd (AuthService.login env c w)) = authCtx w.
Proof.
  unfold AuthService.login. unfold try_catch at 1. unfold bind at 1.
  pose proof (getUserByCardNumber_keeps env (lc_cardNumber c) w) as K.
  destruct (UserService.getUserByCardNumber env (lc_cardNumber c) w)
    as [[[u|]|e] w0]; simpl in K; destruct K as (_ & _ & _ & K).
  - pose proof (signIn_keeps_ctx env (email u) (lc_password c) w0) as S.
    destruct (Firebase.signInWithEmailAndPassword env (email u)
                (lc_password c) w0) as [[fu|e] w1]; simpl in S.
    + simpl. congruence.
    + unfold throw.
      destruct (message e =? "Invalid card number or password");
        [simpl; congruence|].
      destruct (isAuthCode e); simpl; congruence.
  - unfold throw. simpl. exact K.
  - unfold throw.
    destruct (message e =? "Invalid card number or password");
      [simpl; congruence|].
    destruct (isAuthCode e); simpl; congruence.
Qed.

Lemma getUserByAuthUid_keeps_ctx (env : Env) (id : string) (w : World) :
  authCtx (snd (UserService.getUserByAuthUid env id w)) = authCtx w.
Proof.
  rewrite getUserByAuthUid_run.
  destruct (getDocsFault env "authUid"); reflexivity.
Qed.

(** C3 (as the code has it). A login whose secret is accepted and whose
    record is inactive or unapproved always fails, the sign-out is issued
    before the error is surfaced, and the context's user is left as it
    was.  When the sign-out call succeeds, the error surfaced is the
    account-not-usable one and no session remains. *)
Theorem blocked_login_signs_out
        (env : Env) (c : LoginCredentials) (w w1 w2 : World)
        (fu : FirebaseUser) (u : User) :
  AuthService.login env c (started w) = (Ok fu, w1) ->
  UserService.getUserByAuthUid env (fu_uid fu) w1 = (Ok (Some u), w2) ->
  blocked u ->
  let out := AuthContext.login env c w in
  (exists e, fst out = Throw e) /\
  trace (snd out) = (trace w2 ++ [EvSignOut])%list /\
  ui_user (authCtx (snd out)) = ui_user (authCtx w) /\
  (signOutFault env = None ->
   fst out = Throw (Error (blockedMessage u)) /\
   ui_error (authCtx (snd out)) = Some (blockedMessage u) /\
   currentUser (snd out) = None).
Proof.
  intros Hlogin Hget Hb out. unfold out.
  rewrite (login_resolved env c w w1 w2 fu u Hlogin Hget).
  assert (Hctx : ui_user (authCtx w2) = ui_user (authCtx w)).
  { pose proof (AuthService_login_keeps_ctx env c (started w)) as K1.
    pose proof (getUserByAuthUid_keeps_ctx env (fu_uid fu) w1) as K2.
    rewrite Hlogin in K1. rewrite Hget in K2. simpl in K1, K2.
    rewrite K2, K1. reflexivity. }
  assert (Hgate :
    loginGate env fu u =
    (AuthService.logout env;; throw (Error (blockedMessage u)))).
  { unfold loginGate, blockedMessage. destruct Hb as [Hb | Hb].
    - rewrite Hb. reflexivity.
    - rewrite Hb. destruct (isActive u); reflexivity. }
  rewrite Hgate.
  unfold AuthService.logout, Firebase.signOut, AuthContext.setError.
  unfold try_finally, try_catch, bind, modify, throw.
  destruct (signOutFault env) as [se|]; simpl.
  - split; [eauto|]. split; [reflexivity|]. split; [exact Hctx|].
    intros Hs. discriminate.
  - split; [eauto|]. split; [reflexivity|]. split; [exact Hctx|].
    intros _. split; [reflexivity|]. split; [|reflexivity].
    destruct (blockedMessage u =? "") eqn:E;
      [|unfold strOr; now rewrite E].
    unfold blockedMessage in E. destruct (negb (isActive u)); discriminate.
Qed.

Lemma blocked_login_signs_out_witness :
  let out := AuthContext.login sampleEnv studentLogin sampleWorld in
  blocked sampleStudent /\
  fst out = Throw (Error "Your account is pending approval") /\
  currentUser (snd out) = None.
Proof.
  intros out.
  assert (Hb : blocked sampleStudent) by (right; reflexivity).
  assert (Hsign : signOutFault sampleEnv = None) by reflexivity.
  destruct (AuthService.login sampleEnv studentLogin (started sampleWorld))
    as [r w1] eqn:Hlogin.
  assert (Hr : r = Ok (mkFirebaseUser "authA" "a@u.edu"))
    by (vm_compute in Hlogin; inversion Hlogin; reflexivity).
  subst r.
  destruct (UserService.getUserByAuthUid sampleEnv "authA" w1)
    as [r2 w2] eqn:Hget.
  assert (Hr2 : r2 = Ok (Some sampleStudent)).
  { assert (Hw1 : w1 = snd (AuthService.login sampleEnv studentLogin
                                              (started sampleWorld)))
      by (now rewrite Hlogin).
    rewrite Hw1 in Hget. vm_compute in Hget. inversion Hget. reflexivity. }
  subst r2.
  destruct (blocked_login_signs_out sampleEnv studentLogin sampleWorld w1 w2
              (mkFirebaseUser "authA" "a@u.edu") sampleStudent
              Hlogin Hget Hb) as (_ & _ & _ & Hok).
  destruct (Hok Hsign) as (Hres & _ & Hcur).
  split; [exact Hb|]. split; [exact Hres | exact Hcur].
Defined.

(** C3 (as stated) fails when the sign-out call itself is rejected: the
    pending student presents the correct secret, the error surfaced is the
    sign-out failure rather than the account-not-usable error, and the
    credential session is still open. *)
Lemma blocked_login_signout_failure_counterexample :
  let out := AuthContext.login signOutFailsEnv studentLogin sampleWorld in
  blocked sampleStudent /\
  fst (AuthService.login signOutFailsEnv studentLogin (started sampleWorld))
  = Ok (mkFirebaseUser "authA" "a@u.edu") /\
  exists e,
    fst out = Throw e /\
    isAccountNotUsable e = false /\
    currentUser (snd out) = Some "authA".
Proof.
  simpl. split; [right; reflexivity|]. split; [reflexivity|].
  eexists. split; [reflexivity|]. split; reflexivity.
Qed.

(** ** Registration with a card number that is already taken *)

Lemma find_none_intro (A : Type) (p : A -> bool) (l : list A) :
  (forall x, In x l -> p x = false) -> find p l = None.
Proof.
  induction l as [|a l IH]; simpl; intros H; [reflexivity|].
  rewrite (H a (or_introl eq_refl)). apply IH. intros x Hx. apply H. now right.
Qed.

Lemma AuthService_register_ok (env : Env) (userData : CreateUserData)
      (w : World) :
  createAccountFault env = None ->
  updateProfileFault env = None ->
  Firebase.findAccount (cu_email userData) (accounts w) = None ->
  exists w1,
    AuthService.register env userData w
    = (Ok (mkFirebaseUser (newAuthUid env) (cu_email userData)), w1) /\
    users w1 = users w /\
    accounts w1 = accountsAfterRegister env userData (accounts w) /\
    trace w1 = (trace w ++ [EvCreateAccount (cu_email userData);
                            EvUpdateProfile (newAuthUid env)])%list.
Proof.
  intros Hc Hp Hf. unfold AuthService.register.
  unfold Firebase.createUserWithEmailAndPassword, Firebase.updateProfile.
  unfold try_catch, bind, ret. rewrite Hc, Hf. cbv beta iota zeta.
  rewrite Hp. eexists. split; [reflexivity|]. simpl.
  rewrite <- app_assoc. auto.
Qed.

Lemma createUser_duplicate (env : Env) (authId : string)
      (userData : CreateUserData) (w : World) (holder : User) :
  cu_cardNumber userData <> "" ->
  getDocsFault env "cardNumber" = false ->
  find (fun u => cardNumber u =? cu_cardNumber userData) (users w)
  = Some holder ->
  UserService.createUser env authId userData w
  = (Throw (Error "Card number already exists"),
     log (EvGetDocs "cardNumber" (cu_cardNumber userData)) w).
Proof.
  intros Hne Hq Hfind. unfold UserService.createUser.
  unfold try_catch at 1. unfold bind at 1.
  rewrite getUserByCardNumber_run.
  apply String.eqb_neq in Hne. rewrite Hne, Hq, Hfind. reflexivity.
Qed.

Lemma no_account_after_delete (env : Env) (userData : CreateUserData)
      (l : list Account) :
  Firebase.findAccount (cu_email userData) l = None ->
  Firebase.findAccount (cu_email userData)
    (filter (fun a => negb (acc_uid a =? newAuthUid env))
            (accountsAfterRegister env userData l)) = None.
Proof.
  intros Hf. unfold Firebase.findAccount in *. apply find_none_intro.
  intros a Hin. apply filter_In in Hin. destruct Hin as [Hin Hkeep].
  unfold accountsAfterRegister in Hin. apply in_map_iff in Hin.
  destruct Hin as (a0 & <- & Hin0).
  assert (Hmail : forall b, acc_email (Firebase.setDisplayName
                    (newAuthUid env)
                    (cu_FirstName userData ++ " " ++ cu_LastName userData) b)
                    = acc_email b).
  { intros b. unfold Firebase.setDisplayName.
    destruct (acc_uid b =? newAuthUid env); reflexivity. }
  assert (Huid : forall b, acc_uid (Firebase.setDisplayName
                    (newAuthUid env)
                    (cu_FirstName userData ++ " " ++ cu_LastName userData) b)
                    = acc_uid b).
  { intros b. unfold Firebase.setDisplayName.
    destruct (acc_uid b =? newAuthUid env); reflexivity. }
  rewrite Hmail. rewrite Huid in Hkeep.
  apply in_app_or in Hin0. destruct Hin0 as [Hold | [<- | []]].
  - exact (find_none _ _ Hf a0 Hold).
  - simpl in Hkeep. rewrite String.eqb_refl in Hkeep. discriminate.
Qed.

(** C1 (as the code has it). For a registration whose non-empty card
    number is already in the directory: the credential is created first;
    when that succeeds and the directory answers the lookup, the duplicate
    is detected after the credential exists, registration fails with the
    duplicate-card-number error, the directory is left unchanged, and the
    rollback issues the delete of the new credential (and a sign-out if
    the delete fails).  When the delete succeeds no credential for the
    e-mail remains. *)
Theorem register_duplicate_card
        (env : Env) (userData : CreateUserData) (w : World) (holder : User) :
  cu_cardNumber userData <> "" ->
  find (fun u => cardNumber u =? cu_cardNumber userData) (users w)
  = Some holder ->
  getDocsFault env "cardNumber" = false ->
  createAccountFault env = None ->
  updateProfileFault env = None ->
  Firebase.findAccount (cu_email userData) (accounts w) = None ->
  let out := AuthContext.register env userData w in
  let fu := mkFirebaseUser (newAuthUid env) (cu_email userData) in
  fst out = Throw (Error "Card number already exists") /\
  users (snd out) = users w /\
  trace (snd out)
  = (trace w ++ [EvCreateAccount (cu_email userData);
                 EvUpdateProfile (newAuthUid env);
                 EvGetDocs "cardNumber" (cu_cardNumber userData)]
             ++ rollbackCalls env fu)%list /\
  (deleteAccountFault env = None ->
   Firebase.findAccount (cu_email userData) (accounts (snd out)) = None /\
   currentUser (snd out) = None).
Proof.
  intros Hne Hfind Hq Hc Hp Hf out fu.
  destruct (AuthService_register_ok env userData (started w) Hc Hp Hf)
    as (w1 & Hreg & Hu1 & Ha1 & Ht1).
  assert (Hfind1 : find (fun u => cardNumber u =? cu_cardNumber userData)
                        (users w1) = Some holder) by (now rewrite Hu1).
  pose proof (createUser_duplicate env (fu_uid fu) userData w1 holder
                                   Hne Hq Hfind1) as Hcreate.
  unfold out.
  rewrite (register_create_fails env userData w w1 _ fu _ Hreg Hcreate).
  unfold try_finally.
  pose proof (registerCatch_run env fu
                (Error "Card number already exists")
                (log (EvGetDocs "cardNumber" (cu_cardNumber userData)) w1)) as R.
  cbv zeta in R.
  destruct (AuthContext.registerCatch env (Some fu)
              (Error "Card number already exists")
              (log (EvGetDocs "cardNumber" (cu_cardNumber userData)) w1))
    as [r w3].
  simpl in R. destruct R as (Hr & Hu & Ht & _ & _ & Hd & _).
  simpl. split; [exact Hr|]. split; [now rewrite Hu, Hu1|].
  split.
  - rewrite Ht, Ht1. simpl. rewrite <- !app_assoc. reflexivity.
  - intros Hdel. destruct (Hd Hdel) as [Hacc Hcur]. split; [|exact Hcur].
    rewrite Hacc, Ha1. now apply no_account_after_delete.
Qed.

Lemma register_duplicate_card_witness :
  let out := AuthContext.register sampleEnv duplicateRequest sampleWorld in
  fst out = Throw (Error "Card number already exists") /\
  users (snd out) = users sampleWorld /\
  trace (snd out)
  = [EvCreateAccount "c@u.edu"; EvUpdateProfile "auth9";
     EvGetDocs "cardNumber" "C-001"; EvDeleteAccount "auth9"] /\
  Firebase.findAccount "c@u.edu" (accounts (snd out)) = None.
Proof.
  intros out.
  assert (Hne : cu_cardNumber duplicateRequest <> "") by (simpl; discriminate).
  destruct (register_duplicate_card sampleEnv duplicateRequest sampleWorld
              sampleStudent Hne eq_refl eq_refl eq_refl eq_refl eq_refl)
    as (Hr & Hu & Ht & Hd).
  split; [exact Hr|]. split; [exact Hu|]. split; [exact Ht|].
  exact (proj1 (Hd eq_refl)).
Defined.

(** C1 (as stated) fails: the card number C-001 is in the directory, yet
    the credential is created before the card number is looked up, and
    here, where the compensating delete is rejected, the credential still
    exists after the registration has failed. *)
Lemma register_duplicate_counterexample :
  let out := AuthContext.register deleteFailsEnv duplicateRequest sampleWorld in
  find (fun u => cardNumber u =? cu_cardNumber duplicateRequest)
       (users sampleWorld) = Some sampleStudent /\
  fst out = Throw (Error "Card number already exists") /\
  trace (snd out)
  = [EvCreateAccount "c@u.edu"; EvUpdateProfile "auth9";
     EvGetDocs "cardNumber" "C-001"; EvDeleteAccount "auth9"; EvSignOut] /\
  Firebase.findAccount "c@u.edu" (accounts sampleWorld) = None /\
  Firebase.findAccount "c@u.edu" (accounts (snd out)) <> None.
Proof.
  simpl. repeat split. discriminate.
Qed.

(** ** Bulk approval: counts and isolation of failures *)

Lemma findDoc_none_iff (id : string) (l : list User) :
  Firebase.findDoc id l = None <-> ~ In id (map uid l).
Proof.
  unfold Firebase.findDoc, Firebase.hasId.
  induction l as [|v l IH]; simpl; [tauto|].
  destruct (String.eqb_spec (uid v) id) as [E | E].
  - split; [discriminate | intros H; exfalso; apply H; now left].
  - rewrite IH. split; [intros H [F | F]; [contradiction | auto] | tauto].
Qed.

Lemma findDoc_same_ids (id : string) (l l' : list User) :
  map uid l = map uid l' ->
  (Firebase.findDoc id l = None <-> Firebase.findDoc id l' = None).
Proof. intros H. rewrite !findDoc_none_iff, H. tauto. Qed.

Lemma approveFails_spec (env : Env) (w : World) (id : string) :
  approveFails env w id =
  updateDocFault env id
  || match Firebase.findDoc id (users w) with Some _ => false | None => true end.
Proof.
  unfold approveFails. rewrite approveUser_run.
  destruct (updateDocFault env id); [reflexivity|].
  destruct (Firebase.findDoc id (users w)); reflexivity.
Qed.

Lemma approveFails_same_ids (env : Env) (w w' : World) (id : string) :
  map uid (users w') = map uid (users w) ->
  approveFails env w' id = approveFails env w id.
Proof.
  intros H. rewrite !approveFails_spec. f_equal.
  pose proof (findDoc_same_ids id _ _ H) as E.
  destruct (Firebase.findDoc id (users w')), (Firebase.findDoc id (users w));
    try reflexivity.
  - destruct E as [_ E]. discriminate (E eq_refl).
  - destruct E as [E _]. discriminate (E eq_refl).
Qed.

Lemma map_uid_approveAll (env : Env) (fails : string -> bool)
      (uids : list string) (l : list User) :
  map uid (approveAll env fails uids l) = map uid l.
Proof.
  revert l. induction uids as [|id rest IH]; intros l; simpl; [reflexivity|].
  rewrite IH. destruct (fails id); [reflexivity|].
  apply map_uid_updateFirst. intros v. reflexivity.
Qed.

Lemma approveAll_keeps_approved (env : Env) (fails : string -> bool)
      (uids : list string) (l : list User) (id : string) (u : User) :
  Firebase.findDoc id l = Some u -> isApproved u = true ->
  exists u', Firebase.findDoc id (approveAll env fails uids l) = Some u' /\
             isApproved u' = true.
Proof.
  revert l u. induction uids as [|j rest IH]; intros l u Hf Ha; simpl;
    [eauto|].
  destruct (fails j); [eauto|].
  destruct (String.eqb_spec id j) as [-> | Hne].
  - apply IH with (approveDoc env u); [|reflexivity].
    apply findDoc_updateFirst_same; [reflexivity | exact Hf].
  - apply IH with u; [|exact Ha].
    rewrite findDoc_updateFirst_other; auto.
Qed.

Lemma approveAll_approves (env : Env) (fails : string -> bool)
      (uids : list string) (l : list User) (id : string) :
  In id uids -> fails id = false -> In id (map uid l) ->
  exists u, Firebase.findDoc id (approveAll env fails uids l) = Some u /\
            isApproved u = true.
Proof.
  revert l. induction uids as [|j rest IH]; intros l Hin Hok Hex;
    [contradiction|].
  simpl. destruct Hin as [-> | Hin].
  - rewrite Hok.
    destruct (Firebase.findDoc id l) as [u|] eqn:E;
      [|apply findDoc_none_iff in E; contradiction].
    apply approveAll_keeps_approved with (approveDoc env u); [|reflexivity].
    apply findDoc_updateFirst_same; [reflexivity | exact E].
  - apply IH; auto.
    destruct (fails j); [exact Hex|].
    rewrite map_uid_updateFirst; [exact Hex | intros v; reflexivity].
Qed.

Lemma approveAll_skips_failing (env : Env) (fails : string -> bool)
      (uids : list string) (l : list User) (j : string) :
  fails j = true ->
  Firebase.findDoc j (approveAll env fails uids l) = Firebase.findDoc j l.
Proof.
  intros Hj. revert l. induction uids as [|id rest IH]; intros l; simpl;
    [reflexivity|].
  rewrite IH. destruct (fails id) eqn:E; [reflexivity|].
  apply findDoc_updateFirst_other; [intros v; reflexivity|].
  intros ->. congruence.
Qed.

Lemma filter_split_length (A : Type) (p : A -> bool) (l : list A) :
  length (filter (fun x => negb (p x)) l) = length l - length (filter p l) /\
  length (filter p l) <= length l.
Proof.
  induction l as [|a l [IH1 IH2]]; [simpl; auto|].
  cbn [filter]. destruct (p a); cbn [negb length]; lia.
Qed.

(** The batch over a per-id step whose outcome is fixed by [fails] as long
    as the set of document ids stays that of [w0]. *)
Lemma promiseAllCounting_run (env : Env) (body : string -> M bool)
      (fails : string -> bool) (w0 : World) :
  (forall id w, map uid (users w) = map uid (users w0) ->
     exists w', body id w = (Ok (negb (fails id)), w') /\
       users w' = if fails id then users w
                  else Firebase.updateFirst id (approveDoc env) (users w)) ->
  forall uids acc w,
    map uid (users w) = map uid (users w0) ->
    exists w',
      promiseAllCounting body uids acc w
      = (Ok (mkBulk (success acc
                     + length (filter (fun i => negb (fails i)) uids))
                    (failed acc + length (filter fails uids))), w') /\
      users w' = approveAll env fails uids (users w).
Proof.
  intros Hbody. induction uids as [|id rest IH]; intros acc w Hids; simpl.
  - exists w. rewrite !Nat.add_0_r. destruct acc; auto.
  - destruct (Hbody id w Hids) as (w1 & Hrun & Hu1).
    assert (Hids1 : map uid (users w1) = map uid (users w0)).
    { rewrite Hu1. destruct (fails id); [exact Hids|].
      rewrite map_uid_updateFirst; [exact Hids | intros v; reflexivity]. }
    unfold bind at 1. rewrite Hrun.
    destruct (fails id) eqn:Hf; simpl.
    + destruct (IH (mkBulk (success acc) (S (failed acc))) w1 Hids1)
        as (w' & Hloop & Hu').
      exists w'. rewrite Hloop, Hu', Hu1. simpl.
      split; [|reflexivity]. repeat f_equal. lia.
    + destruct (IH (mkBulk (S (success acc)) (failed acc)) w1 Hids1)
        as (w' & Hloop & Hu').
      exists w'. rewrite Hloop, Hu', Hu1. simpl.
      split; [|reflexivity]. repeat f_equal. lia.
Qed.

Lemma approveOne_run (env : Env) (w0 : World) (id : string) (w : World) :
  map uid (users w) = map uid (users w0) ->
  exists w',
    AdminService.approveOne env id w = (Ok (negb (approveFails env w0 id)), w') /\
    users w' = if approveFails env w0 id then users w
               else Firebase.updateFirst id (approveDoc env) (users w).
Proof.
  intros Hids. rewrite <- (approveFails_same_ids env w0 w id Hids).
  unfold approveFails, AdminService.approveOne. unfold try_catch, bind, ret.
  rewrite approveUser_run.
  destruct (updateDocFault env id); [simpl; eauto|].
  destruct (Firebase.findDoc id (users w)); simpl; eauto.
Qed.

Lemma In_insertDesc (x u : User) (l : list User) :
  In x (UserService.insertDesc u l) <-> x = u \/ In x l.
Proof.
  induction l as [|v l IH]; simpl; [intuition auto|].
  destruct (Nat.ltb (createdAt v) (createdAt u)); simpl; [intuition auto|].
  rewrite IH. intuition auto.
Qed.

Lemma In_orderByCreatedAtDesc (x : User) (l : list User) :
  In x (UserService.orderByCreatedAtDesc l) <-> In x l.
Proof.
  unfold UserService.orderByCreatedAtDesc.
  induction l as [|v l IH]; simpl; [tauto|].
  rewrite In_insertDesc, IH. intuition auto.
Qed.

Lemma getUsersByRole_run (env : Env) (r : UserRole) (w : World) :
  getDocsFault env "role" = false ->
  UserService.getUsersByRole env r w =
  (Ok (UserService.orderByCreatedAtDesc
         (filter (fun u => UserRole_eqb (role u) r) (users w))),
   log (EvGetDocs "role" (roleName r)) w).
Proof.
  intros Hq. unfold UserService.getUsersByRole, Firebase.getDocs.
  unfold try_catch, bind, ret. rewrite Hq. reflexivity.
Qed.

(** The set built by the batch holds exactly the ids of the students of
    the actor's department. *)
Lemma has_departmentStudentIds (staffUser : User) (w : World) (id : string) :
  StaffService.has
    (StaffService.departmentStudentIds staffUser
       (UserService.orderByCreatedAtDesc
          (filter (fun u => UserRole_eqb (role u) student) (users w)))) id
  = inDepartment staffUser w id.
Proof.
  apply Bool.eq_true_iff_eq.
  unfold StaffService.has, StaffService.departmentStudentIds, inDepartment.
  rewrite !existsb_exists. split.
  - intros (x & Hin & Hx). apply in_map_iff in Hin.
    destruct Hin as (s & <- & Hs). apply filter_In in Hs.
    destruct Hs as [Hs Hd]. rewrite In_orderByCreatedAtDesc in Hs.
    apply filter_In in Hs. destruct Hs as [Hs Hr].
    exists s. split; [exact Hs|].
    rewrite String.eqb_sym in Hx. now rewrite Hx, Hr, Hd.
  - intros (s & Hs & Hc). apply andb_true_iff in Hc. destruct Hc as [Hc Hd].
    apply andb_true_iff in Hc. destruct Hc as [Hx Hr].
    exists (uid s). split; [|now rewrite String.eqb_sym].
    apply in_map_iff. exists s. split; [reflexivity|].
    apply filter_In. split; [|exact Hd].
    rewrite In_orderByCreatedAtDesc. apply filter_In. auto.
Qed.

Lemma approveInDepartment_run (env : Env) (staffUser : User) (w0 : World)
      (id : string) (w : World) :
  map uid (users w) = map uid (users w0) ->
  exists w',
    StaffService.approveInDepartment env
      (StaffService.departmentStudentIds staffUser
         (UserService.orderByCreatedAtDesc
            (filter (fun u => UserRole_eqb (role u) student) (users w0))))
      id w
    = (Ok (negb (staffApproveFails env staffUser w0 id)), w') /\
    users w' = if staffApproveFails env staffUser w0 id then users w
               else Firebase.updateFirst id (approveDoc env) (users w).
Proof.
  intros Hids. unfold staffApproveFails, StaffService.approveInDepartment.
  rewrite has_departmentStudentIds.
  rewrite <- (approveFails_same_ids env w0 w id Hids).
  unfold approveFails. unfold try_catch, bind, ret.
  destruct (inDepartment staffUser w0 id); simpl; [|eauto].
  rewrite approveUser_run.
  destruct (updateDocFault env id); [simpl; eauto|].
  destruct (Firebase.findDoc id (users w)); simpl; eauto.
Qed.

Lemma approveFails_false_exists (env : Env) (w : World) (id : string) :
  approveFails env w id = false -> In id (map uid (users w)).
Proof.
  rewrite approveFails_spec. intros H. apply orb_false_iff in H.
  destruct H as [_ H].
  destruct (Firebase.findDoc id (users w)) as [u|] eqn:E; [|discriminate].
  destruct (in_dec string_dec id (map uid (users w))) as [Hin | Hout];
    [exact Hin|].
  apply findDoc_none_iff in Hout. congruence.
Qed.

(** C5 (as the code has it). A bulk approval over N ids of which K fail
    returns [{success: N-K, failed: K}], every id that does not fail ends
    up approved, and the record of an id that fails is left as it was.
    The administrator's batch does so always; the department-scoped batch
    does so for an actor whose [canApproveStudents] is [true] once the read
    of the student roster has been answered, the ids outside the actor's
    department counting among the failures.  No id's failure stops the
    batch. *)
Theorem bulk_counts_and_isolation
        (env : Env) (staffUser : User) (uids : list string) (w : World) :
  (let K := length (filter (approveFails env w) uids) in
   exists w',
     AdminService.approveBulk env uids w
     = (Ok (mkBulk (length uids - K) K), w') /\
     (forall id, In id uids -> approveFails env w id = false ->
                 approvedIn id w') /\
     (forall id, approveFails env w id = true ->
                 Firebase.findDoc id (users w') = Firebase.findDoc id (users w)))
  /\
  (canApproveStudents staffUser = Some true ->
   getDocsFault env "role" = false ->
   let K := length (filter (staffApproveFails env staffUser w) uids) in
   exists w',
     StaffService.approveStudentsBulk env staffUser uids w
     = (Ok (mkBulk (length uids - K) K), w') /\
     (forall id, In id uids -> staffApproveFails env staffUser w id = false ->
                 approvedIn id w') /\
     (forall id, staffApproveFails env staffUser w id = true ->
                 Firebase.findDoc id (users w') = Firebase.findDoc id (users w))).
Proof.
  split.
  - intros K.
    destruct (promiseAllCounting_run env (AdminService.approveOne env)
                (approveFails env w) w (approveOne_run env w)
                uids (mkBulk 0 0) w eq_refl) as (w' & Hrun & Hu).
    exists w'. unfold AdminService.approveBulk, try_catch. rewrite Hrun.
    simpl. destruct (filter_split_length _ (approveFails env w) uids) as [E _].
    rewrite E. fold K. split; [reflexivity|].
    unfold approvedIn. rewrite Hu. split.
    + intros id Hin Hok. apply approveAll_approves; auto.
      exact (approveFails_false_exists env w id Hok).
    + intros id Hf. now apply approveAll_skips_failing.
  - intros Hcan Hq K.
    unfold StaffService.approveStudentsBulk. unfold try_catch at 1.
    rewrite Hcan. unfold bind at 1.
    change (negb (truthyB (Some true))) with false. cbv beta iota.
    rewrite (getUsersByRole_run env student w Hq).
    destruct (promiseAllCounting_run env
                (StaffService.approveInDepartment env
                   (StaffService.departmentStudentIds staffUser
                      (UserService.orderByCreatedAtDesc
                         (filter (fun u => UserRole_eqb (role u) student)
                                 (users w)))))
                (staffApproveFails env staffUser w) w
                (approveInDepartment_run env staffUser w)
                uids (mkBulk 0 0) (log (EvGetDocs "role" "student") w) eq_refl)
      as (w' & Hrun & Hu).
    exists w'. simpl roleName. rewrite Hrun. simpl.
    destruct (filter_split_length _ (staffApproveFails env staffUser w) uids)
      as [E _].
    rewrite E. fold K. split; [reflexivity|].
    unfold approvedIn. rewrite Hu. simpl. split.
    + intros id Hin Hok. apply approveAll_approves; auto.
      unfold staffApproveFails in Hok. apply orb_false_iff in Hok.
      exact (approveFails_false_exists env w id (proj2 Hok)).
    + intros id Hf. now apply approveAll_skips_failing.
Qed.

Lemma bulk_counts_and_isolation_witness :
  let uids := ["A"; "Z"; "B"] in
  canApproveStudents sampleStaff = Some true /\
  getDocsFault sampleEnv "role" = false /\
  length (filter (staffApproveFails sampleEnv sampleStaff sampleWorld) uids) = 2 /\
  exists w',
    StaffService.approveStudentsBulk sampleEnv sampleStaff uids sampleWorld
    = (Ok (mkBulk 1 2), w') /\
    approvedIn "A" w'.
Proof.
  intros uids.
  destruct (proj2 (bulk_counts_and_isolation sampleEnv sampleStaff uids
                                             sampleWorld) eq_refl eq_refl)
    as (w' & Hrun & Hok & _).
  split; [reflexivity|]. split; [reflexivity|]. split; [reflexivity|].
  exists w'. split; [exact Hrun|].
  apply Hok; [left; reflexivity | reflexivity].
Defined.

(** C5 (as stated) fails for the department-scoped batch when the read of
    the student roster is not answered: the actor holds approval rights,
    the one listed id is a student of the actor's department whose approval
    would not fail, so K is 0, yet the batch throws instead of returning
    the aggregate and the student is not approved. *)
Lemma bulk_roster_failure_counterexample :
  let out := StaffService.approveStudentsBulk rosterFailsEnv sampleStaff ["A"]
                                              sampleWorld in
  canApproveStudents sampleStaff = Some true /\
  length (filter (staffApproveFails rosterFailsEnv sampleStaff sampleWorld)
                 ["A"]) = 0 /\
  fst out = Throw (Error "Failed to fetch users") /\
  Firebase.findDoc "A" (users (snd out)) = Some sampleStudent /\
  isApproved sampleStudent = false.
Proof.
  simpl. split; [reflexivity|]. split; [reflexivity|].
  split; [reflexivity|]. split; reflexivity.
Qed.

(** * Further properties of the services *)

(** ** Directory writes touch one record *)

(** An update wrapped in one more [try]/[catch] that re-throws. *)
Lemma wrapped_update_frame (env : Env) (id : string) (p : PartialUser)
      (msg : string) (w : World) :
  let out := try_catch (UserService.updateUser env id p)
                       (fun _ => throw (Error msg)) w in
  othersUntouched id w (snd out) /\
  (fst out = Ok tt ->
   exists u, Firebase.findDoc id (users w) = Some u /\
             Firebase.findDoc id (users (snd out))
             = Some (applyUpdates p (now env) u)) /\
  (forall e, fst out = Throw e -> users (snd out) = users w) /\
  (Firebase.findDoc id (users w) = None -> exists e, fst out = Throw e).
Proof.
  cbv zeta. unfold try_catch, throw. rewrite updateUser_run.
  unfold othersUntouched.
  destruct (updateDocFault env id).
  { simpl. split; [auto|]. split; [discriminate|]. split; [auto|]. eauto. }
  destruct (Firebase.findDoc id (users w)) as [u|] eqn:E; simpl.
  - split; [|split; [|split]].
    + intros j Hj. apply findDoc_updateFirst_other; auto.
    + intros _. exists u. split; [reflexivity|].
      apply findDoc_updateFirst_same; [reflexivity | exact E].
    + discriminate.
    + discriminate.
  - split; [auto|]. split; [discriminate|]. split; [auto|]. eauto.
Qed.

(** X1. A successful [approveUser] sets [isApproved] on the target and a
    successful [deactivateUser] clears [isActive] on it; each leaves the
    other flag, every other property of the record but [updatedAt], and
    every other record as they were.  A failed call changes nothing, and
    a call on an id that is not in the directory fails. *)
Theorem approve_deactivate_frame (env : Env) (id : string) (w : World) :
  let a := UserService.approveUser env id w in
  let d := UserService.deactivateUser env id w in
  (othersUntouched id w (snd a) /\ othersUntouched id w (snd d)) /\
  (fst a = Ok tt ->
   exists u u', Firebase.findDoc id (users w) = Some u /\
                Firebase.findDoc id (users (snd a)) = Some u' /\
                isApproved u' = true /\ isActive u' = isActive u /\
                sameIdentity u u') /\
  (fst d = Ok tt ->
   exists u u', Firebase.findDoc id (users w) = Some u /\
                Firebase.findDoc id (users (snd d)) = Some u' /\
                isActive u' = false /\ isApproved u' = isApproved u /\
                sameIdentity u u') /\
  (forall e, fst a = Throw e -> users (snd a) = users w) /\
  (forall e, fst d = Throw e -> users (snd d) = users w) /\
  (Firebase.findDoc id (users w) = None ->
   (exists e, fst a = Throw e) /\ (exists e, fst d = Throw e)).
Proof.
  cbv zeta. unfold UserService.approveUser, UserService.deactivateUser.
  destruct (wrapped_update_frame env id
              (mkPartial None (Some true) None None None)
              "Failed to approve user" w) as (A1 & A2 & A3 & A4).
  destruct (wrapped_update_frame env id
              (mkPartial (Some false) None None None None)
              "Failed to deactivate user" w) as (D1 & D2 & D3 & D4).
  split; [split; assumption|].
  split.
  { intros H. destruct (A2 H) as (u & Hu & Hu').
    exists u. eexists. split; [exact Hu|]. split; [exact Hu'|].
    simpl. unfold sameIdentity. simpl. repeat split. }
  split.
  { intros H. destruct (D2 H) as (u & Hu & Hu').
    exists u. eexists. split; [exact Hu|]. split; [exact Hu'|].
    simpl. unfold sameIdentity. simpl. repeat split. }
  split; [exact A3|]. split; [exact D3|].
  intros Hnone. split; auto.
Qed.

(** ** NFC binding *)

(** What a run of [assignNfcId] tells about the directory it ran on. *)
Lemma assignNfcId_inv (env : Env) (id tag : string) (w w' : World)
      (r : Result unit) :
  UserService.assignNfcId env id tag w = (r, w') ->
  (r = Ok tt ->
   (tag = "" \/
    find (UserService.holdsNfc tag) (users w) = None \/
    exists h, find (UserService.holdsNfc tag) (users w) = Some h /\ uid h = id)
   /\ (tag <> "" -> getDocsFault env "nfcId" = false)
   /\ exists d, Firebase.findDoc id (users w) = Some d /\
                users w' = Firebase.updateFirst id
                             (applyUpdates (nfcUpdate tag) (now env)) (users w))
  /\ (forall e, r = Throw e -> users w' = users w).
Proof.
  intros E. unfold UserService.assignNfcId in E.
  unfold try_catch at 1 in E. unfold bind at 1 in E.
  rewrite getUserByNfcId_run in E.
  assert (Hupd : forall w0 r0 w1,
    users w0 = users w ->
    (let (r1, w2) := UserService.updateUser env id (nfcUpdate tag) w0 in
     match r1 with
     | Ok a => (Ok a, w2)
     | Throw e => throw (Error "Failed to assign NFC ID") w2
     end) = (r0, w1) ->
    (r0 = Ok tt ->
     exists d, Firebase.findDoc id (users w) = Some d /\
               users w1 = Firebase.updateFirst id
                            (applyUpdates (nfcUpdate tag) (now env)) (users w))
    /\ (forall e, r0 = Throw e -> users w1 = users w)).
  { intros w0 r0 w1 Hw0 H. rewrite updateUser_run in H. rewrite Hw0 in H.
    unfold throw in H.
    destruct (updateDocFault env id).
    - inversion H; subst. split; [discriminate | intros; simpl; auto].
    - destruct (Firebase.findDoc id (users w)) as [d|] eqn:Hd;
        inversion H; subst; simpl.
      + split; [eauto | discriminate].
      + split; [discriminate | auto]. }
  destruct (tag =? "") eqn:Ht.
  - apply String.eqb_eq in Ht. cbv beta iota in E.
    destruct (Hupd w r w' eq_refl E) as [U1 U2].
    split; [|exact U2]. intros Hr. split; [now left|].
    split; [intros Hne; contradiction | exact (U1 Hr)].
  - destruct (getDocsFault env "nfcId") eqn:Hq.
    + unfold throw in E. inversion E; subst.
      split; [discriminate | auto].
    + cbv beta iota in E.
      destruct (find (UserService.holdsNfc tag) (users w)) as [h|] eqn:Hf.
      * destruct (uid h =? id) eqn:Hh; cbv beta iota in E.
        -- change (negb true) with false in E. cbv beta iota in E.
           destruct (Hupd (log (EvGetDocs "nfcId" tag) w) r w' eq_refl E)
             as [U1 U2].
           split; [|exact U2]. intros Hr.
           split; [right; right; exists h; split;
                   [reflexivity | now apply String.eqb_eq]|].
           split; [auto | exact (U1 Hr)].
        -- change (negb false) with true in E. cbv beta iota in E.
           unfold throw in E.
           inversion E; subst. split; [discriminate | auto].
      * destruct (Hupd (log (EvGetDocs "nfcId" tag) w) r w' eq_refl E)
             as [U1 U2].
        split; [|exact U2]. intros Hr.
        split; [right; left; reflexivity|]. split; [auto | exact (U1 Hr)].
Qed.

Lemma find_holder_after_update (tag id : string) (f : User -> User)
      (l : list User) (d : User) :
  UserService.holdsNfc tag (f d) = true ->
  (find (UserService.holdsNfc tag) l = None \/
   exists h, find (UserService.holdsNfc tag) l = Some h /\ uid h = id) ->
  Firebase.findDoc id l = Some d ->
  find (UserService.holdsNfc tag) (Firebase.updateFirst id f l) = Some (f d).
Proof.
  intros Hfd. unfold Firebase.findDoc.
  induction l as [|v l IH]; simpl; intros Hh Hd; [discriminate|].
  destruct (Firebase.hasId id v) eqn:Hv.
  - inversion Hd; subst. simpl. now rewrite Hfd.
  - simpl. destruct (UserService.holdsNfc tag v) eqn:Hold.
    + exfalso. destruct Hh as [Hh | (h & Hh & Hu)]; [discriminate|].
      inversion Hh; subst. unfold Firebase.hasId in Hv.
      rewrite String.eqb_refl in Hv. discriminate.
    + apply IH; assumption.
Qed.

(** X2. After a successful [assignNfcId(id, tag)] with a non-empty tag, a
    lookup by that tag resolves to the record [id], which now holds the
    tag. *)
Theorem assignNfcId_then_lookup
        (env : Env) (id tag : string) (w w' : World) :
  tag <> "" ->
  UserService.assignNfcId env id tag w = (Ok tt, w') ->
  exists u,
    fst (UserService.getUserByNfcId env tag w') = Ok (Some u) /\
    uid u = id /\ nfcId u = Some tag.
Proof.
  intros Hne E. destruct (assignNfcId_inv env id tag w w' (Ok tt) E) as [I _].
  destruct (I eq_refl) as (Hh & Hq & d & Hd & Hu).
  rewrite getUserByNfcId_run. apply String.eqb_neq in Hne as Hne'.
  rewrite Hne', (Hq Hne). simpl. rewrite Hu.
  destruct Hh as [Hh | Hh]; [contradiction|].
  rewrite (find_holder_after_update tag id _ (users w) d); auto.
  - eexists. split; [reflexivity|]. split; [|reflexivity].
    simpl. now apply findDoc_hasId with (users w).
  - unfold UserService.holdsNfc. simpl. apply String.eqb_refl.
Qed.

Lemma assignNfcId_then_lookup_witness :
  exists w' u,
    UserService.assignNfcId sampleEnv "B" "N2" sampleWorld = (Ok tt, w') /\
    fst (UserService.getUserByNfcId sampleEnv "N2" w') = Ok (Some u) /\
    uid u = "B" /\ nfcId u = Some "N2".
Proof.
  destruct (UserService.assignNfcId sampleEnv "B" "N2" sampleWorld)
    as [r w'] eqn:E.
  assert (Hr : r = Ok tt) by (vm_compute in E; inversion E; reflexivity).
  subst r. exists w'.
  assert (Hne : "N2" <> "") by discriminate.
  destruct (assignNfcId_then_lookup sampleEnv "B" "N2" sampleWorld w' Hne E)
    as (u & H).
  exists u. split; [reflexivity | exact H].
Defined.

Lemma In_updateFirst (id : string) (f : User -> User) (l : list User)
      (x : User) :
  In x (Firebase.updateFirst id f l) ->
  In x l \/ exists d, Firebase.findDoc id l = Some d /\ x = f d.
Proof.
  unfold Firebase.findDoc.
  induction l as [|v l IH]; simpl; [tauto|].
  destruct (Firebase.hasId id v) eqn:Hv; simpl.
  - intros [<- | H]; [right; eauto | left; now right].
  - intros [<- | H]; [left; now left|].
    destruct (IH H) as [H' | H']; [left; now right | now right].
Qed.

(** X3. [assignNfcId] keeps NFC ids unique: if no non-empty NFC id is held
    by two different records before the call, none is after it, whether
    the call succeeds or fails. *)
Theorem assignNfcId_keeps_unique
        (env : Env) (id tag : string) (w : World) :
  nfcUnique (users w) ->
  nfcUnique (users (snd (UserService.assignNfcId env id tag w))).
Proof.
  intros Huniq.
  destruct (UserService.assignNfcId env id tag w) as [r w'] eqn:E.
  destruct (assignNfcId_inv env id tag w w' r E) as [Iok Ierr]. simpl.
  destruct r as [[]|e]; [|now rewrite (Ierr e eq_refl)].
  destruct (Iok eq_refl) as (Hh & _ & d & Hd & Hu). rewrite Hu.
  assert (Hid : uid d = id) by (now apply findDoc_hasId with (users w)).
  assert (Hind : In d (users w)).
  { unfold Firebase.findDoc in Hd. now apply find_some in Hd. }
  assert (Hholder : forall v, In v (users w) -> nfcId v = Some tag ->
                              tag <> "" -> uid v = id).
  { intros v Hv Hn Hne.
    destruct Hh as [Hh | [Hh | (h & Hh & Hhid)]]; [contradiction| |].
    - pose proof (find_none _ _ Hh v Hv) as F.
      unfold UserService.holdsNfc in F. rewrite Hn, String.eqb_refl in F.
      discriminate.
    - apply find_some in Hh. destruct Hh as [Hin Hhold].
      unfold UserService.holdsNfc in Hhold.
      destruct (nfcId h) as [t|] eqn:Hnh; [|discriminate].
      apply String.eqb_eq in Hhold. subst t.
      rewrite <- Hhid. apply (Huniq v h tag Hne Hv Hin Hn Hnh). }
  intros u v t Hne Hinu Hinv Hnu Hnv.
  apply In_updateFirst in Hinu. apply In_updateFirst in Hinv.
  destruct Hinu as [Hinu | (d1 & Hd1 & ->)];
    destruct Hinv as [Hinv | (d2 & Hd2 & ->)].
  - exact (Huniq u v t Hne Hinu Hinv Hnu Hnv).
  - rewrite Hd in Hd2. inversion Hd2; subst d2.
    simpl in Hnv. inversion Hnv; subst t. simpl.
    rewrite Hid. now apply Hholder.
  - rewrite Hd in Hd1. inversion Hd1; subst d1.
    simpl in Hnu. inversion Hnu; subst t. simpl.
    rewrite Hid. symmetry. now apply Hholder.
  - rewrite Hd in Hd1, Hd2. inversion Hd1; inversion Hd2; subst.
    reflexivity.
Qed.

Lemma assignNfcId_keeps_unique_witness :
  nfcUnique (users sampleWorld) /\
  nfcUnique (users (snd (UserService.assignNfcId sampleEnv "B" "N2"
                                                 sampleWorld))).
Proof.
  assert (H : nfcUnique (users sampleWorld)).
  { intros u v t Hne Hu Hv Hnu Hnv. simpl in Hu, Hv.
    destruct Hu as [<- | [<- | []]]; destruct Hv as [<- | [<- | []]];
      simpl in *; congruence. }
  split; [exact H|].
  exact (assignNfcId_keeps_unique sampleEnv "B" "N2" sampleWorld H).
Defined.

(** ** Creating a record *)

Lemma image_step_keeps_users (env : Env) (userData : CreateUserData)
      (w : World) :
  let step :=
    (if truthy (cu_imageBase64 userData)
     then try_catch
            (url <- ImageService.uploadBase64Image env
                      (orElse (cu_imageBase64 userData) "") (newDocId env);;
             ret (Some url))
            (fun _ => ret None)
     else ret None) w in
  users (snd step) = users w /\ exists image, fst step = Ok image.
Proof.
  cbv zeta. destruct (truthy (cu_imageBase64 userData)).
  - unfold ImageService.uploadBase64Image, Firebase.upload.
    unfold try_catch, bind, ret, throw.
    destruct (uploadResult env); simpl; eauto.
  - unfold ret. simpl. eauto.
Qed.

(** A successful [createUser] found no record with the card number, and
    wrote the prepared document to a directory that was still the one it
    had looked at. *)
Lemma createUser_ok_full (env : Env) (authId : string)
      (userData : CreateUserData) (w w' : World) (u : User) :
  UserService.createUser env authId userData w = (Ok u, w') ->
  exists image w1,
    u = UserService.createdUser env (newDocId env) authId userData image /\
    Firebase.setDoc env (newDocId env)
      (UserService.newUserData env (newDocId env) authId userData image) w1
    = (Ok tt, w') /\
    users w1 = users w /\
    (cu_cardNumber userData <> "" ->
     find (fun x => cardNumber x =? cu_cardNumber userData) (users w) = None).
Proof.
  unfold UserService.createUser.
  unfold try_catch at 1. unfold bind at 1.
  rewrite getUserByCardNumber_run.
  assert (Hrest : forall w0,
    users w0 = users w ->
    (let (r, w2) :=
       (image <- (if truthy (cu_imageBase64 userData)
                  then try_catch
                         (url <- ImageService.uploadBase64Image env
                                   (orElse (cu_imageBase64 userData) "")
                                   (newDocId env);;
                          ret (Some url))
                         (fun _ => ret None)
                  else ret None);;
        Firebase.setDoc env (newDocId env)
          (UserService.newUserData env (newDocId env) authId userData image);;
        ret (UserService.createdUser env (newDocId env) authId userData image))
         w0 in
     match r with
     | Ok a => (Ok a, w2)
     | Throw e =>
         (if message e =? "Card number already exists" then throw e
          else throw (Error "Failed to create user profile")) w2
     end) = (Ok u, w') ->
    exists image w1,
      u = UserService.createdUser env (newDocId env) authId userData image /\
      Firebase.setDoc env (newDocId env)
        (UserService.newUserData env (newDocId env) authId userData image) w1
      = (Ok tt, w') /\
      users w1 = users w).
  { intros w0 Hw0. unfold bind at 1.
    pose proof (image_step_keeps_users env userData w0) as K. cbv zeta in K.
    match goal with |- context [(if ?c then ?a else ?b) w0] =>
      destruct ((if c then a else b) w0) as [ri w1]
    end.
    simpl in K. destruct K as [Ku [image Ki]]. subst ri.
    unfold bind, ret.
    destruct (Firebase.setDoc env (newDocId env)
                (UserService.newUserData env (newDocId env) authId userData
                                         image) w1) as [[[]|e] w2] eqn:Hs.
    - intros H. inversion H; subst. exists image, w1.
      split; [reflexivity|]. split; [exact Hs | congruence].
    - unfold throw.
      destruct (message e =? "Card number already exists"); discriminate. }
  destruct (cu_cardNumber userData =? "") eqn:Hc.
  - intros H. destruct (Hrest w eq_refl H) as (image & w1 & A & B & C).
    exists image, w1. repeat split; auto.
    intros Hne. apply String.eqb_eq in Hc. contradiction.
  - destruct (getDocsFault env "cardNumber").
    + unfold throw. simpl. discriminate.
    + destruct (find (fun u0 => cardNumber u0 =? cu_cardNumber userData)
                     (users w)) as [x|] eqn:Hf.
      * unfold throw. simpl. discriminate.
      * intros H.
        destruct (Hrest (log (EvGetDocs "cardNumber" (cu_cardNumber userData)) w)
                        eq_refl H) as (image & w1 & A & B & C).
        exists image, w1. repeat split; auto.
Qed.

Lemma filter_app_new (A : Type) (p : A -> bool) (l : list A) (x : A) :
  find p l = None -> p x = true -> filter p (l ++ [x]) = [x].
Proof.
  intros Hn Hx. induction l as [|a l IH]; simpl in *; [now rewrite Hx|].
  destruct (p a); [discriminate | auto].
Qed.

Lemma filter_updateFirst_new (p : User -> bool) (id : string) (x : User)
      (l : list User) (old : User) :
  find p l = None -> p x = true -> Firebase.findDoc id l = Some old ->
  filter p (Firebase.updateFirst id (fun _ => x) l) = [x].
Proof.
  unfold Firebase.findDoc. intros Hn Hx.
  induction l as [|a l IH]; simpl in *; [discriminate|].
  destruct (p a) eqn:Hpa; [discriminate|].
  destruct (Firebase.hasId id a); simpl.
  - intros _. rewrite Hx. f_equal.
    clear IH. induction l as [|b l IHl]; simpl in *; [reflexivity|].
    destruct (p b); [discriminate | auto].
  - intros H. rewrite Hpa. auto.
Qed.

(** A successful [createUser] with a card number had its lookup answered. *)
Lemma createUser_ok_query (env : Env) (authId : string)
      (userData : CreateUserData) (w w' : World) (u : User) :
  cu_cardNumber userData <> "" ->
  UserService.createUser env authId userData w = (Ok u, w') ->
  getDocsFault env "cardNumber" = false.
Proof.
  intros Hne H. unfold UserService.createUser in H.
  unfold try_catch at 1 in H. unfold bind at 1 in H.
  rewrite getUserByCardNumber_run in H.
  apply String.eqb_neq in Hne. rewrite Hne in H.
  destruct (getDocsFault env "cardNumber"); [|reflexivity].
  unfold throw in H. simpl in H. discriminate.
Qed.

(** X4. After a successful [createUser] with a non-empty card number,
    exactly one record of the directory carries that card number, it is
    the new document, and a lookup by the card number returns it. *)
Theorem createUser_card_unique_and_found
        (env : Env) (authId : string) (userData : CreateUserData)
        (w w' : World) (u : User) :
  cu_cardNumber userData <> "" ->
  UserService.createUser env authId userData w = (Ok u, w') ->
  exists doc,
    filter (fun x => cardNumber x =? cu_cardNumber userData) (users w') = [doc] /\
    uid doc = uid u /\
    authUid doc = authId /\
    fst (UserService.getUserByCardNumber env (cu_cardNumber userData) w')
    = Ok (Some doc).
Proof.
  intros Hne H.
  assert (Hq : getDocsFault env "cardNumber" = false).
  { unfold UserService.createUser in H.
    unfold try_catch at 1 in H. unfold bind at 1 in H.
    rewrite getUserByCardNumber_run in H.
    apply String.eqb_neq in Hne. rewrite Hne in H.
    destruct (getDocsFault env "cardNumber"); [|reflexivity].
    unfold throw in H. simpl in H. discriminate. }
  destruct (createUser_ok_full env authId userData w w' u H)
    as (image & w1 & -> & Hs & Hu & Hnone).
  specialize (Hnone Hne).
  set (doc := UserService.newUserData env (newDocId env) authId userData image)
    in *.
  assert (Hdoc : (cardNumber doc =? cu_cardNumber userData) = true)
    by apply String.eqb_refl.
  assert (Hf : filter (fun x => cardNumber x =? cu_cardNumber userData)
                      (users w') = [doc]).
  { unfold Firebase.setDoc in Hs.
    destruct (setDocFault env); [discriminate|].
    rewrite Hu in Hs.
    destruct (Firebase.findDoc (newDocId env) (users w)) as [old|] eqn:Hold;
      inversion Hs; subst w'; simpl.
    - now apply filter_updateFirst_new with old.
    - now apply filter_app_new. }
  exists doc. split; [exact Hf|]. split; [reflexivity|]. split; [reflexivity|].
  rewrite getUserByCardNumber_run.
  apply String.eqb_neq in Hne. rewrite Hne, Hq. simpl.
  rewrite <- hd_error_filter, Hf. reflexivity.
Qed.

Lemma createUser_card_unique_and_found_witness :
  exists u w' doc,
    UserService.createUser sampleEnv "auth9" studentRequest sampleWorld
    = (Ok u, w') /\
    filter (fun x => cardNumber x =? "C-004") (users w') = [doc] /\
    uid doc = uid u.
Proof.
  destruct (UserService.createUser sampleEnv "auth9" studentRequest sampleWorld)
    as [r w'] eqn:E.
  assert (Hr : exists u, r = Ok u)
    by (vm_compute in E; inversion E; eauto).
  destruct Hr as [u ->].
  assert (Hne : cu_cardNumber studentRequest <> "") by discriminate.
  destruct (createUser_card_unique_and_found sampleEnv "auth9" studentRequest
              sampleWorld w' u Hne E) as (doc & Hf & Hid & _).
  exists u, w', doc. split; [reflexivity|]. split; [exact Hf | exact Hid].
Defined.

(** X5. A profile picture whose upload fails does not fail the creation:
    when the card number is free and the directory accepts the write,
    [createUser] still succeeds after the failed upload, and both the
    returned record and the stored document are without [imageUrl]. *)
Theorem createUser_survives_upload_failure
        (env : Env) (authId : string) (userData : CreateUserData) (w : World) :
  truthy (cu_imageBase64 userData) = true ->
  uploadResult env = None ->
  setDocFault env = false ->
  fst (UserService.getUserByCardNumber env (cu_cardNumber userData) w) = Ok None ->
  exists u w' doc,
    UserService.createUser env authId userData w = (Ok u, w') /\
    imageUrl u = None /\
    Firebase.findDoc (uid u) (users w') = Some doc /\
    imageUrl doc = None /\
    In (EvUpload (newDocId env)) (trace w').
Proof.
  intros Himg Hup Hset Hlook.
  unfold UserService.createUser.
  unfold try_catch at 1. unfold bind at 1.
  destruct (UserService.getUserByCardNumber env (cu_cardNumber userData) w)
    as [r w0] eqn:Hrun.
  simpl in Hlook. subst r.
  rewrite Himg. unfold ImageService.uploadBase64Image, Firebase.upload.
  unfold bind at 1. unfold try_catch at 1. unfold bind at 1.
  unfold try_catch at 1. rewrite Hup. unfold throw at 1. unfold ret at 1.
  cbv beta iota zeta.
  unfold bind at 1.
  destruct (Firebase.setDoc env (newDocId env)
              (UserService.newUserData env (newDocId env) authId userData None)
              (log (EvUpload (newDocId env)) w0)) as [rs w2] eqn:Hs.
  assert (Hok : rs = Ok tt).
  { unfold Firebase.setDoc in Hs. rewrite Hset in Hs.
    destruct (Firebase.findDoc (newDocId env)
                (users (log (EvUpload (newDocId env)) w0)));
      inversion Hs; reflexivity. }
  subst rs. unfold bind, ret. cbv beta iota zeta.
  eexists. exists w2. eexists.
  split; [reflexivity|]. split; [reflexivity|].
  split; [apply (setDoc_stores env _ _ _ _ eq_refl Hs)|].
  split; [reflexivity|].
  unfold Firebase.setDoc in Hs. rewrite Hset in Hs.
  destruct (Firebase.findDoc (newDocId env)
              (users (log (EvUpload (newDocId env)) w0)));
    inversion Hs; subst w2; simpl; apply in_or_app; left;
    apply in_or_app; right; now left.
Qed.

Lemma createUser_survives_upload_failure_witness :
  exists u w',
    UserService.createUser uploadFailsEnv "auth9" pictureRequest sampleWorld
    = (Ok u, w') /\
    imageUrl u = None.
Proof.
  destruct (createUser_survives_upload_failure uploadFailsEnv "auth9"
              pictureRequest sampleWorld eq_refl eq_refl eq_refl eq_refl)
    as (u & w' & doc & H & Hi & _).
  exists u, w'. split; [exact H | exact Hi].
Defined.

(** ** Listings *)

Lemma insertDesc_perm (u : User) (l : list User) :
  Permutation (UserService.insertDesc u l) (u :: l).
Proof.
  induction l as [|v l IH]; simpl; [reflexivity|].
  destruct (Nat.ltb (createdAt v) (createdAt u)); [reflexivity|].
  rewrite IH. apply perm_swap.
Qed.

Lemma orderByCreatedAtDesc_perm (l : list User) :
  Permutation (UserService.orderByCreatedAtDesc l) l.
Proof.
  unfold UserService.orderByCreatedAtDesc.
  induction l as [|v l IH]; simpl; [reflexivity|].
  rewrite insertDesc_perm. now apply perm_skip.
Qed.

Lemma insertByCreatedAtDesc_perm (u : User) (l : list User) :
  Permutation (UserService.insertByCreatedAtDesc u l) (u :: l).
Proof.
  induction l as [|v l IH]; simpl; [reflexivity|].
  destruct (Nat.leb (createdAt v) (createdAt u)); [reflexivity|].
  rewrite IH. apply perm_swap.
Qed.

Lemma sortByCreatedAtDesc_perm (l : list User) :
  Permutation (UserService.sortByCreatedAtDesc l) l.
Proof.
  unfold UserService.sortByCreatedAtDesc.
  induction l as [|v l IH]; simpl; [reflexivity|].
  rewrite insertByCreatedAtDesc_perm. now apply perm_skip.
Qed.

Lemma insertByCreatedAtDesc_sorted (u : User) (l : list User) :
  newestFirst l -> newestFirst (UserService.insertByCreatedAtDesc u l).
Proof.
  unfold newestFirst. intros H. induction H as [|v l Hs IH Hall]; simpl.
  - constructor; constructor.
  - destruct (Nat.leb_spec (createdAt v) (createdAt u)) as [Hle | Hlt].
    + constructor; [now constructor|].
      constructor; [exact Hle|].
      eapply Forall_impl; [|exact Hall]. intros x Hx. simpl in Hx. lia.
    + constructor; [exact IH|].
      apply (Permutation_Forall (x := u :: l));
        [symmetry; apply insertByCreatedAtDesc_perm|].
      constructor; [lia | exact Hall].
Qed.

Lemma sortByCreatedAtDesc_sorted (l : list User) :
  newestFirst (UserService.sortByCreatedAtDesc l).
Proof.
  unfold UserService.sortByCreatedAtDesc.
  induction l as [|v l IH]; simpl; [constructor|].
  now apply insertByCreatedAtDesc_sorted.
Qed.

Lemma getPendingApprovals_run (env : Env) (w : World) :
  UserService.getPendingApprovals env w =
  if getDocsFault env "isApproved"
  then (Throw (Error "Failed to fetch pending approvals"),
        log (EvGetDocs "isApproved" "false") w)
  else (Ok (UserService.sortByCreatedAtDesc
              (filter (fun u => negb (isApproved u)) (users w))),
        log (EvGetDocs "isApproved" "false") w).
Proof.
  unfold UserService.getPendingApprovals, Firebase.getDocs.
  unfold try_catch, bind, ret, throw.
  destruct (getDocsFault env "isApproved"); reflexivity.
Qed.

Lemma getAllUsers_run (env : Env) (w : World) :
  UserService.getAllUsers env w =
  if getDocsFault env "createdAt"
  then (Throw (Error "Failed to fetch users"),
        log (EvGetDocs "createdAt" "desc") w)
  else (Ok (UserService.orderByCreatedAtDesc (filter (fun _ => true) (users w))),
        log (EvGetDocs "createdAt" "desc") w).
Proof.
  unfold UserService.getAllUsers, Firebase.getDocs.
  unfold try_catch, bind, ret, throw.
  destruct (getDocsFault env "createdAt"); reflexivity.
Qed.

Lemma getUsersByRole_full (env : Env) (r : UserRole) (w : World) :
  UserService.getUsersByRole env r w =
  if getDocsFault env "role"
  then (Throw (Error "Failed to fetch users"),
        log (EvGetDocs "role" (roleName r)) w)
  else (Ok (UserService.orderByCreatedAtDesc
              (filter (fun u => UserRole_eqb (role u) r) (users w))),
        log (EvGetDocs "role" (roleName r)) w).
Proof.
  unfold UserService.getUsersByRole, Firebase.getDocs.
  unfold try_catch, bind, ret, throw.
  destruct (getDocsFault env "role"); reflexivity.
Qed.

(** X6. [getPendingApprovals] returns the unapproved records of the
    directory, each as often as it is stored, sorted newest first, and
    leaves the directory unchanged; the admin wrapper returns the same
    list.  When the query fails both surface "Failed to fetch pending
    approvals". *)
Theorem getPendingApprovals_exact (env : Env) (w : World) :
  let out := UserService.getPendingApprovals env w in
  fst (AdminService.getPendingApprovals env w) = fst out /\
  users (snd out) = users w /\
  (getDocsFault env "isApproved" = false ->
   exists l, fst out = Ok l /\
     Permutation l (filter (fun u => negb (isApproved u)) (users w)) /\
     newestFirst l /\
     (forall u, In u l <-> In u (users w) /\ isApproved u = false)) /\
  (getDocsFault env "isApproved" = true ->
   fst out = Throw (Error "Failed to fetch pending approvals")).
Proof.
  cbv zeta. unfold AdminService.getPendingApprovals, try_catch, throw.
  rewrite getPendingApprovals_run.
  destruct (getDocsFault env "isApproved"); simpl.
  - repeat split; auto. discriminate.
  - split; [reflexivity|]. split; [reflexivity|]. split; [|discriminate].
    intros _. eexists. split; [reflexivity|].
    split; [apply sortByCreatedAtDesc_perm|].
    split; [apply sortByCreatedAtDesc_sorted|].
    intros u. split.
    + intros H. apply (Permutation_in u (sortByCreatedAtDesc_perm _)) in H.
      apply filter_In in H. destruct H as [H1 H2].
      split; [exact H1|]. now apply negb_true_iff.
    + intros [H1 H2].
      apply (Permutation_in u (Permutation_sym (sortByCreatedAtDesc_perm _))).
      apply filter_In. split; [exact H1|]. now apply negb_true_iff.
Qed.

Lemma getPendingApprovals_exact_witness :
  getDocsFault sampleEnv "isApproved" = false /\
  fst (UserService.getPendingApprovals sampleEnv sampleWorld)
  = Ok [sampleStudent].
Proof.
  split; [reflexivity|].
  destruct (proj1 (proj2 (proj2 (getPendingApprovals_exact sampleEnv
                                                          sampleWorld)))
              eq_refl) as (l & Hl & _).
  rewrite Hl. vm_compute in Hl. inversion Hl. reflexivity.
Defined.

Lemma filter_length_perm (p : User -> bool) (l l' : list User) :
  Permutation l l' -> length (filter p l) = length (filter p l').
Proof.
  intros H. induction H; simpl.
  - reflexivity.
  - destruct (p x); simpl; congruence.
  - destruct (p x), (p y); reflexivity.
  - congruence.
Qed.

Lemma filter_true (A : Type) (l : list A) : filter (fun _ => true) l = l.
Proof. induction l; simpl; congruence. Qed.

Lemma disjoint_filters_length (A : Type) (p q : A -> bool) (l : list A) :
  (forall x, p x = true -> q x = true -> False) ->
  length (filter p l) + length (filter q l) <= length l.
Proof.
  intros H. induction l as [|a l IH]; simpl; [lia|].
  destruct (p a) eqn:Hp, (q a) eqn:Hq; simpl; try lia.
  exfalso. eauto.
Qed.

Lemma filter_filter_le (A : Type) (p q : A -> bool) (l : list A) :
  length (filter q (filter p l)) <= length (filter p l).
Proof.
  induction (filter p l) as [|a m IH]; simpl; [lia|].
  destruct (q a); simpl; lia.
Qed.

(** X7. When its four reads succeed, [getDashboardStats] reports figures
    of one and the same directory: the total is the number of records,
    the active and the pending records together do not exceed it, nor do
    the students and the staff, and the staff with approval rights do not
    exceed the staff; the directory is not modified.  When one of the
    reads fails, the error is "Failed to fetch dashboard statistics". *)
Theorem dashboard_stats_consistent (env : Env) (w : World) :
  let out := AdminService.getDashboardStats env w in
  users (snd out) = users w /\
  (getDocsFault env "createdAt" = false ->
   getDocsFault env "isApproved" = false ->
   getDocsFault env "role" = false ->
   exists st, fst out = Ok st /\
     AdminService.totalUsers st = length (users w) /\
     AdminService.pendingApprovals st
     = length (filter (fun u => negb (isApproved u)) (users w)) /\
     AdminService.activeUsers st + AdminService.pendingApprovals st
     <= AdminService.totalUsers st /\
     AdminService.totalStudents st + AdminService.totalStaff st
     <= AdminService.totalUsers st /\
     AdminService.staffWithApprovalRights st <= AdminService.totalStaff st) /\
  (getDocsFault env "createdAt" = true \/
   getDocsFault env "isApproved" = true \/
   getDocsFault env "role" = true ->
   fst out = Throw (Error "Failed to fetch dashboard statistics")).
Proof.
  cbv zeta. unfold AdminService.getDashboardStats, AdminService.settle.
  unfold try_catch, bind, ret, throw.
  rewrite getAllUsers_run.
  destruct (getDocsFault env "createdAt") eqn:H1; cbv beta iota zeta;
    rewrite getPendingApprovals_run;
    destruct (getDocsFault env "isApproved") eqn:H2; cbv beta iota zeta;
    rewrite getUsersByRole_full;
    destruct (getDocsFault env "role") eqn:H3; cbv beta iota zeta;
    rewrite getUsersByRole_full, H3; simpl;
    (split; [reflexivity|]);
    (split; [intros A B C; try discriminate
            | intros D; try reflexivity;
              try (destruct D as [D | [D | D]]; discriminate)]).
  eexists. split; [reflexivity|]. simpl.
  rewrite filter_true.
  rewrite !(Permutation_length (orderByCreatedAtDesc_perm _)).
  rewrite (Permutation_length (sortByCreatedAtDesc_perm _)).
  rewrite !(filter_length_perm _ _ _ (orderByCreatedAtDesc_perm _)).
  split; [reflexivity|]. split; [reflexivity|].
  split; [|split].
  - apply disjoint_filters_length. intros x Ha Hp.
    apply andb_true_iff in Ha. destruct Ha as [_ Ha].
    rewrite Ha in Hp. discriminate.
  - apply disjoint_filters_length. intros x Ha Hb.
    destruct (role x); discriminate.
  - apply filter_filter_le.
Qed.

Lemma dashboard_stats_consistent_witness :
  fst (AdminService.getDashboardStats sampleEnv sampleWorld)
  = Ok (AdminService.mkStats 2 1 1 1 1 1).
Proof.
  destruct (proj1 (proj2 (dashboard_stats_consistent sampleEnv sampleWorld))
              eq_refl eq_refl eq_refl) as (st & Hst & _).
  rewrite Hst. vm_compute in Hst. inversion Hst. reflexivity.
Defined.

(** ** Authentication *)

Lemma signIn_inv (env : Env) (mail pw : string) (w w' : World)
      (fu : FirebaseUser) :
  Firebase.signInWithEmailAndPassword env mail pw w = (Ok fu, w') ->
  exists a,
    Firebase.findAccount mail (accounts w) = Some a /\
    acc_password a = pw /\
    fu = mkFirebaseUser (acc_uid a) mail /\
    currentUser w' = Some (acc_uid a) /\
    users w' = users w /\ authCtx w' = authCtx w.
Proof.
  unfold Firebase.signInWithEmailAndPassword.
  destruct (signInFault env); [discriminate|].
  destruct (Firebase.findAccount mail (accounts w)) as [a|]; [|discriminate].
  destruct (acc_password a =? pw) eqn:Hp; [|discriminate].
  intros H. inversion H; subst. exists a.
  apply String.eqb_eq in Hp. repeat split; auto.
Qed.

(** A successful [AuthService.login] leaves the session with the
    credential it returns. *)
Lemma login_ok_session
      (env : Env) (c : LoginCredentials) (w w' : World) (fu : FirebaseUser) :
  AuthService.login env c w = (Ok fu, w') ->
  currentUser w' = Some (fu_uid fu).
Proof.
  unfold AuthService.login. unfold try_catch at 1. unfold bind at 1.
  destruct (UserService.getUserByCardNumber env (lc_cardNumber c) w)
    as [[[u|]|e] w0].
  - destruct (Firebase.signInWithEmailAndPassword env (email u)
                (lc_password c) w0) as [[fu0|e] w1] eqn:Hs.
    + intros H. inversion H; subst.
      destruct (signIn_inv env _ _ _ _ _ Hs) as (a & _ & _ & Hfu & Hcur & _).
      now rewrite Hcur, Hfu.
    + unfold throw.
      destruct (message e =? "Invalid card number or password");
        [discriminate|].
      destruct (isAuthCode e); discriminate.
  - unfold throw. simpl. discriminate.
  - unfold throw.
    destruct (message e =? "Invalid card number or password");
      [discriminate|].
    destruct (isAuthCode e); discriminate.
Qed.

(** X8. [AuthService.login] returns a credential only when the card number
    resolves to a record, the credential service holds an account for the
    record's e-mail and the password presented is that account's
    password; the session is then the account's. *)
Theorem login_requires_correct_secret
        (env : Env) (c : LoginCredentials) (w w' : World) (fu : FirebaseUser) :
  AuthService.login env c w = (Ok fu, w') ->
  exists u a,
    fst (UserService.getUserByCardNumber env (lc_cardNumber c) w) = Ok (Some u) /\
    cardNumber u = lc_cardNumber c /\
    Firebase.findAccount (email u) (accounts w) = Some a /\
    acc_password a = lc_password c /\
    fu_uid fu = acc_uid a /\
    currentUser w' = Some (acc_uid a).
Proof.
  unfold AuthService.login. unfold try_catch at 1. unfold bind at 1.
  pose proof (getUserByCardNumber_keeps env (lc_cardNumber c) w) as K.
  pose proof (getUserByCardNumber_run env (lc_cardNumber c) w) as R.
  destruct (UserService.getUserByCardNumber env (lc_cardNumber c) w)
    as [[[u|]|e] w0]; simpl in K; destruct K as (_ & Hacc & _).
  - destruct (Firebase.signInWithEmailAndPassword env (email u)
                (lc_password c) w0) as [[fu0|e] w1] eqn:Hs.
    + intros H. inversion H; subst.
      destruct (signIn_inv env _ _ _ _ _ Hs) as (a & Ha & Hp & Hfu & Hcur & _).
      exists u, a. rewrite <- Hacc. split; [reflexivity|].
      split; [|split; [exact Ha|split; [exact Hp|split; [now rewrite Hfu|exact Hcur]]]].
      destruct (lc_cardNumber c =? ""); [discriminate|].
      destruct (getDocsFault env "cardNumber"); [discriminate|].
      inversion R as [[Hfind Hw]]. symmetry in Hfind.
      apply find_some in Hfind. now apply String.eqb_eq.
    + unfold throw.
      destruct (message e =? "Invalid card number or password");
        [discriminate|].
      destruct (isAuthCode e); discriminate.
  - unfold throw. simpl. discriminate.
  - unfold throw.
    destruct (message e =? "Invalid card number or password");
      [discriminate|].
    destruct (isAuthCode e); discriminate.
Qed.

Lemma login_requires_correct_secret_witness :
  exists fu w' u a,
    AuthService.login sampleEnv staffLogin sampleWorld = (Ok fu, w') /\
    cardNumber u = "C-002" /\
    Firebase.findAccount (email u) (accounts sampleWorld) = Some a /\
    acc_password a = "pwB".
Proof.
  destruct (AuthService.login sampleEnv staffLogin sampleWorld)
    as [r w'] eqn:E.
  assert (Hr : exists fu, r = Ok fu) by (vm_compute in E; inversion E; eauto).
  destruct Hr as [fu ->].
  destruct (login_requires_correct_secret sampleEnv staffLogin sampleWorld
              w' fu E) as (u & a & _ & Hc & Ha & Hp & _).
  exists fu, w', u, a. repeat split; assumption.
Defined.

Lemma login_unfold (env : Env) (c : LoginCredentials) (w : World) :
  AuthContext.login env c w =
  try_finally
    (try_catch
       (firebaseUser <- AuthService.login env c;;
        userData <- UserService.getUserByAuthUid env (fu_uid firebaseUser);;
        match userData with
        | None => throw (Error "User profile not found")
        | Some u => loginGate env firebaseUser u
        end)
       (fun err =>
          AuthContext.setError (Some (strOr (message err) "Failed to login"));;
          throw err))
    (fun w => setAuthCtx (withLoading false (authCtx w)) w) (started w).
Proof.
  unfold AuthContext.login.
  unfold AuthContext.setLoading at 1. unfold AuthContext.setError at 1.
  unfold try_finally. unfold try_catch at 1.
  unfold bind at 1. unfold modify at 1. cbv beta iota zeta.
  unfold bind at 1. unfold modify at 1. cbv beta iota zeta.
  reflexivity.
Qed.

Lemma logout_keeps (env : Env) (w : World) :
  users (snd (AuthService.logout env w)) = users w /\
  authCtx (snd (AuthService.logout env w)) = authCtx w.
Proof.
  unfold AuthService.logout, Firebase.signOut, try_catch, throw.
  destruct (signOutFault env); simpl; auto.
Qed.

(** X9. The context's [login] succeeds only by installing, as the context's
    user, a record that is active and approved and belongs to the
    credential just signed in; the context then holds no error and is no
    longer loading. *)
Theorem login_installs_usable_record
        (env : Env) (c : LoginCredentials) (w w' : World) :
  AuthContext.login env c w = (Ok tt, w') ->
  exists u,
    ui_user (authCtx w') = Some u /\
    isActive u = true /\ isApproved u = true /\
    currentUser w' = Some (authUid u) /\
    ui_error (authCtx w') = None /\
    ui_loading (authCtx w') = false.
Proof.
  rewrite login_unfold. unfold try_finally, try_catch. unfold bind at 1.
  destruct (AuthService.login env c (started w)) as [[fu|e] w1] eqn:HL.
  2:{ unfold AuthContext.setError, bind, modify, throw. simpl.
      intros H; inversion H. }
  pose proof (AuthService_login_keeps_ctx env c (started w)) as K1.
  rewrite HL in K1. simpl in K1.
  pose proof (login_ok_session env c (started w) w1 fu HL) as Hcur.
  unfold bind at 1. rewrite getUserByAuthUid_run.
  destruct (getDocsFault env "authUid").
  { unfold AuthContext.setError, bind, modify, throw. simpl.
      intros H; inversion H. }
  destruct (find (fun u => authUid u =? fu_uid fu) (users w1)) as [u|] eqn:Hf.
  2:{ unfold AuthContext.setError, bind, modify, throw. simpl.
      intros H; inversion H. }
  assert (Hblocked : forall msg,
    loginGate env fu u = (AuthService.logout env;; throw (Error msg)) ->
    (let (r, w'0) :=
       let (r, w'0) :=
         loginGate env fu u (log (EvGetDocs "authUid" (fu_uid fu)) w1) in
       match r with
       | Ok a0 => (Ok a0, w'0)
       | Throw e =>
           (AuthContext.setError
              (Some (strOr (message e) "Failed to login"));;
            throw e) w'0
       end in
     (r, setAuthCtx (withLoading false (authCtx w'0)) w'0)) <> (Ok tt, w')).
  { intros msg Hg. rewrite Hg. unfold bind at 1.
    destruct (AuthService.logout env
                (log (EvGetDocs "authUid" (fu_uid fu)) w1)) as [[[]|e] w3];
      unfold AuthContext.setError, bind, modify, throw; simpl;
      intros H; inversion H. }
  destruct (isActive u) eqn:Hact.
  2:{ intros H. exfalso. revert H.
      apply (Hblocked "Your account has been deactivated").
      unfold loginGate. rewrite Hact. reflexivity. }
  destruct (isApproved u) eqn:Happ.
  2:{ intros H. exfalso. revert H.
      apply (Hblocked "Your account is pending approval").
      unfold loginGate. rewrite Hact, Happ. reflexivity. }
  clear Hblocked. unfold loginGate. rewrite Hact, Happ.
  change (negb true) with false. cbv beta iota.
  unfold AuthContext.setUser, AuthContext.setFirebaseUser, bind, modify.
  simpl. intros H. inversion H; subst w'. clear H. simpl.
  exists u. split; [reflexivity|]. split; [exact Hact|]. split; [exact Happ|].
  apply find_some in Hf. destruct Hf as [_ Hf]. apply String.eqb_eq in Hf.
  split; [now rewrite Hcur, Hf|].
  split; [now rewrite K1|reflexivity].
Qed.

Lemma login_installs_usable_record_witness :
  exists w' u,
    AuthContext.login sampleEnv staffLogin sampleWorld = (Ok tt, w') /\
    ui_user (authCtx w') = Some u /\
    isActive u = true /\ isApproved u = true.
Proof.
  destruct (AuthContext.login sampleEnv staffLogin sampleWorld)
    as [r w'] eqn:E.
  assert (Hr : r = Ok tt) by (vm_compute in E; inversion E; reflexivity).
  subst r.
  destruct (login_installs_usable_record sampleEnv staffLogin sampleWorld w' E)
    as (u & Hu & Ha & Hp & _).
  exists w', u. repeat split; assumption.
Defined.

(** ** Registration outcomes *)

Lemma findAccount_app_new (mail : string) (l : list Account) (a : Account) :
  Firebase.findAccount mail l = None -> acc_email a = mail ->
  Firebase.findAccount mail (l ++ [a]) = Some a.
Proof.
  unfold Firebase.findAccount. intros Hn Ha.
  induction l as [|b l IH]; simpl in *.
  - apply String.eqb_eq in Ha. now rewrite Ha.
  - destruct (acc_email b =? mail); [discriminate | auto].
Qed.

(** X10. When the credential service creates the account but rejects the
    display-name update that follows, [register] fails with that error and
    runs no compensation: no delete and no sign-out is issued, the new
    credential stays in the credential service and its session stays
    open; nothing is written to the directory. *)
Theorem register_profile_failure_keeps_credential
        (env : Env) (userData : CreateUserData) (w : World) (e : JsError) :
  createAccountFault env = None ->
  Firebase.findAccount (cu_email userData) (accounts w) = None ->
  updateProfileFault env = Some e ->
  let out := AuthContext.register env userData w in
  fst out = Throw (AuthService.handleAuthError e) /\
  trace (snd out)
  = (trace w ++ [EvCreateAccount (cu_email userData);
                 EvUpdateProfile (newAuthUid env)])%list /\
  Firebase.findAccount (cu_email userData) (accounts (snd out))
  = Some (mkAccount (newAuthUid env) (cu_email userData)
                    (cu_password userData) "") /\
  currentUser (snd out) = Some (newAuthUid env) /\
  users (snd out) = users w.
Proof.
  intros Hc Hf Hp.
  assert (Hreg : AuthService.register env userData (started w) =
    (Throw (AuthService.handleAuthError e),
     log (EvUpdateProfile (newAuthUid env))
       (setCurrentUser (Some (newAuthUid env))
          (setAccounts
             (accounts w ++ [mkAccount (newAuthUid env) (cu_email userData)
                                       (cu_password userData) ""])
             (log (EvCreateAccount (cu_email userData)) (started w)))))).
  { unfold AuthService.register.
    unfold Firebase.createUserWithEmailAndPassword, Firebase.updateProfile.
    unfold try_catch, bind, ret, throw. rewrite Hc.
    change (accounts (started w)) with (accounts w). rewrite Hf.
    cbv beta iota zeta. rewrite Hp. reflexivity. }
  assert (Hrun : AuthContext.register env userData w =
    (Throw (AuthService.handleAuthError e),
     setAuthCtx (withLoading false
       (withError (Some (strOr (message (AuthService.handleAuthError e))
                               "Failed to register"))
                  (withError None (withLoading true (authCtx w)))))
       (log (EvUpdateProfile (newAuthUid env))
         (setCurrentUser (Some (newAuthUid env))
           (setAccounts
             (accounts w ++ [mkAccount (newAuthUid env) (cu_email userData)
                                       (cu_password userData) ""])
             (log (EvCreateAccount (cu_email userData)) (started w))))))).
  { unfold AuthContext.register.
    unfold AuthContext.setLoading at 1. unfold AuthContext.setError at 1.
    unfold try_finally.
    unfold bind at 1. unfold try_catch at 1.
    unfold bind at 1. unfold modify at 1. cbv beta iota zeta.
    unfold bind at 1. unfold modify at 1. cbv beta iota zeta.
    change (setAuthCtx _ (setAuthCtx _ w)) with (started w).
    rewrite Hreg. reflexivity. }
  cbv zeta. rewrite Hrun. simpl. rewrite <- app_assoc. simpl.
  repeat split. now apply findAccount_app_new.
Qed.

Lemma register_profile_failure_keeps_credential_witness :
  let env := mkEnv (fun _ => false) (fun _ => false) false (fun _ => false)
                   None None (Some (mkError "offline" None)) None None None
                   "doc9" "auth9" 7 in
  let out := AuthContext.register env studentRequest sampleWorld in
  fst out = Throw (Error "offline") /\
  currentUser (snd out) = Some "auth9".
Proof.
  intros env out.
  destruct (register_profile_failure_keeps_credential env studentRequest
              sampleWorld (mkError "offline" None) eq_refl eq_refl eq_refl)
    as (H1 & _ & _ & H4 & _).
  split; [exact H1 | exact H4].
Defined.

Lemma AuthService_register_inv (env : Env) (userData : CreateUserData)
      (w w1 : World) (fu : FirebaseUser) :
  AuthService.register env userData w = (Ok fu, w1) ->
  currentUser w1 = Some (fu_uid fu) /\
  Firebase.findAccount (cu_email userData) (accounts w) = None.
Proof.
  unfold AuthService.register.
  unfold Firebase.createUserWithEmailAndPassword, Firebase.updateProfile.
  unfold try_catch, bind, ret, throw.
  destruct (createAccountFault env); [discriminate|].
  destruct (Firebase.findAccount (cu_email userData) (accounts w));
    [discriminate|].
  cbv beta iota zeta.
  destruct (updateProfileFault env); [discriminate|].
  intros H. inversion H; subst. simpl. auto.
Qed.

Lemma setDoc_keeps_session (env : Env) (id : string) (d : User) (w : World) :
  currentUser (snd (Firebase.setDoc env id d w)) = currentUser w.
Proof.
  unfold Firebase.setDoc. destruct (setDocFault env); [reflexivity|].
  destruct (Firebase.findDoc id (users w)); reflexivity.
Qed.

Lemma createUser_keeps_session (env : Env) (authId : string)
      (userData : CreateUserData) (w w' : World) (u : User) :
  UserService.createUser env authId userData w = (Ok u, w') ->
  currentUser w' = currentUser w.
Proof.
  unfold UserService.createUser.
  unfold try_catch at 1. unfold bind at 1.
  pose proof (getUserByCardNumber_keeps env (cu_cardNumber userData) w) as K.
  destruct (UserService.getUserByCardNumber env (cu_cardNumber userData) w)
    as [[[x|]|e] w0]; simpl in K; destruct K as (_ & _ & Kc & _).
  - unfold throw. simpl. intros H; inversion H.
  - unfold bind at 1.
    assert (Kimg : forall w0,
      currentUser (snd ((if truthy (cu_imageBase64 userData)
          then try_catch
                 (url <- ImageService.uploadBase64Image env
                           (orElse (cu_imageBase64 userData) "") (newDocId env);;
                  ret (Some url))
                 (fun _ => ret None)
          else ret None) w0)) = currentUser w0).
    { intros w1. destruct (truthy (cu_imageBase64 userData)); [|reflexivity].
      unfold ImageService.uploadBase64Image, Firebase.upload.
      unfold try_catch, bind, ret, throw.
      destruct (uploadResult env); reflexivity. }
    specialize (Kimg w0).
    match goal with |- context [(if ?c then ?a else ?b) w0] =>
      destruct ((if c then a else b) w0) as [[image|e] w1]
    end; simpl in Kimg.
    + unfold bind, ret.
      pose proof (setDoc_keeps_session env (newDocId env)
        (UserService.newUserData env (newDocId env) authId userData image) w1)
        as Ks.
      destruct (Firebase.setDoc env (newDocId env)
                  (UserService.newUserData env (newDocId env) authId userData
                                           image) w1) as [[[]|e] w2].
      * intros H. inversion H; subst. simpl in Ks. congruence.
      * unfold throw.
        destruct (message e =? "Card number already exists");
          intros H; inversion H.
    + unfold throw.
      destruct (message e =? "Card number already exists");
        intros H; inversion H.
  - unfold throw.
    destruct (message e =? "Card number already exists");
      intros H; inversion H.
Qed.

(** X11. A registration whose two steps both succeed installs the new
    record as the context's user and leaves the new credential signed in.
    For every role but admin that record is not approved, so a freshly
    registered student or staff member holds an open session that a login
    would have refused. *)
Theorem register_success_opens_session
        (env : Env) (userData : CreateUserData) (w w1 w2 : World)
        (fu : FirebaseUser) (u : User) :
  AuthService.register env userData (started w) = (Ok fu, w1) ->
  UserService.createUser env (fu_uid fu) userData w1 = (Ok u, w2) ->
  let out := AuthContext.register env userData w in
  fst out = Ok tt /\
  ui_user (authCtx (snd out)) = Some u /\
  ui_firebaseUser (authCtx (snd out)) = Some fu /\
  currentUser (snd out) = Some (fu_uid fu) /\
  users (snd out) = users w2 /\
  (cu_role userData <> admin -> isApproved u = false).
Proof.
  intros Hreg Hcreate.
  assert (Hrun : AuthContext.register env userData w =
    (Ok tt,
     setAuthCtx (withLoading false
                   (withFirebaseUser (Some fu)
                      (withUser (Some u) (authCtx w2)))) w2)).
  { rewrite (register_step env userData w w1 fu Hreg).
    unfold try_finally, try_catch. unfold bind at 1. rewrite Hcreate.
    reflexivity. }
  cbv zeta. rewrite Hrun. simpl.
  destruct (AuthService_register_inv env userData _ _ _ Hreg) as [Hcur _].
  rewrite (createUser_keeps_session env _ _ _ _ _ Hcreate).
  repeat split; auto.
  intros Hrole. apply createUser_ok_inv in Hcreate.
  destruct Hcreate as (image & w3 & -> & _). simpl.
  destruct (cu_role userData); simpl; congruence.
Qed.

Lemma register_success_opens_session_witness :
  let out := AuthContext.register sampleEnv studentRequest sampleWorld in
  exists u,
    fst out = Ok tt /\
    ui_user (authCtx (snd out)) = Some u /\
    isApproved u = false /\
    currentUser (snd out) = Some "auth9".
Proof.
  intros out.
  destruct (AuthService.register sampleEnv studentRequest (started sampleWorld))
    as [r w1] eqn:Hreg.
  assert (Hr : r = Ok (mkFirebaseUser "auth9" "c@u.edu"))
    by (vm_compute in Hreg; inversion Hreg; reflexivity).
  subst r.
  destruct (UserService.createUser sampleEnv "auth9" studentRequest w1)
    as [r2 w2] eqn:Hcreate.
  assert (Hr2 : exists u, r2 = Ok u).
  { assert (Hw1 : w1 = snd (AuthService.register sampleEnv studentRequest
                                                 (started sampleWorld)))
      by (now rewrite Hreg).
    rewrite Hw1 in Hcreate. vm_compute in Hcreate. inversion Hcreate. eauto. }
  destruct Hr2 as [u ->].
  destruct (register_success_opens_session sampleEnv studentRequest sampleWorld
              w1 w2 (mkFirebaseUser "auth9" "c@u.edu") u Hreg Hcreate)
    as (H1 & H2 & _ & H4 & _ & H6).
  exists u. split; [exact H1|]. split; [exact H2|].
  split; [apply H6; discriminate | exact H4].
Defined.

(** ** Password reset and logout *)

(** X12. A password reset by card number answers an unknown card number
    with "No account found with this card number", where a login with the
    same card number answers with the generic message; for a known card
    number whose reset e-mail is accepted it succeeds.  The reset thus
    tells a caller whether a card number is registered. *)
Theorem reset_reveals_card_numbers
        (env : Env) (card password : string) (w : World) :
  (fst (UserService.getUserByCardNumber env card w) = Ok None ->
   surfaced (AuthService.resetPasswordByCardNumber env None card w)
   = Some "No account found with this card number" /\
   surfaced (AuthContext.resetPasswordByCardNumber env None card w)
   = Some "No account found with this card number" /\
   surfaced (AuthService.login env (mkLoginCredentials card password) w)
   = Some "Invalid card number or password") /\
  (forall u,
     fst (UserService.getUserByCardNumber env card w) = Ok (Some u) ->
     fst (AuthService.resetPasswordByCardNumber env None card w) = Ok tt /\
     fst (AuthContext.resetPasswordByCardNumber env None card w) = Ok tt).
Proof.
  assert (Hstart : fst (UserService.getUserByCardNumber env card (started w))
                   = fst (UserService.getUserByCardNumber env card w)).
  { now apply getUserByCardNumber_fst_users. }
  assert (Hctx : AuthContext.resetPasswordByCardNumber env None card w =
    try_finally
      (try_catch (AuthService.resetPasswordByCardNumber env None card)
         (fun err =>
            AuthContext.setError
              (Some (strOr (message err) "Failed to send reset email"));;
            throw err))
      (fun w => setAuthCtx (withLoading false (authCtx w)) w) (started w)).
  { unfold AuthContext.resetPasswordByCardNumber.
    unfold AuthContext.setLoading at 1. unfold AuthContext.setError at 1.
    unfold try_finally. unfold try_catch at 1.
    unfold bind at 1. unfold modify at 1. cbv beta iota zeta.
    unfold bind at 1. unfold modify at 1. cbv beta iota zeta.
    reflexivity. }
  assert (Hunknown : forall w0,
    fst (UserService.getUserByCardNumber env card w0) = Ok None ->
    exists w1, AuthService.resetPasswordByCardNumber env None card w0
               = (Throw (Error "No account found with this card number"), w1)).
  { intros w0 H. unfold AuthService.resetPasswordByCardNumber.
    unfold try_catch, bind, throw.
    destruct (UserService.getUserByCardNumber env card w0) as [r w1].
    simpl in H. subst r. simpl. eauto. }
  assert (Hknown : forall w0 u,
    fst (UserService.getUserByCardNumber env card w0) = Ok (Some u) ->
    exists w1, AuthService.resetPasswordByCardNumber env None card w0
               = (Ok tt, w1)).
  { intros w0 u H. unfold AuthService.resetPasswordByCardNumber.
    unfold try_catch, bind, throw, Firebase.sendPasswordResetEmail.
    destruct (UserService.getUserByCardNumber env card w0) as [r w1].
    simpl in H. subst r. simpl. eauto. }
  split.
  - intros H. split; [|split].
    + destruct (Hunknown w H) as [w1 ->]. reflexivity.
    + rewrite Hctx. rewrite <- Hstart in H.
      destruct (Hunknown (started w) H) as [w1 E].
      unfold try_finally, try_catch. rewrite E. reflexivity.
    + apply (login_failure_generic env w (mkLoginCredentials card password)).
      now apply UnknownCard.
  - intros u H. split.
    + destruct (Hknown w u H) as [w1 ->]. reflexivity.
    + rewrite Hctx. rewrite <- Hstart in H.
      destruct (Hknown (started w) u H) as [w1 E].
      unfold try_finally, try_catch. rewrite E. reflexivity.
Qed.

Lemma reset_reveals_card_numbers_witness :
  surfaced (AuthService.resetPasswordByCardNumber sampleEnv None "C-404"
                                                  sampleWorld)
  = Some "No account found with this card number" /\
  fst (AuthService.resetPasswordByCardNumber sampleEnv None "C-001" sampleWorld)
  = Ok tt.
Proof.
  destruct (reset_reveals_card_numbers sampleEnv "C-404" "x" sampleWorld)
    as [H1 _].
  destruct (reset_reveals_card_numbers sampleEnv "C-001" "x" sampleWorld)
    as [_ H2].
  split; [exact (proj1 (H1 eq_refl))|].
  exact (proj1 (H2 sampleStudent eq_refl)).
Defined.

Lemma handleAuthError_message (e : JsError) :
  message (AuthService.handleAuthError e) <> "".
Proof.
  unfold AuthService.handleAuthError.
  repeat match goal with
         | |- context [if ?c then _ else _] => destruct c
         end; simpl; try discriminate.
  unfold strOr. destruct (message e =? "") eqn:E; [discriminate|].
  now apply String.eqb_neq.
Qed.

(** X13. The context's [logout] clears the context's user and the session
    when the sign-out is accepted.  When the sign-out is rejected it
    fails with the translated error, which is also recorded as the
    context's error, and both the context's user and the session stay as
    they were: the user remains signed in. *)
Theorem logout_outcomes (env : Env) (w : World) :
  let out := AuthContext.logout env w in
  ui_loading (authCtx (snd out)) = false /\
  (signOutFault env = None ->
   fst out = Ok tt /\
   ui_user (authCtx (snd out)) = None /\
   ui_firebaseUser (authCtx (snd out)) = None /\
   ui_error (authCtx (snd out)) = None /\
   currentUser (snd out) = None) /\
  (forall e, signOutFault env = Some e ->
   fst out = Throw (AuthService.handleAuthError e) /\
   ui_user (authCtx (snd out)) = ui_user (authCtx w) /\
   ui_error (authCtx (snd out))
   = Some (message (AuthService.handleAuthError e)) /\
   currentUser (snd out) = currentUser w).
Proof.
  cbv zeta. unfold AuthContext.logout, AuthService.logout, Firebase.signOut.
  unfold AuthContext.setLoading, AuthContext.setError, AuthContext.setUser,
    AuthContext.setFirebaseUser.
  unfold try_finally, try_catch, bind, modify, throw.
  destruct (signOutFault env) as [e0|].
  - pose proof (handleAuthError_message e0) as Hm.
    remember (AuthService.handleAuthError e0) as he eqn:Hhe.
    simpl. split; [reflexivity|]. split; [intros H; discriminate|].
    intros e H. inversion H; subst e0. rewrite <- Hhe.
    split; [reflexivity|]. split; [reflexivity|]. split; [|reflexivity].
    change (Some (strOr (message he) "Failed to logout")
            = Some (message (AuthService.handleAuthError e))).
    rewrite <- Hhe. unfold strOr. apply String.eqb_neq in Hm. now rewrite Hm.
  - simpl. split; [reflexivity|]. split; [intros _; repeat split|].
    intros e H. discriminate.
Qed.

Lemma logout_outcomes_witness :
  let out := AuthContext.logout signOutFailsEnv sampleWorld in
  fst out = Throw (Error "A network error has occurred") /\
  currentUser (snd out) = currentUser sampleWorld.
Proof.
  intros out.
  destruct (proj2 (proj2 (logout_outcomes signOutFailsEnv sampleWorld))
              _ eq_refl) as (H1 & _ & _ & H4).
  split; [exact H1 | exact H4].
Defined.

(** ** Approval rights of staff *)

Lemma updateStaffApprovalPermission_run (env : Env) (id : string) (b : bool)
      (w : World) (u : User) :
  updateDocFault env id = false ->
  Firebase.findDoc id (users w) = Some u ->
  UserService.updateStaffApprovalPermission env id b w =
  (Ok tt,
   setUsers (Firebase.updateFirst id
               (applyUpdates (mkPartial None None None (Some b) None) (now env))
               (users w))
            (log (EvUpdateDoc id) w)).
Proof.
  intros Hu Hf. unfold UserService.updateStaffApprovalPermission, try_catch.
  rewrite updateUser_run, Hu, Hf. reflexivity.
Qed.

(** X14. On an existing staff record, with the directory answering, granting
    approval rights stores the right, revoking removes it, and toggling
    stores and returns the opposite of what the record had; each leaves
    every other property of the record but [updatedAt], and every other
    record, as it was. *)
Theorem rights_operations_effect
        (env : Env) (staffUid : string) (w : World) (u : User) :
  Firebase.findDoc staffUid (users w) = Some u ->
  role u = staff ->
  getDocFault env staffUid = false ->
  updateDocFault env staffUid = false ->
  let stored (b : bool) (out : World) :=
    exists u', Firebase.findDoc staffUid (users out) = Some u' /\
               canApproveStudents u' = Some b /\
               StaffService.hasApprovalPermission u' = b /\
               sameButRights u u' /\
               othersUntouched staffUid w out in
  (fst (AdminService.grantApprovalRights env staffUid w) = Ok tt /\
   stored true (snd (AdminService.grantApprovalRights env staffUid w))) /\
  (fst (AdminService.revokeApprovalRights env staffUid w) = Ok tt /\
   stored false (snd (AdminService.revokeApprovalRights env staffUid w))) /\
  (fst (AdminService.toggleApprovalRights env staffUid w)
   = Ok (negb (truthyB (canApproveStudents u))) /\
   stored (negb (truthyB (canApproveStudents u)))
          (snd (AdminService.toggleApprovalRights env staffUid w))).
Proof.
  intros Hf Hrole Hg Hu stored.
  assert (Hstored : forall b,
    stored b (setUsers (Firebase.updateFirst staffUid
                (applyUpdates (mkPartial None None None (Some b) None) (now env))
                (users (log (EvGetDoc staffUid) w)))
              (log (EvUpdateDoc staffUid) (log (EvGetDoc staffUid) w)))).
  { intros b. unfold stored. eexists. split.
    - simpl. apply findDoc_updateFirst_same; [reflexivity | exact Hf].
    - simpl. unfold StaffService.hasApprovalPermission, sameButRights. simpl.
      rewrite Hrole. simpl.
      repeat split; try (destruct b; reflexivity).
      intros j Hj. simpl. apply findDoc_updateFirst_other; auto. }
  assert (Hgrant : AdminService.grantApprovalRights env staffUid w =
    (Ok tt, setUsers (Firebase.updateFirst staffUid
                (applyUpdates (mkPartial None None None (Some true) None)
                              (now env))
                (users (log (EvGetDoc staffUid) w)))
              (log (EvUpdateDoc staffUid) (log (EvGetDoc staffUid) w)))).
  { unfold AdminService.grantApprovalRights. unfold try_catch, bind.
    rewrite getUserByUid_run, Hg, Hf.
    apply UserRole_eqb_eq in Hrole. rewrite Hrole. change (negb true) with false. cbv beta iota.
    rewrite (updateStaffApprovalPermission_run env staffUid true
               (log (EvGetDoc staffUid) w) u Hu Hf).
    reflexivity. }
  assert (Hrevoke : AdminService.revokeApprovalRights env staffUid w =
    (Ok tt, setUsers (Firebase.updateFirst staffUid
                (applyUpdates (mkPartial None None None (Some false) None)
                              (now env))
                (users (log (EvGetDoc staffUid) w)))
              (log (EvUpdateDoc staffUid) (log (EvGetDoc staffUid) w)))).
  { unfold AdminService.revokeApprovalRights. unfold try_catch, bind.
    rewrite getUserByUid_run, Hg, Hf.
    apply UserRole_eqb_eq in Hrole. rewrite Hrole. change (negb true) with false. cbv beta iota.
    rewrite (updateStaffApprovalPermission_run env staffUid false
               (log (EvGetDoc staffUid) w) u Hu Hf).
    reflexivity. }
  assert (Htoggle : AdminService.toggleApprovalRights env staffUid w =
    (Ok (negb (truthyB (canApproveStudents u))),
     setUsers (Firebase.updateFirst staffUid
                (applyUpdates
                   (mkPartial None None None
                              (Some (negb (truthyB (canApproveStudents u))))
                              None)
                   (now env))
                (users (log (EvGetDoc staffUid) w)))
              (log (EvUpdateDoc staffUid) (log (EvGetDoc staffUid) w)))).
  { unfold AdminService.toggleApprovalRights. unfold try_catch, bind, ret.
    rewrite getUserByUid_run, Hg, Hf.
    apply UserRole_eqb_eq in Hrole. rewrite Hrole. change (negb true) with false. cbv beta iota.
    rewrite (updateStaffApprovalPermission_run env staffUid _
               (log (EvGetDoc staffUid) w) u Hu Hf).
    reflexivity. }
  rewrite Hgrant, Hrevoke, Htoggle. simpl fst. simpl snd.
  repeat split; apply Hstored.
Qed.

Lemma rights_operations_effect_witness :
  fst (AdminService.toggleApprovalRights sampleEnv "B" sampleWorld) = Ok false /\
  fst (AdminService.grantApprovalRights sampleEnv "B" sampleWorld) = Ok tt.
Proof.
  destruct (rights_operations_effect sampleEnv "B" sampleWorld sampleStaff
              eq_refl eq_refl eq_refl eq_refl) as ((Hg & _) & _ & (Ht & _)).
  split; [exact Ht | exact Hg].
Defined.

(** ** Scope of the staff operations *)

(** X15. [approveStudent] refuses every actor whose role is not staff,
    administrators included, before any call to the directory, leaving the
    world exactly as it was.  When it succeeds, the actor is staff, the
    target has become approved, its other properties but [updatedAt] are
    as before, and no other record has changed. *)
Theorem approveStudent_effect
        (env : Env) (actor : User) (studentUid : string) (w : World) :
  (role actor <> staff ->
   StaffService.approveStudent env actor studentUid w
   = (Throw (Error "Only staff members can approve students"), w)) /\
  (fst (StaffService.approveStudent env actor studentUid w) = Ok tt ->
   role actor = staff /\
   othersUntouched studentUid w
     (snd (StaffService.approveStudent env actor studentUid w)) /\
   exists t t',
     Firebase.findDoc studentUid (users w) = Some t /\
     Firebase.findDoc studentUid
       (users (snd (StaffService.approveStudent env actor studentUid w)))
     = Some t' /\
     isApproved t' = true /\ isActive t' = isActive t /\ sameIdentity t t').
Proof.
  split.
  - intros H. apply UserRole_eqb_neq in H.
    unfold StaffService.approveStudent, try_catch, throw. rewrite H.
    reflexivity.
  - unfold StaffService.approveStudent, try_catch, bind, throw.
    destruct (UserRole_eqb (role actor) staff) eqn:Hr; simpl;
      [|intros H; inversion H].
    destruct (truthyB (canApproveStudents actor)); simpl;
      [|intros H; inversion H].
    rewrite getUserByUid_run.
    destruct (getDocFault env studentUid); simpl; [intros H; inversion H|].
    destruct (Firebase.findDoc studentUid (users w)) as [t|] eqn:Hf; simpl;
      [|intros H; inversion H].
    destruct (UserRole_eqb (role t) student); simpl; [|intros H; inversion H].
    destruct (department t =? department actor); simpl;
      [|intros H; inversion H].
    rewrite approveUser_run.
    destruct (updateDocFault env studentUid); simpl; [intros H; inversion H|].
    rewrite Hf. simpl. intros _.
    split; [now apply UserRole_eqb_eq|]. split.
    + intros j Hj. simpl. apply findDoc_updateFirst_other; auto.
    + exists t. eexists. split; [reflexivity|]. split.
      * apply findDoc_updateFirst_same; [reflexivity | exact Hf].
      * simpl. unfold sameIdentity. simpl. repeat split.
Qed.

Lemma approveStudent_effect_witness :
  let out := StaffService.approveStudent sampleEnv sampleStaff "A" sampleWorld in
  fst out = Ok tt /\
  exists t', Firebase.findDoc "A" (users (snd out)) = Some t' /\
             isApproved t' = true.
Proof.
  intros out.
  assert (H : fst out = Ok tt) by reflexivity.
  split; [exact H|].
  destruct (proj2 (approveStudent_effect sampleEnv sampleStaff "A" sampleWorld)
              H) as (_ & _ & t & t' & _ & Ht' & Ha & _).
  exists t'. split; [exact Ht' | exact Ha].
Defined.

(** X16. [activateStudent] and [deactivateStudent] succeed exactly when the
    actor's [canApproveStudents] is set, the directory answers the read
    and accepts the write, and the target exists in the actor's
    department.  Neither the actor's role nor the target's role is
    examined, so a record that is not a student can be activated or
    deactivated this way. *)
Theorem activation_scope
        (env : Env) (actor : User) (id : string) (w : World) :
  let allowed :=
    truthyB (canApproveStudents actor) = true /\
    getDocFault env id = false /\
    updateDocFault env id = false /\
    exists t, Firebase.findDoc id (users w) = Some t /\
              department t = department actor in
  (fst (StaffService.activateStudent env actor id w) = Ok tt <-> allowed) /\
  (fst (StaffService.deactivateStudent env actor id w) = Ok tt <-> allowed).
Proof.
  cbv zeta.
  unfold StaffService.activateStudent, StaffService.deactivateStudent,
    UserService.deactivateUser.
  unfold try_catch, bind, throw.
  destruct (truthyB (canApproveStudents actor)); simpl.
  2:{ split; (split; [discriminate | intros (H & _); discriminate]). }
  rewrite getUserByUid_run.
  destruct (getDocFault env id); simpl.
  { split; (split; [discriminate | intros (_ & H & _); discriminate]). }
  destruct (Firebase.findDoc id (users w)) as [t|] eqn:Hf; simpl.
  2:{ split; (split; [discriminate
                     | intros (_ & _ & _ & t & H & _); discriminate]). }
  destruct (department t =? department actor) eqn:Hd; simpl.
  2:{ apply String.eqb_neq in Hd.
      split; (split; [discriminate
                     | intros (_ & _ & _ & t' & H & H'); inversion H; subst;
                       contradiction]). }
  apply String.eqb_eq in Hd. rewrite !updateUser_run.
  destruct (updateDocFault env id); simpl.
  { split; (split; [discriminate | intros (_ & _ & H & _); discriminate]). }
  rewrite Hf. simpl. split; (split; [intros _|reflexivity]);
    repeat split; eauto.
Qed.

Lemma activation_scope_witness :
  role sampleStaff <> student /\
  fst (StaffService.deactivateStudent sampleEnv sampleStaff "B" sampleWorld)
  = Ok tt.
Proof.
  split; [discriminate|].
  apply (proj2 (activation_scope sampleEnv sampleStaff "B" sampleWorld)).
  repeat split. exists sampleStaff. split; reflexivity.
Defined.

(** X17. The department-scoped bulk approval is aborted as a whole, before
    any call to the directory, when the actor's [canApproveStudents] is
    not set; and when the read of the students fails it is aborted with
    "Failed to fetch users" without any record being written. *)
Theorem approveStudentsBulk_aborts
        (env : Env) (actor : User) (uids : list string) (w : World) :
  (truthyB (canApproveStudents actor) = false ->
   StaffService.approveStudentsBulk env actor uids w
   = (Throw (Error "You do not have permission to approve students"), w)) /\
  (truthyB (canApproveStudents actor) = true ->
   getDocsFault env "role" = true ->
   StaffService.approveStudentsBulk env actor uids w
   = (Throw (Error "Failed to fetch users"),
      log (EvGetDocs "role" "student") w)).
Proof.
  unfold StaffService.approveStudentsBulk, try_catch, bind, throw. split.
  - intros H. rewrite H. reflexivity.
  - intros H Hq. rewrite H. change (negb true) with false. cbv beta iota.
    rewrite getUsersByRole_full, Hq. reflexivity.
Qed.

Lemma approveStudentsBulk_aborts_witness :
  StaffService.approveStudentsBulk sampleEnv sampleStudent ["A"; "B"] sampleWorld
  = (Throw (Error "You do not have permission to approve students"),
     sampleWorld).
Proof.
  apply (proj1 (approveStudentsBulk_aborts sampleEnv sampleStudent ["A"; "B"]
                                            sampleWorld)).
  reflexivity.
Defined.

(** ** Department listings *)






(** ** Card status indicators *)

(** X20. For every user, and for no user, exactly one of the warning, error
    and success indicators is set, and it agrees with the status text:
    success with "Active & Valid", error with "Inactive", warning with
    "Pending Approval" or, for no user, "Unknown".  The indicators are
    decided by the two flags: success for an active approved record, error
    for an inactive approved one, warning for every unapproved one, so a
    record that is both inactive and unapproved shows as pending, not as
    inactive.  The status colour is the colour of the indicator that is
    set, never the theme colour it would fall back to. *)
Theorem card_indicators_partition (user : option User) (textSecondary : string) :
  let wn := UserCardUtils.shouldShowWarning user in
  let er := UserCardUtils.shouldShowError user in
  let su := UserCardUtils.shouldShowSuccess user in
  let st := UserCardUtils.getCardStatus user in
  ((wn = true /\ er = false /\ su = false) \/
   (wn = false /\ er = true /\ su = false) \/
   (wn = false /\ er = false /\ su = true)) /\
  (su = true <-> st = "Active & Valid") /\
  (er = true <-> st = "Inactive") /\
  (wn = true <-> st = "Pending Approval" \/ st = "Unknown") /\
  (st = "Unknown" <-> user = None) /\
  (forall u, user = Some u ->
     (su = true <-> isActive u = true /\ isApproved u = true) /\
     (er = true <-> isActive u = false /\ isApproved u = true) /\
     (wn = true <-> isApproved u = false)) /\
  (forall u, user = Some u -> isActive u = false -> isApproved u = false ->
     st = "Pending Approval" /\ wn = true /\ er = false /\ su = false) /\
  UserProfileScreen.statusColor user textSecondary
  = (if su then "#00C8FC" else if er then "#FF3B30" else "#FFCC00") /\
  In (UserProfileScreen.statusColor user textSecondary) statusPalette.
Proof.
  destruct user as [u|]; cbv zeta; unfold UserProfileScreen.statusColor;
    simpl.
  - destruct (isActive u) eqn:Ha, (isApproved u) eqn:Hp; simpl;
      (split; [tauto|]);
      (split; [split; intros H; (discriminate H || reflexivity)|]);
      (split; [split; intros H; (discriminate H || reflexivity)|]);
      (split; [split; [intros H; (discriminate H || auto)
                      | intros [H | H]; (discriminate H || reflexivity)]|]);
      (split; [split; intros H; discriminate H|]);
      (split; [intros v Hv; inversion Hv; subst v; rewrite Ha, Hp;
               split; [|split]; split;
               try (intros [H1 H2]; discriminate);
               try (intros H; discriminate H); auto|]);
      (split; [intros v Hv; inversion Hv; subst v; rewrite Ha, Hp;
               intros H1 H2; try discriminate; repeat split|]);
      (split; [reflexivity | simpl; tauto]).
  - split; [tauto|].
    split; [split; intros H; discriminate H|].
    split; [split; intros H; discriminate H|].
    split; [split; [auto | reflexivity]|].
    split; [split; reflexivity|].
    split; [intros v Hv; discriminate Hv|].
    split; [intros v Hv; discriminate Hv|].
    split; [reflexivity | simpl; tauto].
Qed.

(** ** Card ids of byte arrays *)

Lemma hexByte_table :
  forallb (fun n =>
             Nat.eqb (String.length (Scanner.hexByte n)) 2
             && forallb (fun m => implb (Scanner.hexByte n =? Scanner.hexByte m)
                                        (Nat.eqb n m))
                        (seq 0 256))
          (seq 0 256) = true.
Proof. vm_compute. reflexivity. Qed.

Lemma hexByte_length (n : nat) :
  n < 256 -> String.length (Scanner.hexByte n) = 2.
Proof.
  intros H. pose proof hexByte_table as T. rewrite forallb_forall in T.
  assert (Hin : In n (seq 0 256)) by (apply in_seq; lia).
  specialize (T n Hin). apply andb_true_iff in T. destruct T as [T _].
  now apply Nat.eqb_eq.
Qed.

Lemma hexByte_inj (n m : nat) :
  n < 256 -> m < 256 -> Scanner.hexByte n = Scanner.hexByte m -> n = m.
Proof.
  intros Hn Hm E. pose proof hexByte_table as T. rewrite forallb_forall in T.
  assert (Hin : In n (seq 0 256)) by (apply in_seq; lia).
  specialize (T n Hin). apply andb_true_iff in T. destruct T as [_ T].
  rewrite forallb_forall in T.
  assert (Him : In m (seq 0 256)) by (apply in_seq; lia).
  specialize (T m Him). rewrite E, String.eqb_refl in T. simpl in T.
  now apply Nat.eqb_eq.
Qed.

Lemma hexByte_shape (n : nat) :
  n < 256 ->
  exists a b, Scanner.hexByte n = String a (String b EmptyString).
Proof.
  intros H. pose proof (hexByte_length n H) as L.
  destruct (Scanner.hexByte n) as [|a [|b [|c s]]]; simpl in L;
    try discriminate. eauto.
Qed.

Lemma join_cons_cons (sep x y : string) (l : list string) :
  Scanner.join sep (x :: y :: l) = x ++ sep ++ Scanner.join sep (y :: l).
Proof. reflexivity. Qed.

Lemma string_length_app (s t : string) :
  String.length (s ++ t) = String.length s + String.length t.
Proof. induction s as [|c s IH]; simpl; [reflexivity | now rewrite IH]. Qed.

Lemma join_bytes_length (sep : Ascii.ascii) (l : list nat) :
  allBytes l ->
  String.length (Scanner.join (String sep EmptyString)
                              (map Scanner.hexByte l))
  = 3 * length l - 1.
Proof.
  unfold allBytes. intros H. induction H as [|n l Hn Hl IH]; [reflexivity|].
  pose proof (hexByte_length n Hn) as Ln.
  destruct l as [|m r].
  - simpl. exact Ln.
  - cbn [map] in *. rewrite join_cons_cons, !string_length_app, Ln, IH.
    cbn [length String.length]. lia.
Qed.

Lemma join_bytes_inj (sep : Ascii.ascii) (l1 l2 : list nat) :
  allBytes l1 -> allBytes l2 ->
  Scanner.join (String sep EmptyString) (map Scanner.hexByte l1)
  = Scanner.join (String sep EmptyString) (map Scanner.hexByte l2) ->
  l1 = l2.
Proof.
  unfold allBytes. intros H1. revert l2.
  induction H1 as [|n l1 Hn Hl1 IH]; intros l2 H2 E.
  - destruct l2 as [|m r]; [reflexivity|].
    pose proof (join_bytes_length sep (m :: r) H2) as L.
    rewrite <- E in L. simpl in L. lia.
  - destruct H2 as [|m l2 Hm Hl2].
    + pose proof (join_bytes_length sep (n :: l1)
                    (Forall_cons n Hn Hl1)) as L.
      rewrite E in L. simpl in L. lia.
    + destruct (hexByte_shape n Hn) as (a & b & En).
      destruct (hexByte_shape m Hm) as (a' & b' & Em).
      destruct l1 as [|n1 r1]; destruct l2 as [|m1 r2].
      * simpl in E. f_equal. now apply hexByte_inj.
      * pose proof (join_bytes_length sep [n] (Forall_cons n Hn Hl1)) as L1.
        pose proof (join_bytes_length sep (m :: m1 :: r2)
                      (Forall_cons m Hm Hl2)) as L2.
        rewrite E in L1. rewrite L1 in L2. simpl in L2. lia.
      * pose proof (join_bytes_length sep (n :: n1 :: r1)
                      (Forall_cons n Hn Hl1)) as L1.
        pose proof (join_bytes_length sep [m] (Forall_cons m Hm Hl2)) as L2.
        rewrite E in L1. rewrite L2 in L1. simpl in L1. lia.
      * cbn [map] in E. rewrite !join_cons_cons in E.
        rewrite En, Em in E. simpl in E. inversion E; subst.
        f_equal.
        -- apply hexByte_inj; auto. now rewrite En, Em.
        -- apply IH; [exact Hl2|]. cbn [map]. assumption.
Qed.

(** X21. For arrays of numbers that fit a byte, the card id built by
    [formatCardId] and the string built by [toHexString] take three
    characters per byte less one, and two different arrays never give the
    same card id or string. *)
Theorem card_id_of_bytes_injective
        (toUpperCase : string -> string) (l1 l2 : list nat) :
  allBytes l1 -> allBytes l2 ->
  String.length (Scanner.formatCardId toUpperCase (Scanner.IdBytes l1))
  = 3 * length l1 - 1 /\
  String.length (Scanner.toHexString l1) = 3 * length l1 - 1 /\
  (Scanner.formatCardId toUpperCase (Scanner.IdBytes l1)
   = Scanner.formatCardId toUpperCase (Scanner.IdBytes l2) -> l1 = l2) /\
  (Scanner.toHexString l1 = Scanner.toHexString l2 -> l1 = l2).
Proof.
  intros H1 H2. unfold Scanner.formatCardId, Scanner.toHexString.
  split; [now apply (join_bytes_length ":"%char)|].
  split; [now apply (join_bytes_length " "%char)|].
  split; [now apply (join_bytes_inj ":"%char)
         | now apply (join_bytes_inj " "%char)].
Qed.

Lemma card_id_of_bytes_injective_witness :
  allBytes [4; 26; 43; 60] /\
  Scanner.formatCardId (fun s => s) (Scanner.IdBytes [4; 26; 43; 60])
  = "04:1A:2B:3C" /\
  String.length (Scanner.toHexString [4; 26; 43; 60]) = 11.
Proof.
  assert (H : allBytes [4; 26; 43; 60]) by (repeat constructor; lia).
  split; [exact H|]. split; [reflexivity|].
  exact (proj1 (proj2 (card_id_of_bytes_injective (fun s => s)
                         [4; 26; 43; 60] [4; 26; 43; 60] H H))).
Defined.

(** ** Account status operations of the administrator *)

Lemma updateFirst_twice (id : string) (f g : User -> User) (l : list User) :
  (forall u, uid (f u) = uid u) ->
  Firebase.updateFirst id g (Firebase.updateFirst id f l)
  = Firebase.updateFirst id (fun u => g (f u)) l.
Proof.
  intros Hf. induction l as [|v l IH]; simpl; [reflexivity|].
  destruct (Firebase.hasId id v) eqn:E; simpl.
  - unfold Firebase.hasId in *. rewrite Hf, E. reflexivity.
  - rewrite E, IH. reflexivity.
Qed.

Lemma updateFirst_ext (id : string) (f g : User -> User) (l : list User) :
  (forall u, f u = g u) ->
  Firebase.updateFirst id f l = Firebase.updateFirst id g l.
Proof.
  intros H. induction l as [|v l IH]; simpl; [reflexivity|].
  now rewrite H, IH.
Qed.

(** X22. [approveAndActivate] is one write: it either sets both flags on
    the record or fails with its own message and leaves the directory as it
    was.  The sequence [approveUser], [grantAccess] is two writes, each
    accepted or rejected on its own, which is why each call runs in an
    environment of its own below.  When the sequence succeeds it leaves
    the directory that [approveAndActivate] leaves at the time of the second
    write; when only its second write is rejected it fails with "Failed to
    grant access" and leaves the record approved with [isActive] as it
    was, a state [approveAndActivate] never leaves behind.  [rejectUser]
    performs the deactivation of [revokeAccess]; each operation replaces
    whatever made it fail by its own fixed message. *)
Theorem admin_status_operations
        (env env1 env2 : Env) (id : string) (w : World) :
  let both := AdminService.approveAndActivate env id w in
  let seq := (AdminService.approveUser env1 id;;
              AdminService.grantAccess env2 id) w in
  let rev := AdminService.revokeAccess env id w in
  let rej := AdminService.rejectUser env id w in
  (fst both = Ok tt ->
   exists u u', Firebase.findDoc id (users w) = Some u /\
                Firebase.findDoc id (users (snd both)) = Some u' /\
                isActive u' = true /\ isApproved u' = true /\
                sameIdentity u u') /\
  (forall e, fst both = Throw e ->
             e = Error "Failed to approve and activate user" /\
             users (snd both) = users w) /\
  (fst seq = Ok tt ->
   updateDocFault env id = false -> now env = now env2 ->
   fst both = Ok tt /\ users (snd both) = users (snd seq)) /\
  (forall u, Firebase.findDoc id (users w) = Some u ->
     updateDocFault env1 id = false -> updateDocFault env2 id = true ->
     fst seq = Throw (Error "Failed to grant access") /\
     exists u', Firebase.findDoc id (users (snd seq)) = Some u' /\
                isApproved u' = true /\ isActive u' = isActive u /\
                sameIdentity u u') /\
  (forall e, fst seq = Throw e ->
             e = Error "Failed to approve user" \/
             e = Error "Failed to grant access") /\
  (snd rej = snd rev /\ (fst rej = Ok tt <-> fst rev = Ok tt)) /\
  (forall e, fst rev = Throw e -> e = Error "Failed to revoke access") /\
  (forall e, fst rej = Throw e -> e = Error "Failed to reject user").
Proof.
  cbv zeta.
  assert (Hboth : AdminService.approveAndActivate env id w =
    if updateDocFault env id
    then (Throw (Error "Failed to approve and activate user"),
          log (EvUpdateDoc id) w)
    else match Firebase.findDoc id (users w) with
         | Some _ =>
             (Ok tt,
              setUsers (Firebase.updateFirst id
                          (applyUpdates approveActivateUpdate (now env))
                          (users w))
                       (log (EvUpdateDoc id) w))
         | None => (Throw (Error "Failed to approve and activate user"),
                    log (EvUpdateDoc id) w)
         end).
  { unfold AdminService.approveAndActivate, try_catch, throw.
    rewrite updateUser_run.
    destruct (updateDocFault env id); [reflexivity|].
    destruct (Firebase.findDoc id (users w)); reflexivity. }
  assert (Hseq : (AdminService.approveUser env1 id;;
                  AdminService.grantAccess env2 id) w =
    if updateDocFault env1 id
    then (Throw (Error "Failed to approve user"), log (EvUpdateDoc id) w)
    else match Firebase.findDoc id (users w) with
         | None => (Throw (Error "Failed to approve user"),
                    log (EvUpdateDoc id) w)
         | Some u =>
             let l1 := Firebase.updateFirst id (approveDoc env1) (users w) in
             let w1 := setUsers l1 (log (EvUpdateDoc id) w) in
             if updateDocFault env2 id
             then (Throw (Error "Failed to grant access"),
                   log (EvUpdateDoc id) w1)
             else (Ok tt,
                   setUsers (Firebase.updateFirst id
                               (applyUpdates activateUpdate (now env2)) l1)
                            (log (EvUpdateDoc id) w1))
         end).
  { unfold AdminService.approveUser, AdminService.grantAccess.
    unfold bind, try_catch, throw. rewrite approveUser_run.
    destruct (updateDocFault env1 id); [reflexivity|].
    destruct (Firebase.findDoc id (users w)) as [u|] eqn:Hu; [|reflexivity].
    cbv beta iota zeta. rewrite updateUser_run.
    destruct (updateDocFault env2 id); [reflexivity|].
    change (users (setUsers ?l ?w0)) with l.
    fold (approveDoc env1).
    rewrite (findDoc_updateFirst_same id (approveDoc env1) (users w) u
               eq_refl Hu).
    reflexivity. }
  assert (Hrev : AdminService.revokeAccess env id w =
    if updateDocFault env id
    then (Throw (Error "Failed to revoke access"), log (EvUpdateDoc id) w)
    else match Firebase.findDoc id (users w) with
         | Some _ =>
             (Ok tt,
              setUsers (Firebase.updateFirst id
                          (applyUpdates deactivateUpdate (now env)) (users w))
                       (log (EvUpdateDoc id) w))
         | None => (Throw (Error "Failed to revoke access"),
                    log (EvUpdateDoc id) w)
         end).
  { unfold AdminService.revokeAccess, UserService.deactivateUser.
    unfold try_catch, throw. rewrite updateUser_run.
    destruct (updateDocFault env id); [reflexivity|].
    destruct (Firebase.findDoc id (users w)); reflexivity. }
  assert (Hrej : AdminService.rejectUser env id w =
    if updateDocFault env id
    then (Throw (Error "Failed to reject user"), log (EvUpdateDoc id) w)
    else match Firebase.findDoc id (users w) with
         | Some _ =>
             (Ok tt,
              setUsers (Firebase.updateFirst id
                          (applyUpdates deactivateUpdate (now env)) (users w))
                       (log (EvUpdateDoc id) w))
         | None => (Throw (Error "Failed to reject user"),
                    log (EvUpdateDoc id) w)
         end).
  { unfold AdminService.rejectUser, UserService.deactivateUser.
    unfold try_catch, throw. rewrite updateUser_run.
    destruct (updateDocFault env id); [reflexivity|].
    destruct (Firebase.findDoc id (users w)); reflexivity. }
  rewrite Hboth, Hseq, Hrev, Hrej. clear Hboth Hseq Hrev Hrej.
  split; [|split; [|split; [|split; [|split; [|split; [|split]]]]]].
  - destruct (updateDocFault env id); [intros H; inversion H|].
    destruct (Firebase.findDoc id (users w)) as [u|] eqn:Hu;
      [|intros H; inversion H].
    intros _. exists u. eexists. split; [reflexivity|].
    split; [apply findDoc_updateFirst_same; [reflexivity | exact Hu]|].
    simpl. unfold sameIdentity. simpl. repeat split.
  - intros e.
    destruct (updateDocFault env id);
      [intros H; inversion H; split; reflexivity|].
    destruct (Firebase.findDoc id (users w));
      intros H; inversion H; split; reflexivity.
  - destruct (updateDocFault env1 id); [intros H; inversion H|].
    destruct (Firebase.findDoc id (users w)) as [u|] eqn:Hu;
      [|intros H; inversion H].
    cbv zeta. destruct (updateDocFault env2 id); [intros H; inversion H|].
    intros _ Hf Hnow. rewrite Hf. split; [reflexivity|].
    change (users (setUsers ?l ?w0)) with l.
    unfold approveDoc. rewrite updateFirst_twice by reflexivity.
    rewrite Hnow. apply updateFirst_ext. intros v. reflexivity.
  - intros u Hu H1 H2. rewrite H1, Hu. cbv zeta. rewrite H2.
    split; [reflexivity|].
    eexists. split.
    + change (users (log ?ev (setUsers ?l ?w0))) with l.
      apply findDoc_updateFirst_same; [reflexivity | exact Hu].
    + simpl. unfold sameIdentity. simpl. repeat split.
  - intros e. destruct (updateDocFault env1 id);
      [intros H; inversion H; now left|].
    destruct (Firebase.findDoc id (users w));
      [|intros H; inversion H; now left].
    cbv zeta. destruct (updateDocFault env2 id);
      intros H; inversion H; now right.
  - destruct (updateDocFault env id);
      [split; [reflexivity | split; intros H; inversion H]|].
    destruct (Firebase.findDoc id (users w));
      [split; [reflexivity | tauto]
      |split; [reflexivity | split; intros H; inversion H]].
  - intros e. destruct (updateDocFault env id);
      [intros H; inversion H; reflexivity|].
    destruct (Firebase.findDoc id (users w)); intros H; inversion H;
      reflexivity.
  - intros e. destruct (updateDocFault env id);
      [intros H; inversion H; reflexivity|].
    destruct (Firebase.findDoc id (users w)); intros H; inversion H;
      reflexivity.
Qed.

Lemma admin_status_operations_witness :
  let seq := (AdminService.approveUser sampleEnv "A";;
              AdminService.grantAccess updateFailsEnv "A") sampleWorld in
  fst seq = Throw (Error "Failed to grant access") /\
  exists u', Firebase.findDoc "A" (users (snd seq)) = Some u' /\
             isApproved u' = true.
Proof.
  intros seq.
  destruct (admin_status_operations sampleEnv sampleEnv updateFailsEnv "A"
              sampleWorld) as (_ & _ & _ & H & _).
  destruct (H sampleStudent eq_refl eq_refl eq_refl)
    as (Hthrow & u' & Hu' & Happ & _).
  split; [exact Hthrow|]. exists u'. split; [exact Hu' | exact Happ].
Defined.

(** ** Password reset by e-mail and by card number *)





(** ** Department views of the administrator *)









(** ** From registration to the first login *)

Lemma setDoc_keeps_accounts (env : Env) (id : string) (d : User) (w : World) :
  accounts (snd (Firebase.setDoc env id d w)) = accounts w.
Proof.
  unfold Firebase.setDoc. destruct (setDocFault env); [reflexivity|].
  destruct (Firebase.findDoc id (users w)); reflexivity.
Qed.

Lemma createUser_keeps_accounts (env : Env) (authId : string)
      (userData : CreateUserData) (w w' : World) (u : User) :
  UserService.createUser env authId userData w = (Ok u, w') ->
  accounts w' = accounts w.
Proof.
  unfold UserService.createUser.
  unfold try_catch at 1. unfold bind at 1.
  pose proof (getUserByCardNumber_keeps env (cu_cardNumber userData) w) as K.
  destruct (UserService.getUserByCardNumber env (cu_cardNumber userData) w)
    as [[[x|]|e] w0]; simpl in K; destruct K as (_ & Kc & _).
  - unfold throw. simpl. intros H; inversion H.
  - unfold bind at 1.
    assert (Kimg : forall w0,
      accounts (snd ((if truthy (cu_imageBase64 userData)
          then try_catch
                 (url <- ImageService.uploadBase64Image env
                           (orElse (cu_imageBase64 userData) "") (newDocId env);;
                  ret (Some url))
                 (fun _ => ret None)
          else ret None) w0)) = accounts w0).
    { intros w1. destruct (truthy (cu_imageBase64 userData)); [|reflexivity].
      unfold ImageService.uploadBase64Image, Firebase.upload.
      unfold try_catch, bind, ret, throw.
      destruct (uploadResult env); reflexivity. }
    specialize (Kimg w0).
    match goal with |- context [(if ?c then ?a else ?b) w0] =>
      destruct ((if c then a else b) w0) as [[image|e] w1]
    end; simpl in Kimg.
    + unfold bind, ret.
      pose proof (setDoc_keeps_accounts env (newDocId env)
        (UserService.newUserData env (newDocId env) authId userData image) w1)
        as Ks.
      destruct (Firebase.setDoc env (newDocId env)
                  (UserService.newUserData env (newDocId env) authId userData
                                           image) w1) as [[[]|e] w2].
      * intros H. inversion H; subst. simpl in Ks. congruence.
      * unfold throw.
        destruct (message e =? "Card number already exists");
          intros H; inversion H.
    + unfold throw.
      destruct (message e =? "Card number already exists");
        intros H; inversion H.
  - unfold throw.
    destruct (message e =? "Card number already exists");
      intros H; inversion H.
Qed.

(** What a successful [AuthService.register] did to the stores. *)
Lemma AuthService_register_stores (env : Env) (userData : CreateUserData)
      (w w1 : World) (fu : FirebaseUser) :
  AuthService.register env userData w = (Ok fu, w1) ->
  fu = mkFirebaseUser (newAuthUid env) (cu_email userData) /\
  users w1 = users w /\
  accounts w1 = accountsAfterRegister env userData (accounts w) /\
  Firebase.findAccount (cu_email userData) (accounts w) = None.
Proof.
  unfold AuthService.register.
  unfold Firebase.createUserWithEmailAndPassword, Firebase.updateProfile.
  unfold try_catch, bind, ret, throw.
  destruct (createAccountFault env); [discriminate|].
  destruct (Firebase.findAccount (cu_email userData) (accounts w));
    [discriminate|].
  cbv beta iota zeta.
  destruct (updateProfileFault env); [discriminate|].
  intros H. inversion H; subst. simpl. auto.
Qed.

Lemma register_first_half_fails (env : Env) (userData : CreateUserData)
      (w w1 : World) (e : JsError) :
  AuthService.register env userData (started w) = (Throw e, w1) ->
  fst (AuthContext.register env userData w) = Throw e.
Proof.
  intros Hreg. unfold AuthContext.register.
  unfold AuthContext.setLoading, AuthContext.setError.
  unfold try_finally.
  unfold bind at 1. unfold try_catch at 1.
  unfold bind at 1. unfold modify at 1. cbv beta iota zeta.
  unfold bind at 1. unfold modify at 1. cbv beta iota zeta.
  change (setAuthCtx _ (setAuthCtx _ w)) with (started w).
  rewrite Hreg. reflexivity.
Qed.

(** A successful [register] ran both of its steps to their end. *)
Lemma register_ok_inv (env : Env) (userData : CreateUserData) (w w' : World) :
  AuthContext.register env userData w = (Ok tt, w') ->
  exists fu w1 u w2,
    AuthService.register env userData (started w) = (Ok fu, w1) /\
    UserService.createUser env (fu_uid fu) userData w1 = (Ok u, w2) /\
    users w' = users w2 /\ accounts w' = accounts w2 /\
    ui_user (authCtx w') = Some u.
Proof.
  intros H.
  destruct (AuthService.register env userData (started w)) as [[fu|e] w1]
    eqn:Hreg.
  - destruct (UserService.createUser env (fu_uid fu) userData w1)
      as [[u|e] w2] eqn:Hcreate.
    + exists fu, w1, u, w2. split; [reflexivity|]. split; [exact Hcreate|].
      rewrite (register_step env userData w w1 fu Hreg) in H.
      unfold try_finally, try_catch in H. unfold bind at 1 in H.
      rewrite Hcreate in H. inversion H; subst.
      split; [reflexivity|]. split; reflexivity.
    + exfalso.
      rewrite (register_create_fails env userData w w1 w2 fu e Hreg Hcreate)
        in H.
      unfold try_finally in H.
      pose proof (registerCatch_run env fu e w2) as K. cbv zeta in K.
      destruct K as [K _].
      destruct (AuthContext.registerCatch env (Some fu) e w2) as [r w3].
      simpl in K. subst r. inversion H.
  - exfalso. apply register_first_half_fails in Hreg.
    rewrite H in Hreg. inversion Hreg.
Qed.

Lemma setDisplayName_keeps (id name : string) (b : Account) :
  acc_email (Firebase.setDisplayName id name b) = acc_email b /\
  acc_password (Firebase.setDisplayName id name b) = acc_password b /\
  acc_uid (Firebase.setDisplayName id name b) = acc_uid b.
Proof.
  unfold Firebase.setDisplayName. destruct (acc_uid b =? id); auto.
Qed.

Lemma findAccount_after_register (env : Env) (userData : CreateUserData)
      (l : list Account) :
  Firebase.findAccount (cu_email userData) l = None ->
  exists a,
    Firebase.findAccount (cu_email userData)
                         (accountsAfterRegister env userData l) = Some a /\
    acc_password a = cu_password userData /\
    acc_uid a = newAuthUid env.
Proof.
  unfold accountsAfterRegister, Firebase.findAccount.
  induction l as [|b l IH]; cbn [app map find]; intros H.
  - destruct (setDisplayName_keeps (newAuthUid env)
                (cu_FirstName userData ++ " " ++ cu_LastName userData)
                (mkAccount (newAuthUid env) (cu_email userData)
                           (cu_password userData) "")) as (E1 & E2 & E3).
    rewrite E1. cbn [acc_email]. rewrite String.eqb_refl.
    eexists. split; [reflexivity|]. split; [exact E2 | exact E3].
  - destruct (setDisplayName_keeps (newAuthUid env)
                (cu_FirstName userData ++ " " ++ cu_LastName userData) b)
      as (E1 & _).
    rewrite E1.
    destruct (acc_email b =? cu_email userData) eqn:Hb; [discriminate|].
    apply IH, H.
Qed.

(** The record a successful [createUser] leaves in the directory is the
    first one a query selects, for every selection that held no record
    before and selects the new one. *)
Lemma createUser_first_selected (env : Env) (authId : string)
      (userData : CreateUserData) (w w' : World) (u : User) :
  UserService.createUser env authId userData w = (Ok u, w') ->
  exists image,
    let doc := UserService.newUserData env (newDocId env) authId userData
                                       image in
    Firebase.findDoc (newDocId env) (users w') = Some doc /\
    forall p, find p (users w) = None -> p doc = true ->
              find p (users w') = Some doc.
Proof.
  intros H.
  destruct (createUser_ok_full env authId userData w w' u H)
    as (image & w1 & _ & Hs & Hu & _).
  exists image. cbv zeta.
  set (doc := UserService.newUserData env (newDocId env) authId userData image)
    in *.
  unfold Firebase.setDoc in Hs.
  destruct (setDocFault env); [discriminate|].
  rewrite Hu in Hs.
  destruct (Firebase.findDoc (newDocId env) (users w)) as [old|] eqn:Hold;
    inversion Hs; subst w'; simpl.
  - split.
    + apply (findDoc_updateFirst_same (newDocId env) (fun _ => doc)
               (users w) old); [|exact Hold].
      apply findDoc_hasId in Hold. simpl. now rewrite Hold.
    + intros p Hn Hp. rewrite <- hd_error_filter.
      now rewrite (filter_updateFirst_new p (newDocId env) doc (users w) old).
  - split.
    + unfold Firebase.findDoc. rewrite <- hd_error_filter.
      rewrite filter_app_new; [reflexivity | exact Hold |].
      unfold Firebase.hasId. apply String.eqb_refl.
    + intros p Hn Hp. rewrite <- hd_error_filter.
      now rewrite filter_app_new.
Qed.

(** A login whose three lookups are known runs the gate on the record the
    credential resolves to. *)
Lemma login_known (env : Env) (c : LoginCredentials) (w : World)
      (u r : User) (a : Account) :
  lc_cardNumber c <> "" ->
  getDocsFault env "cardNumber" = false ->
  signInFault env = None ->
  getDocsFault env "authUid" = false ->
  find (fun x => cardNumber x =? lc_cardNumber c) (users w) = Some u ->
  Firebase.findAccount (email u) (accounts w) = Some a ->
  acc_password a = lc_password c ->
  find (fun x => authUid x =? acc_uid a) (users w) = Some r ->
  exists w2,
    AuthContext.login env c w =
    try_finally
      (try_catch (loginGate env (mkFirebaseUser (acc_uid a) (email u)) r)
         (fun err =>
            AuthContext.setError (Some (strOr (message err) "Failed to login"));;
            throw err))
      (fun w => setAuthCtx (withLoading false (authCtx w)) w) w2.
Proof.
  intros Hne Hq Hs Hq' Hu Ha Hp Hr.
  assert (HL : AuthService.login env c (started w) =
    (Ok (mkFirebaseUser (acc_uid a) (email u)),
     setCurrentUser (Some (acc_uid a))
       (log (EvSignIn (email u))
          (log (EvGetDocs "cardNumber" (lc_cardNumber c)) (started w))))).
  { unfold AuthService.login. unfold try_catch at 1. unfold bind at 1.
    rewrite getUserByCardNumber_run.
    apply String.eqb_neq in Hne. rewrite Hne, Hq.
    change (users (started w)) with (users w). rewrite Hu.
    unfold Firebase.signInWithEmailAndPassword. rewrite Hs.
    change (accounts (log _ (started w))) with (accounts w). rewrite Ha.
    apply String.eqb_eq in Hp. rewrite Hp. reflexivity. }
  eexists.
  apply (login_resolved env c w _ _ _ r HL).
  rewrite getUserByAuthUid_run, Hq'.
  change (fu_uid (mkFirebaseUser (acc_uid a) (email u))) with (acc_uid a).
  change (users (setCurrentUser _ (log _ (log _ (started w)))))
    with (users w).
  rewrite Hr. reflexivity.
Qed.

Lemma gate_refuses_pending (env : Env) (fu : FirebaseUser) (r : User)
      (w : World) :
  isActive r = true -> isApproved r = false ->
  let out :=
    try_finally
      (try_catch (loginGate env fu r)
         (fun err =>
            AuthContext.setError (Some (strOr (message err) "Failed to login"));;
            throw err))
      (fun w => setAuthCtx (withLoading false (authCtx w)) w) w in
  (exists e, fst out = Throw e) /\
  (signOutFault env = None ->
   surfaced out = Some "Your account is pending approval").
Proof.
  intros Ha Hp. cbv zeta. unfold loginGate. rewrite Ha, Hp.
  change (negb true) with false. change (negb false) with true.
  cbv beta iota.
  unfold AuthService.logout, Firebase.signOut, AuthContext.setError.
  unfold surfaced, try_finally, try_catch, bind, modify, throw.
  destruct (signOutFault env) as [se|].
  - remember (AuthService.handleAuthError se) as he. simpl.
    split; [eauto | discriminate].
  - simpl. split; [eauto | reflexivity].
Qed.

Lemma gate_admits_usable (env : Env) (fu : FirebaseUser) (r : User)
      (w : World) :
  isActive r = true -> isApproved r = true ->
  let out :=
    try_finally
      (try_catch (loginGate env fu r)
         (fun err =>
            AuthContext.setError (Some (strOr (message err) "Failed to login"));;
            throw err))
      (fun w => setAuthCtx (withLoading false (authCtx w)) w) w in
  fst out = Ok tt /\ ui_user (authCtx (snd out)) = Some r.
Proof.
  intros Ha Hp. cbv zeta. unfold loginGate. rewrite Ha, Hp.
  change (negb true) with false. cbv beta iota.
  unfold AuthContext.setUser, AuthContext.setFirebaseUser.
  unfold try_finally, try_catch, bind, modify. simpl. split; reflexivity.
Qed.

Lemma find_updateFirst_target (p : User -> bool) (id : string)
      (f : User -> User) (l : list User) (d : User) :
  (forall x, p (f x) = p x) ->
  find p l = Some d -> Firebase.findDoc id l = Some d ->
  find p (Firebase.updateFirst id f l) = Some (f d).
Proof.
  intros Hf. unfold Firebase.findDoc.
  induction l as [|v l IH]; simpl; [discriminate|].
  intros Hp Hd.
  destruct (Firebase.hasId id v) eqn:Hv.
  - inversion Hd; subst v. simpl. rewrite Hf.
    destruct (p d) eqn:Hpd; [reflexivity|].
    apply find_some in Hp. destruct Hp as [_ Hp]. congruence.
  - simpl. destruct (p v) eqn:Hpv.
    + inversion Hp; subst v. apply find_some in Hd.
      destruct Hd as [_ Hd]. congruence.
    + now apply IH.
Qed.

(** X25. After a successful registration with a non-empty card number, in
    a directory where the new credential id was not in use, a login with
    the registered card number and password reaches the new record: for
    the role admin it succeeds at once, since such a record is created
    approved; for every other role it is refused, as pending approval when
    the sign-out succeeds, and once the administrator's [approveUser] has
    succeeded on the new record the same login succeeds and installs that
    record, now approved. *)
Theorem registration_to_first_login
        (env : Env) (userData : CreateUserData) (w w1 : World) :
  AuthContext.register env userData w = (Ok tt, w1) ->
  cu_cardNumber userData <> "" ->
  find (fun x => authUid x =? newAuthUid env) (users w) = None ->
  signInFault env = None ->
  getDocsFault env "authUid" = false ->
  let c := mkLoginCredentials (cu_cardNumber userData) (cu_password userData) in
  (cu_role userData = admin -> fst (AuthContext.login env c w1) = Ok tt) /\
  (cu_role userData <> admin ->
   (exists e, fst (AuthContext.login env c w1) = Throw e) /\
   (signOutFault env = None ->
    surfaced (AuthContext.login env c w1)
    = Some "Your account is pending approval") /\
   forall w2,
     AdminService.approveUser env (newDocId env) w1 = (Ok tt, w2) ->
     exists u,
       fst (AuthContext.login env c w2) = Ok tt /\
       ui_user (authCtx (snd (AuthContext.login env c w2))) = Some u /\
       uid u = newDocId env /\ email u = cu_email userData /\
       isApproved u = true).
Proof.
  intros Hreg Hne Hfresh Hs Hq'. cbv zeta.
  destruct (register_ok_inv env userData w w1 Hreg)
    as (fu & wa & u & wb & Hr & Hc & Husers & Haccs & _).
  destruct (AuthService_register_stores env userData _ _ _ Hr)
    as (Hfu & Hua & Haa & Hnoacc).
  subst fu. change (fu_uid (mkFirebaseUser _ _)) with (newAuthUid env) in Hc.
  change (users (started w)) with (users w) in Hua.
  change (accounts (started w)) with (accounts w) in Haa, Hnoacc.
  assert (Hq : getDocsFault env "cardNumber" = false).
  { exact (createUser_ok_query env _ userData wa wb u Hne Hc). }
  destruct (createUser_ok_full env _ userData wa wb u Hc)
    as (_ & _ & _ & _ & _ & Hnocard).
  specialize (Hnocard Hne). rewrite Hua in Hnocard.
  destruct (createUser_first_selected env _ userData wa wb u Hc)
    as (image & Hsel). cbv zeta in Hsel.
  pose proof (createUser_keeps_accounts env _ userData wa wb u Hc) as Hab.
  remember (UserService.newUserData env (newDocId env) (newAuthUid env)
                                    userData image) as doc eqn:Hdoc.
  assert (Dcard : cardNumber doc = cu_cardNumber userData)
    by (subst doc; reflexivity).
  assert (Dmail : email doc = cu_email userData) by (subst doc; reflexivity).
  assert (Dauth : authUid doc = newAuthUid env) by (subst doc; reflexivity).
  assert (Duid : uid doc = newDocId env) by (subst doc; reflexivity).
  assert (Dact : isActive doc = true) by (subst doc; reflexivity).
  assert (Dapp : isApproved doc
                 = if UserRole_eqb (cu_role userData) admin then true else false)
    by (subst doc; reflexivity).
  clear Hdoc.
  destruct Hsel as [Hid Hsel]. rewrite Hua in Hsel.
  rewrite <- Husers in Hid, Hsel.
  assert (Hfc : find (fun x => cardNumber x =? cu_cardNumber userData)
                     (users w1) = Some doc).
  { apply Hsel; [exact Hnocard|]. rewrite Dcard. apply String.eqb_refl. }
  assert (Hfa : find (fun x => authUid x =? newAuthUid env) (users w1)
                = Some doc).
  { apply Hsel; [exact Hfresh|]. rewrite Dauth. apply String.eqb_refl. }
  destruct (findAccount_after_register env userData (accounts w) Hnoacc)
    as (a & Ha & Hpw & Hauid).
  rewrite <- Haa, <- Hab, <- Haccs in Ha.
  set (c := mkLoginCredentials (cu_cardNumber userData) (cu_password userData)).
  assert (Hfirst : exists w2,
    AuthContext.login env c w1 =
    try_finally
      (try_catch (loginGate env (mkFirebaseUser (acc_uid a) (email doc)) doc)
         (fun err =>
            AuthContext.setError (Some (strOr (message err) "Failed to login"));;
            throw err))
      (fun w => setAuthCtx (withLoading false (authCtx w)) w) w2).
  { apply login_known; try assumption.
    - now rewrite Dmail.
    - now rewrite Hauid. }
  destruct Hfirst as (wl & Hlogin).
  split.
  - intros Hrole. rewrite Hrole in Dapp. simpl in Dapp.
    rewrite Hlogin.
    exact (proj1 (gate_admits_usable env _ doc wl Dact Dapp)).
  - intros Hrole.
    assert (Dapp' : isApproved doc = false).
    { rewrite Dapp. destruct (cu_role userData); simpl; congruence. }
    destruct (gate_refuses_pending env (mkFirebaseUser (acc_uid a) (email doc))
                doc wl Dact Dapp') as [G1 G2].
    split; [now rewrite Hlogin|]. split; [now rewrite Hlogin|].
    intros w2 Happ.
    set (f := applyUpdates (mkPartial None (Some true) None None None)
                           (now env)).
    assert (Hw2 : users w2 = Firebase.updateFirst (newDocId env) f (users w1)
                  /\ accounts w2 = accounts w1).
    { unfold AdminService.approveUser, try_catch, throw in Happ.
      rewrite approveUser_run in Happ.
      destruct (updateDocFault env (newDocId env)); [discriminate|].
      destruct (Firebase.findDoc (newDocId env) (users w1)); [|discriminate].
      inversion Happ. split; reflexivity. }
    destruct Hw2 as [Hu2 Ha2].
    assert (Hfc2 : find (fun x => cardNumber x =? cu_cardNumber userData)
                        (users w2) = Some (f doc)).
    { rewrite Hu2. apply find_updateFirst_target; [reflexivity | exact Hfc |
                                                    exact Hid]. }
    assert (Hfa2 : find (fun x => authUid x =? newAuthUid env) (users w2)
                   = Some (f doc)).
    { rewrite Hu2. apply find_updateFirst_target; [reflexivity | exact Hfa |
                                                    exact Hid]. }
    assert (Hsecond : exists w3,
      AuthContext.login env c w2 =
      try_finally
        (try_catch
           (loginGate env (mkFirebaseUser (acc_uid a) (email (f doc))) (f doc))
           (fun err =>
              AuthContext.setError
                (Some (strOr (message err) "Failed to login"));;
              throw err))
        (fun w => setAuthCtx (withLoading false (authCtx w)) w) w3).
    { apply login_known; try assumption.
      - rewrite Ha2. change (email (f doc)) with (email doc).
        now rewrite Dmail.
      - now rewrite Hauid. }
    destruct Hsecond as (w3 & Hlogin2).
    assert (Fact : isActive (f doc) = true) by exact Dact.
    assert (Fapp : isApproved (f doc) = true) by reflexivity.
    destruct (gate_admits_usable env (mkFirebaseUser (acc_uid a) (email (f doc)))
                (f doc) w3 Fact Fapp) as [A1 A2].
    exists (f doc). rewrite Hlogin2.
    split; [exact A1|]. split; [exact A2|].
    split; [exact Duid|]. split; [exact Dmail | reflexivity].
Qed.

Lemma registration_to_first_login_witness :
  let w1 := snd (AuthContext.register sampleEnv studentRequest sampleWorld) in
  surfaced (AuthContext.login sampleEnv
              (mkLoginCredentials (cu_cardNumber studentRequest)
                                  (cu_password studentRequest)) w1)
  = Some "Your account is pending approval" /\
  fst (AuthContext.login sampleEnv
         (mkLoginCredentials (cu_cardNumber studentRequest)
                             (cu_password studentRequest))
         (snd (AdminService.approveUser sampleEnv (newDocId sampleEnv) w1)))
  = Ok tt.
Proof.
  intros w1.
  assert (Hreg : AuthContext.register sampleEnv studentRequest sampleWorld
                 = (Ok tt, w1)) by (vm_compute; reflexivity).
  assert (Hne : cu_cardNumber studentRequest <> "") by discriminate.
  destruct (registration_to_first_login sampleEnv studentRequest sampleWorld w1
              Hreg Hne eq_refl eq_refl eq_refl) as [_ H].
  assert (Hrole : cu_role studentRequest <> admin) by discriminate.
  destruct (H Hrole) as (_ & Hpending & Happroved).
  split; [exact (Hpending eq_refl)|].
  assert (Happ : AdminService.approveUser sampleEnv (newDocId sampleEnv) w1
                 = (Ok tt,
                    snd (AdminService.approveUser sampleEnv
                           (newDocId sampleEnv) w1)))
    by (vm_compute; reflexivity).
  destruct (Happroved _ Happ) as (u & Hok & _).
  exact Hok.
Defined.

(** ** The card screen after registration *)

(** X26. After a successful registration for a role other than admin, the
    user the card screen reads from the context is shown as
    "Pending Approval", with the warning indicator and no NFC id, while the
    access text, which looks at [isActive] only, tells that the card is
    active. *)
Theorem fresh_registration_card_view
        (env : Env) (userData : CreateUserData) (w w' : World) :
  AuthContext.register env userData w = (Ok tt, w') ->
  cu_role userData <> admin ->
  let user := ui_user (authCtx w') in
  UserCardUtils.getCardStatus user = "Pending Approval" /\
  UserCardUtils.shouldShowWarning user = true /\
  UserCardUtils.shouldShowSuccess user = false /\
  UserCardUtils.hasNfcId user = false /\
  UserCardUtils.getAccessStatusText user (cu_role userData)
  = match cu_role userData with
    | staff => "Card is active"
    | _ => "Your card is active"
    end.
Proof.
  intros Hreg Hrole. cbv zeta.
  destruct (register_ok_inv env userData w w' Hreg)
    as (fu & wa & u & wb & _ & Hc & _ & _ & Hui).
  rewrite Hui.
  apply createUser_ok_inv in Hc. destruct Hc as (image & w3 & -> & _).
  unfold UserCardUtils.getCardStatus, UserCardUtils.shouldShowWarning,
    UserCardUtils.shouldShowSuccess, UserCardUtils.hasNfcId,
    UserCardUtils.getAccessStatusText, UserService.createdUser.
  cbn [isActive isApproved nfcId truthy].
  destruct (cu_role userData); [congruence| |]; simpl; repeat split.
Qed.

Lemma fresh_registration_card_view_witness :
  let user :=
    ui_user (authCtx (snd (AuthContext.register sampleEnv studentRequest
                                                sampleWorld))) in
  UserCardUtils.getCardStatus user = "Pending Approval" /\
  UserCardUtils.getAccessStatusText user student = "Your card is active".
Proof.
  intros user.
  assert (Hreg : AuthContext.register sampleEnv studentRequest sampleWorld
                 = (Ok tt, snd (AuthContext.register sampleEnv studentRequest
                                                     sampleWorld)))
    by (vm_compute; reflexivity).
  assert (Hrole : cu_role studentRequest <> admin) by discriminate.
  destruct (fresh_registration_card_view sampleEnv studentRequest sampleWorld
              _ Hreg Hrole) as (H1 & _ & _ & _ & H5).
  split; [exact H1 | exact H5].
Defined.

(** ** Permission predicates *)

(** X27. [hasApprovalPermission] holds exactly for the staff records that
    [validateUserCanApprove] admits, and it holds for every actor for whom
    [approveStudent] succeeds.  [validateUserCanApprove] also admits every
    administrator, whom [hasApprovalPermission] and [approveStudent] both
    refuse; it admits no student and no missing user. *)
Theorem approval_permission_predicates
        (env : Env) (actor : User) (id : string) (w : World) :
  (StaffService.hasApprovalPermission actor = true <->
   role actor = staff /\
   AdminService.validateUserCanApprove (Some actor) = true) /\
  (fst (StaffService.approveStudent env actor id w) = Ok tt ->
   StaffService.hasApprovalPermission actor = true) /\
  (role actor = admin ->
   AdminService.validateUserCanApprove (Some actor) = true /\
   StaffService.hasApprovalPermission actor = false /\
   StaffService.approveStudent env actor id w
   = (Throw (Error "Only staff members can approve students"), w)) /\
  (role actor = student ->
   AdminService.validateUserCanApprove (Some actor) = false) /\
  AdminService.validateUserCanApprove None = false.
Proof.
  unfold StaffService.hasApprovalPermission,
    AdminService.validateUserCanApprove.
  split; [|split; [|split; [|split]]].
  - destruct (role actor); simpl;
      destruct (canApproveStudents actor) as [[|]|];
      split; try discriminate; try (intros [H1 H2]; discriminate); auto.
  - unfold StaffService.approveStudent, try_catch, bind, throw.
    destruct (role actor); simpl; try (intros H; inversion H; fail).
    destruct (canApproveStudents actor) as [[|]|]; simpl;
      try (intros H; inversion H; fail).
    reflexivity.
  - intros H. rewrite H. simpl. repeat split.
    unfold StaffService.approveStudent, try_catch, throw. rewrite H.
    reflexivity.
  - intros H. rewrite H. reflexivity.
  - reflexivity.
Qed.

(** ** The other batches *)

Lemma map_updateFirst_invariant (A : Type) (g : User -> A) (id : string)
      (f : User -> User) (l : list User) :
  (forall v, g (f v) = g v) ->
  map g (Firebase.updateFirst id f l) = map g l.
Proof.
  intros Hf. induction l as [|v l IH]; simpl; [reflexivity|].
  destruct (Firebase.hasId id v); simpl; [now rewrite Hf | now rewrite IH].
Qed.

Lemma goesThrough_same_ids (env : Env) (sel : string -> bool)
      (l l' : list User) (id : string) :
  map uid l = map uid l' ->
  goesThrough env sel l id = goesThrough env sel l' id.
Proof.
  intros H. unfold goesThrough. f_equal.
  pose proof (findDoc_same_ids id l l' H) as E.
  destruct (Firebase.findDoc id l), (Firebase.findDoc id l'); try reflexivity.
  - destruct E as [_ E]. discriminate (E eq_refl).
  - destruct E as [E _]. discriminate (E eq_refl).
Qed.

Lemma updateAll_invariant (A : Type) (g : User -> A) (f : User -> User)
      (good : string -> bool) (uids : list string) (l : list User) :
  (forall v, g (f v) = g v) ->
  map g (updateAll f good uids l) = map g l.
Proof.
  intros Hf. revert l. induction uids as [|id rest IH]; intros l; simpl;
    [reflexivity|].
  rewrite IH. destruct (good id); [|reflexivity].
  now apply map_updateFirst_invariant.
Qed.

Lemma updateAll_skips (f : User -> User) (good : string -> bool)
      (uids : list string) (l : list User) (j : string) :
  (forall v, uid (f v) = uid v) ->
  (In j uids -> good j = false) ->
  Firebase.findDoc j (updateAll f good uids l) = Firebase.findDoc j l.
Proof.
  intros Hf. revert l. induction uids as [|id rest IH]; intros l Hj; simpl;
    [reflexivity|].
  rewrite IH by (intros Hin; apply Hj; now right).
  destruct (good id) eqn:Hg; [|reflexivity].
  apply findDoc_updateFirst_other; [exact Hf|].
  intros ->. rewrite Hj in Hg by now left. discriminate.
Qed.

Lemma updateAll_keeps (f : User -> User) (good : string -> bool)
      (Q : User -> Prop) (uids : list string) (l : list User) (j : string)
      (u : User) :
  (forall v, uid (f v) = uid v) ->
  (forall v, Q (f v)) ->
  Firebase.findDoc j l = Some u -> Q u ->
  exists u', Firebase.findDoc j (updateAll f good uids l) = Some u' /\ Q u'.
Proof.
  intros Hf HQ. revert l u. induction uids as [|id rest IH]; intros l u Hu Hq;
    simpl; [eauto|].
  destruct (good id); [|eauto].
  destruct (String.eqb_spec id j) as [-> | Hne].
  - apply (IH _ (f u)); [|apply HQ].
    apply findDoc_updateFirst_same; [apply Hf | exact Hu].
  - apply (IH _ u); [|exact Hq].
    rewrite findDoc_updateFirst_other; auto.
Qed.

Lemma updateAll_applies (f : User -> User) (good : string -> bool)
      (Q : User -> Prop) (uids : list string) (l : list User) (j : string) :
  (forall v, uid (f v) = uid v) ->
  (forall v, Q (f v)) ->
  In j uids -> good j = true -> Firebase.findDoc j l <> None ->
  exists u', Firebase.findDoc j (updateAll f good uids l) = Some u' /\ Q u'.
Proof.
  intros Hf HQ. revert l. induction uids as [|id rest IH]; intros l Hin Hg Hl;
    simpl; [contradiction|].
  destruct (String.eqb_spec id j) as [-> | Hne].
  - rewrite Hg. destruct (Firebase.findDoc j l) as [u|] eqn:Hu;
      [|congruence].
    apply (updateAll_keeps f good Q rest _ j (f u)); auto.
    apply findDoc_updateFirst_same; [apply Hf | exact Hu].
  - destruct Hin as [E | Hin]; [congruence|].
    apply IH; auto.
    destruct (good id); [|exact Hl].
    rewrite findDoc_updateFirst_other; auto.
Qed.

Lemma filter_negb_length (A : Type) (p : A -> bool) (l : list A) :
  length (filter p l) + length (filter (fun x => negb (p x)) l) = length l.
Proof.
  induction l as [|a l IH]; simpl; [reflexivity|].
  destruct (p a); simpl; lia.
Qed.

(** The run of a batch whose closure applies [f] to the ids that go
    through and touches nothing otherwise. *)
Lemma batch_run (f : User -> User) (good : string -> bool)
      (body : string -> M bool) (w0 : World) :
  (forall v, uid (f v) = uid v) ->
  (forall id w, map uid (users w) = map uid (users w0) ->
     exists w', body id w = (Ok (good id), w') /\
       users w' = if good id then Firebase.updateFirst id f (users w)
                  else users w) ->
  forall uids acc w,
    map uid (users w) = map uid (users w0) ->
    exists w',
      promiseAllCounting body uids acc w
      = (Ok (mkBulk (success acc + length (filter good uids))
                    (failed acc
                     + length (filter (fun i => negb (good i)) uids))), w') /\
      users w' = updateAll f good uids (users w).
Proof.
  intros Hf Hbody. induction uids as [|id rest IH]; intros acc w Hids; simpl.
  - exists w. rewrite !Nat.add_0_r. destruct acc; auto.
  - destruct (Hbody id w Hids) as (w1 & Hrun & Hu1).
    assert (Hids1 : map uid (users w1) = map uid (users w0)).
    { rewrite Hu1. destruct (good id); [|exact Hids].
      rewrite map_uid_updateFirst; [exact Hids | exact Hf]. }
    unfold bind at 1. rewrite Hrun.
    destruct (good id) eqn:Hg; simpl.
    + destruct (IH (mkBulk (S (success acc)) (failed acc)) w1 Hids1)
        as (w' & Hloop & Hu').
      exists w'. rewrite Hloop, Hu', Hu1. simpl.
      split; [|reflexivity]. repeat f_equal. lia.
    + destruct (IH (mkBulk (success acc) (S (failed acc))) w1 Hids1)
        as (w' & Hloop & Hu').
      exists w'. rewrite Hloop, Hu', Hu1. simpl.
      split; [|reflexivity]. repeat f_equal. lia.
Qed.

Lemma applyUpdates_absorbs (p : PartialUser) (n m : nat) (v : User) :
  applyUpdates p m (applyUpdates p n v) = applyUpdates p m v.
Proof.
  destruct p as [a b c d e]. unfold applyUpdates. simpl.
  destruct a, b, c, d, e; reflexivity.
Qed.

(** From the run of the loop to the outcome of the batch. *)
Lemma batch_outcome (env : Env) (sel : string -> bool) (p : PartialUser)
      (Q : User -> Prop) (body : string -> M bool) (uids : list string)
      (w ws : World) :
  users ws = users w ->
  (forall v, Q (applyUpdates p (now env) v)) ->
  (forall id w1, map uid (users w1) = map uid (users w) ->
     exists w', body id w1 = (Ok (goesThrough env sel (users w) id), w') /\
       users w' = if goesThrough env sel (users w) id
                  then Firebase.updateFirst id (applyUpdates p (now env))
                                            (users w1)
                  else users w1) ->
  exists r w',
    promiseAllCounting body uids (mkBulk 0 0) ws = (Ok r, w') /\
    batchOutcome env sel p Q uids w (Ok r, w').
Proof.
  intros Hws HQ Hbody.
  destruct (batch_run (applyUpdates p (now env))
              (goesThrough env sel (users w)) body w
              (fun v => eq_refl) Hbody uids (mkBulk 0 0) ws)
    as (w' & Hrun & Hu); [now rewrite Hws|].
  rewrite Hws in Hu.
  eexists. exists w'. split; [exact Hrun|].
  unfold batchOutcome. cbv zeta. eexists. split; [reflexivity|].
  cbn [fst snd success failed]. rewrite Hu.
  split; [reflexivity|].
  split; [apply filter_negb_length|].
  split; [apply updateAll_invariant; intros v; apply applyUpdates_absorbs|].
  split.
  - intros id Hin Hg.
    apply updateAll_applies; auto.
    unfold goesThrough in Hg.
    destruct (Firebase.findDoc id (users w)); [discriminate|].
    rewrite andb_false_r in Hg. discriminate.
  - intros id Hid. apply updateAll_skips; auto.
Qed.

Lemma updateOne_run (env : Env) (p : PartialUser) (w0 : World) (id : string)
      (w : World) :
  map uid (users w) = map uid (users w0) ->
  exists w',
    AdminService.updateOne env p id w
    = (Ok (goesThrough env (fun _ => true) (users w0) id), w') /\
    users w' = if goesThrough env (fun _ => true) (users w0) id
               then Firebase.updateFirst id (applyUpdates p (now env)) (users w)
               else users w.
Proof.
  intros Hids.
  rewrite (goesThrough_same_ids env _ (users w0) (users w) id (eq_sym Hids)).
  unfold goesThrough, AdminService.updateOne. unfold try_catch, bind, ret.
  rewrite updateUser_run.
  destruct (updateDocFault env id); [simpl; eauto|].
  destruct (Firebase.findDoc id (users w)); simpl; eauto.
Qed.

Lemma deactivateOne_run (env : Env) (w0 : World) (id : string) (w : World) :
  map uid (users w) = map uid (users w0) ->
  exists w',
    AdminService.deactivateOne env id w
    = (Ok (goesThrough env (fun _ => true) (users w0) id), w') /\
    users w' = if goesThrough env (fun _ => true) (users w0) id
               then Firebase.updateFirst id
                      (applyUpdates deactivateUpdate (now env)) (users w)
               else users w.
Proof.
  intros Hids.
  rewrite (goesThrough_same_ids env _ (users w0) (users w) id (eq_sym Hids)).
  unfold goesThrough, AdminService.deactivateOne, UserService.deactivateUser.
  unfold try_catch, bind, ret, throw.
  rewrite updateUser_run.
  destruct (updateDocFault env id); [simpl; eauto|].
  destruct (Firebase.findDoc id (users w)); simpl; eauto.
Qed.

(** X28. The administrator's batches that grant, revoke, reject and
    approve-and-activate never fail: each returns the aggregate, whose
    success count is the number of listed ids whose write is accepted and
    whose record exists, and whose two counts add up to the number of
    listed ids.  Each leaves the directory as it was up to the properties
    it sets and [updatedAt], sets them on every id that went through, and
    leaves every other record untouched.  [rejectBulk] is
    [revokeAccessBulk] under another name. *)
Theorem admin_batches (env : Env) (uids : list string) (w : World) :
  batchOutcome env (fun _ => true) activateUpdate
    (fun u => isActive u = true) uids w
    (AdminService.grantAccessBulk env uids w) /\
  batchOutcome env (fun _ => true) deactivateUpdate
    (fun u => isActive u = false) uids w
    (AdminService.revokeAccessBulk env uids w) /\
  batchOutcome env (fun _ => true) approveActivateUpdate
    (fun u => isActive u = true /\ isApproved u = true) uids w
    (AdminService.approveAndActivateBulk env uids w) /\
  AdminService.rejectBulk env uids w = AdminService.revokeAccessBulk env uids w.
Proof.
  split; [|split; [|split]].
  - destruct (batch_outcome env (fun _ => true) activateUpdate
                (fun u => isActive u = true)
                (AdminService.updateOne env activateUpdate) uids w w eq_refl
                (fun v => eq_refl) (updateOne_run env activateUpdate w))
      as (r & w' & Hrun & Hout).
    unfold AdminService.grantAccessBulk, try_catch.
    fold activateUpdate. rewrite Hrun. exact Hout.
  - destruct (batch_outcome env (fun _ => true) deactivateUpdate
                (fun u => isActive u = false)
                (AdminService.deactivateOne env) uids w w eq_refl
                (fun v => eq_refl) (deactivateOne_run env w))
      as (r & w' & Hrun & Hout).
    unfold AdminService.revokeAccessBulk, try_catch.
    rewrite Hrun. exact Hout.
  - destruct (batch_outcome env (fun _ => true) approveActivateUpdate
                (fun u => isActive u = true /\ isApproved u = true)
                (AdminService.updateOne env approveActivateUpdate) uids w w
                eq_refl (fun v => conj eq_refl eq_refl)
                (updateOne_run env approveActivateUpdate w))
      as (r & w' & Hrun & Hout).
    unfold AdminService.approveAndActivateBulk, try_catch.
    fold approveActivateUpdate. rewrite Hrun. exact Hout.
  - destruct (batch_outcome env (fun _ => true) deactivateUpdate
                (fun u => isActive u = false)
                (AdminService.deactivateOne env) uids w w eq_refl
                (fun v => eq_refl) (deactivateOne_run env w))
      as (r & w' & Hrun & _).
    unfold AdminService.rejectBulk, AdminService.revokeAccessBulk, try_catch.
    rewrite Hrun. reflexivity.
Qed.

Lemma activateInDepartment_run (env : Env) (staffUser : User) (w0 : World)
      (id : string) (w : World) :
  map uid (users w) = map uid (users w0) ->
  exists w',
    StaffService.activateInDepartment env
      (StaffService.departmentStudentIds staffUser
         (UserService.orderByCreatedAtDesc
            (filter (fun u => UserRole_eqb (role u) student) (users w0))))
      id w
    = (Ok (goesThrough env (inDepartment staffUser w0) (users w0) id), w') /\
    users w' = if goesThrough env (inDepartment staffUser w0) (users w0) id
               then Firebase.updateFirst id
                      (applyUpdates activateUpdate (now env)) (users w)
               else users w.
Proof.
  intros Hids.
  rewrite (goesThrough_same_ids env _ (users w0) (users w) id (eq_sym Hids)).
  unfold goesThrough, StaffService.activateInDepartment.
  rewrite has_departmentStudentIds.
  unfold try_catch, bind, ret.
  destruct (inDepartment staffUser w0 id); simpl; [|eauto].
  rewrite updateUser_run.
  destruct (updateDocFault env id); [simpl; eauto|].
  destruct (Firebase.findDoc id (users w)); simpl; eauto.
Qed.

Lemma deactivateInDepartment_run (env : Env) (staffUser : User) (w0 : World)
      (id : string) (w : World) :
  map uid (users w) = map uid (users w0) ->
  exists w',
    StaffService.deactivateInDepartment env
      (StaffService.departmentStudentIds staffUser
         (UserService.orderByCreatedAtDesc
            (filter (fun u => UserRole_eqb (role u) student) (users w0))))
      id w
    = (Ok (goesThrough env (inDepartment staffUser w0) (users w0) id), w') /\
    users w' = if goesThrough env (inDepartment staffUser w0) (users w0) id
               then Firebase.updateFirst id
                      (applyUpdates deactivateUpdate (now env)) (users w)
               else users w.
Proof.
  intros Hids.
  rewrite (goesThrough_same_ids env _ (users w0) (users w) id (eq_sym Hids)).
  unfold goesThrough, StaffService.deactivateInDepartment,
    UserService.deactivateUser.
  rewrite has_departmentStudentIds.
  unfold try_catch, bind, ret, throw.
  destruct (inDepartment staffUser w0 id); simpl; [|eauto].
  rewrite updateUser_run.
  destruct (updateDocFault env id); [simpl; eauto|].
  destruct (Firebase.findDoc id (users w)); simpl; eauto.
Qed.

(** X29. For an actor whose [canApproveStudents] is set and a directory
    that answers the read of the students, the department-scoped batches
    that activate and deactivate return the aggregate and touch only the
    listed ids that are students of the actor's department.  They are
    narrower than the single operations: on a record of the actor's
    department that is not a student, [deactivateStudent] succeeds and
    leaves the record inactive, with its other properties but [updatedAt]
    as they were, while the batch does not count the id among its
    successes and leaves the record as it was. *)
Theorem staff_batches
        (env : Env) (actor : User) (uids : list string) (w : World) :
  truthyB (canApproveStudents actor) = true ->
  getDocsFault env "role" = false ->
  batchOutcome env (inDepartment actor w) activateUpdate
    (fun u => isActive u = true) uids w
    (StaffService.activateStudentsBulk env actor uids w) /\
  batchOutcome env (inDepartment actor w) deactivateUpdate
    (fun u => isActive u = false) uids w
    (StaffService.deactivateStudentsBulk env actor uids w) /\
  (forall id t,
     Firebase.findDoc id (users w) = Some t ->
     department t = department actor ->
     inDepartment actor w id = false ->
     getDocFault env id = false -> updateDocFault env id = false ->
     (fst (StaffService.deactivateStudent env actor id w) = Ok tt /\
      exists t',
        Firebase.findDoc id
          (users (snd (StaffService.deactivateStudent env actor id w)))
        = Some t' /\
        isActive t' = false /\ isApproved t' = isApproved t /\
        sameIdentity t t') /\
     goesThrough env (inDepartment actor w) (users w) id = false /\
     Firebase.findDoc id
       (users (snd (StaffService.deactivateStudentsBulk env actor uids w)))
     = Some t).
Proof.
  intros Hcan Hq.
  assert (Hact : batchOutcome env (inDepartment actor w) activateUpdate
                   (fun u => isActive u = true) uids w
                   (StaffService.activateStudentsBulk env actor uids w)).
  { destruct (batch_outcome env (inDepartment actor w) activateUpdate
                (fun u => isActive u = true)
                (StaffService.activateInDepartment env
                   (StaffService.departmentStudentIds actor
                      (UserService.orderByCreatedAtDesc
                         (filter (fun u => UserRole_eqb (role u) student)
                                 (users w)))))
                uids w (log (EvGetDocs "role" "student") w) eq_refl
                (fun v => eq_refl) (activateInDepartment_run env actor w))
      as (r & w' & Hrun & Hout).
    unfold StaffService.activateStudentsBulk. unfold try_catch at 1.
    rewrite Hcan. unfold bind at 1.
    change (negb true) with false. cbv beta iota.
    rewrite (getUsersByRole_run env student w Hq).
    simpl roleName. rewrite Hrun. exact Hout. }
  assert (Hdeact : batchOutcome env (inDepartment actor w) deactivateUpdate
                     (fun u => isActive u = false) uids w
                     (StaffService.deactivateStudentsBulk env actor uids w)).
  { destruct (batch_outcome env (inDepartment actor w) deactivateUpdate
                (fun u => isActive u = false)
                (StaffService.deactivateInDepartment env
                   (StaffService.departmentStudentIds actor
                      (UserService.orderByCreatedAtDesc
                         (filter (fun u => UserRole_eqb (role u) student)
                                 (users w)))))
                uids w (log (EvGetDocs "role" "student") w) eq_refl
                (fun v => eq_refl) (deactivateInDepartment_run env actor w))
      as (r & w' & Hrun & Hout).
    unfold StaffService.deactivateStudentsBulk. unfold try_catch at 1.
    rewrite Hcan. unfold bind at 1.
    change (negb true) with false. cbv beta iota.
    rewrite (getUsersByRole_run env student w Hq).
    simpl roleName. rewrite Hrun. exact Hout. }
  split; [exact Hact|]. split; [exact Hdeact|].
  intros id t Ht Hd Hout Hg Hu. split.
  - assert (Hrun : StaffService.deactivateStudent env actor id w =
      (Ok tt,
       setUsers (Firebase.updateFirst id
                   (applyUpdates deactivateUpdate (now env)) (users w))
                (log (EvUpdateDoc id) (log (EvGetDoc id) w)))).
    { unfold StaffService.deactivateStudent, UserService.deactivateUser.
      unfold try_catch, bind, throw. rewrite Hcan.
      change (negb true) with false. cbv beta iota.
      rewrite getUserByUid_run, Hg, Ht. cbv beta iota.
      apply String.eqb_eq in Hd. rewrite Hd.
      change (negb true) with false. cbv beta iota.
      rewrite updateUser_run, Hu.
      change (users (log (EvGetDoc id) w)) with (users w). rewrite Ht.
      reflexivity. }
    rewrite Hrun. split; [reflexivity|].
    eexists. split.
    + simpl. apply findDoc_updateFirst_same; [reflexivity | exact Ht].
    + simpl. unfold sameIdentity. simpl. repeat split.
  - assert (Hno : goesThrough env (inDepartment actor w) (users w) id = false)
      by (unfold goesThrough; now rewrite Hout).
    split; [exact Hno|].
    destruct Hdeact as (r & _ & _ & _ & _ & _ & Hskip).
    rewrite Hskip; [exact Ht|]. intros _. exact Hno.
Qed.

Lemma staff_batches_witness :
  fst (StaffService.deactivateStudent sampleEnv sampleStaff "B" sampleWorld)
  = Ok tt /\
  Firebase.findDoc "B"
    (users (snd (StaffService.deactivateStudentsBulk sampleEnv sampleStaff
                   ["A"; "B"] sampleWorld)))
  = Some sampleStaff.
Proof.
  destruct (staff_batches sampleEnv sampleStaff ["A"; "B"] sampleWorld
              eq_refl eq_refl) as (_ & _ & H).
  destruct (H "B" sampleStaff eq_refl eq_refl eq_refl eq_refl eq_refl)
    as ((Hok & _) & _ & Hkept).
  split; [exact Hok | exact Hkept].
Defined.
